(** * Data-capture-and-sync engine of the RDK data manager

    A shallow embedding of [services/datamanager/builtin/builtin.go]
    (the [builtIn] service: [Reconfigure], [Sync], [Close], the selective
    sync gate [readyToSync] and the file selector [getAllFilesToSync]) and
    of [ReconfigurableClientConn] from package [grpc], followed by the
    properties established about them. *)

From Stdlib Require Import ZArith String Ascii List Bool Lia.
From Stdlib Require Import Floats.PrimFloat.
From stdpp Require Import gmap strings list fin_maps.

Local Open Scope string_scope.
Local Open Scope Z_scope.

(** ** Machine integers and time *)

(** Go's [int] and [int64] on the 64-bit targets of the RDK: [Z] reduced into
    the signed 64-bit range after each arithmetic operation. *)
Definition wrap64 (z : Z) : Z := (z + 2 ^ 63) mod 2 ^ 64 - 2 ^ 63.

Definition minInt64 : Z := - 2 ^ 63.
Definition maxInt64 : Z := 2 ^ 63 - 1.

Module time.
(** [time.Duration] is an [int64] count of nanoseconds. *)
Definition Duration := Z.
Definition Millisecond : Duration := 1000000.
Definition Second : Duration := 1000000000.

(** [time.Time] as nanoseconds on one time line. *)
Definition Time := Z.

(** [Time.Sub]: the difference, saturated at the largest and the smallest
    [Duration]. *)
Definition Sub (t u : Time) : Duration :=
  if maxInt64 <? t - u then maxInt64
  else if t - u <? minInt64 then minInt64
  else t - u.

(** [Duration * Duration] in the 64 bits of an [int64]. *)
Definition mul (a b : Duration) : Duration := wrap64 (a * b).
End time.

Module clk.
(** The injected clock ([clk.Clock]); [now] is what it reads. *)
Definition Since (now t : time.Time) : time.Duration := time.Sub now t.
End clk.

(** ** The part of [path/filepath] and [os] the file selector uses *)

Module filepath.

Definition Separator : ascii := "/"%char.
Definition IsPathSeparator (c : ascii) : bool := Ascii.eqb c Separator.

(** The loop of [filepath.Ext], run over the bytes of the path from its last
    one: it stops at a separator with no extension, and at a dot with the
    suffix that starts there. *)
Fixpoint ext_scan (rev_path suffix : list ascii) : list ascii :=
  match rev_path with
  | [] => []
  | c :: r =>
      if IsPathSeparator c then []
      else if Ascii.eqb c "."%char then c :: suffix
      else ext_scan r (c :: suffix)
  end.

Definition Ext (path : string) : string :=
  string_of_list_ascii (ext_scan (rev (list_ascii_of_string path)) []).

(** [filepath.Join] of a clean directory path (other than the root of the
    file system) and one directory entry. *)
Definition Join (dir name : string) : string := dir ++ "/" ++ name.

(** [os.FileInfo], as far as it is read. *)
Record FileInfo := mkFileInfo { Name : string; IsDir : bool; ModTime : time.Time }.

(** What [os.Lstat] and reading a directory report of a path: a file that is
    not a directory, a directory with its entries in the order
    [readDirNames] returns them ([readErr] when reading it fails), or an
    entry whose [Lstat] fails. *)
#[warnings="-register-all"]
Inductive Entry :=
| File (name : string) (modTime : time.Time)
| Dir (name : string) (modTime : time.Time) (readErr : bool) (entries : list Entry)
| Broken (name : string).

Definition entry_name (e : Entry) : string :=
  match e with
  | File n _ => n
  | Dir n _ _ _ => n
  | Broken n => n
  end.

Definition entry_isDir (e : Entry) : bool :=
  match e with
  | Dir _ _ _ _ => true
  | _ => false
  end.

(** The errors a [WalkFunc] may return. *)
Inductive WalkErr := SkipDir | SkipAll | OtherErr.

(** [WalkFunc], with the state its closure writes to threaded through; the
    flag is [err != nil]. *)
Definition WalkFunc (S : Type) : Type :=
  string -> option FileInfo -> bool -> S -> S * option WalkErr.

Section Walk.
Context {S : Type} (walkFn : WalkFunc S).

(** [filepath.walk]. *)
Fixpoint walk (path : string) (e : Entry) (s : S) : S * option WalkErr :=
  match e with
  | File n mt => walkFn path (Some (mkFileInfo n false mt)) false s
  | Broken n => walkFn path None true s
  | Dir n mt readErr entries =>
      let '(s1, err1) := walkFn path (Some (mkFileInfo n true mt)) readErr s in
      if readErr || bool_decide (err1 <> None) then (s1, err1)
      else
        (fix loop (names : list Entry) (s : S) {struct names} : S * option WalkErr :=
           match names with
           | [] => (s, None)
           | c :: rest =>
               let filename := Join path (entry_name c) in
               match c with
               | Broken _ =>
                   let '(s', err) := walkFn filename None true s in
                   match err with
                   | Some OtherErr => (s', err)
                   | _ => loop rest s'
                   end
               | _ =>
                   let '(s', err) := walk filename c s in
                   match err with
                   | None => loop rest s'
                   | Some SkipDir =>
                       if entry_isDir c then loop rest s' else (s', err)
                   | Some _ => (s', err)
                   end
               end
           end) entries s1
  end.

(** [filepath.Walk]. *)
Definition Walk (root : string) (e : Entry) (s : S) : S * option WalkErr :=
  let '(s', err) :=
    match e with
    | Broken _ => walkFn root None true s
    | _ => walk root e s
    end in
  match err with
  | Some SkipDir | Some SkipAll => (s', None)
  | _ => (s', err)
  end.
End Walk.

End filepath.

(** ** The file selector *)

(** Default time to wait in milliseconds to check if a file has been modified. *)
Definition defaultFileLastModifiedMillis : Z := 10000.

Section FileSelector.
(** [datacapture.FileExt], [datacapture.InProgressFileExt] and
    [datasync.FailedDir] are constants of packages the selector imports. *)
Variables FileExt InProgressFileExt FailedDir : string.
(** The file system, read at a root path, and the reading of the clock. *)
Variable fs : string -> filepath.Entry.
Variable now : time.Time.

(** The closure [getAllFilesToSync] passes to [filepath.Walk]; its state is
    the slice [filePaths]. *)
Definition syncWalkFn (lastModifiedMillis : Z) : filepath.WalkFunc (list string) :=
  fun path info err filePaths =>
    if err then (filePaths, None)
    else
      match info with
      | None => (filePaths, None)
      | Some info =>
          if filepath.IsDir info && String.eqb (filepath.Name info) FailedDir
          then (filePaths, Some filepath.SkipDir)
          else if filepath.IsDir info then (filePaths, None)
          else
            let timeSinceMod := clk.Since now (filepath.ModTime info) in
            let timeSinceMod := if timeSinceMod <? 0 then 0 else timeSinceMod in
            let isStuckInProgressCaptureFile :=
              String.eqb (filepath.Ext path) InProgressFileExt
              && (defaultFileLastModifiedMillis * time.Millisecond <=? timeSinceMod) in
            let isNonCaptureFileThatIsNotBeingWrittenTo :=
              negb (String.eqb (filepath.Ext path) InProgressFileExt)
              && (time.mul lastModifiedMillis time.Millisecond <=? timeSinceMod) in
            let isCompletedCaptureFile := String.eqb (filepath.Ext path) FileExt in
            if isCompletedCaptureFile || isStuckInProgressCaptureFile
               || isNonCaptureFileThatIsNotBeingWrittenTo
            then ((filePaths ++ [path])%list, None)
            else (filePaths, None)
      end.

Definition getAllFilesToSync (dir : string) (lastModifiedMillis : Z) : list string :=
  fst (filepath.Walk (syncWalkFn lastModifiedMillis) dir (fs dir) []).

End FileSelector.

(** ** The swappable client connection ([ReconfigurableClientConn]) *)

Module grpc.

(** A Go [error] value: the one [errors.New] makes in this package, or one
    that an underlying connection returns. *)
Inductive error :=
| errors_New (msg : string)
| connError (connId : nat) (msg : string).

(** An [rpc.ClientConn]: its identity and what its methods answer. *)
Record ClientConn := mkClientConn {
  connId : nat;
  connInvoke : string -> option error;
  connNewStream : string -> nat + error;
  connClose : option error
}.

(** The calls that reach an underlying connection. *)
Inductive Call :=
| CallInvoke (connId : nat) (method : string)
| CallNewStream (connId : nat) (method : string)
| CallClose (connId : nat).

(** [connMu] guards [conn]; a call reads or writes [conn] atomically. *)
Record ReconfigurableClientConn := mkRCC { conn : option ClientConn }.

(** The zero value, before any connection is installed. *)
Definition zero : ReconfigurableClientConn := mkRCC None.

Definition Invoke (c : ReconfigurableClientConn) (method : string)
  : option error * list Call :=
  match conn c with
  | None => (Some (errors_New "not connected"), [])
  | Some k => (connInvoke k method, [CallInvoke (connId k) method])
  end.

Definition NewStream (c : ReconfigurableClientConn) (method : string)
  : (nat + error) * list Call :=
  match conn c with
  | None => (inr (errors_New "not connected"), [])
  | Some k => (connNewStream k method, [CallNewStream (connId k) method])
  end.

(** In Go a nil [rpc.ClientConn] may be passed; it is [None] here. *)
Definition ReplaceConn (c : ReconfigurableClientConn) (k : option ClientConn)
  : ReconfigurableClientConn :=
  mkRCC k.

Definition Close (c : ReconfigurableClientConn)
  : ReconfigurableClientConn * option error * list Call :=
  match conn c with
  | None => (c, None, [])
  | Some k => (mkRCC None, connClose k, [CallClose (connId k)])
  end.

(** The operations a client of the handle can perform. *)
Inductive Op :=
| OpReplaceConn (k : option ClientConn)
| OpClose
| OpInvoke (method : string)
| OpNewStream (method : string).

Definition step (c : ReconfigurableClientConn) (o : Op) : ReconfigurableClientConn :=
  match o with
  | OpReplaceConn k => ReplaceConn c k
  | OpClose => fst (fst (Close c))
  | OpInvoke _ | OpNewStream _ => c
  end.

Definition run (ops : list Op) (c : ReconfigurableClientConn) : ReconfigurableClientConn :=
  fold_left step ops c.

End grpc.

(** ** Data of the data manager *)

(** A Go slice: [nil], or a sequence of elements. [reflect.DeepEqual] tells a
    nil slice from an empty one. *)
Definition slice (A : Type) : Type := option (list A).

Definition slice_elems {A} (s : slice A) : list A := default [] s.

Module resource.
(** [resource.Name], as far as it is read: the API rendered as a string and
    the short name. *)
Record Name := mkName { API : string; ShortName : string }.

(** A live resource, by identity. *)
Definition Resource := nat.
End resource.

#[global] Instance resource_Name_eq_dec : EqDecision resource.Name.
Proof. solve_decision. Defined.

Module data.
Record MethodMetadata := mkMethodMetadata { API : string; MethodName : string }.

(** A [data.Collector], by identity. *)
Definition Collector := nat.
End data.

#[global] Instance MethodMetadata_eq_dec : EqDecision data.MethodMetadata.
Proof. solve_decision. Defined.

Module datamanager.
(** [datamanager.DataCaptureConfig], with the fields the service reads. *)
Record DataCaptureConfig := mkDataCaptureConfig {
  Name : resource.Name;
  Method : string;
  CaptureFrequencyHz : float;
  CaptureQueueSize : Z;
  CaptureBufferSize : Z;
  AdditionalParams : gmap string string;
  Disabled : bool;
  Tags : slice string;
  Resource : option resource.Resource;
  CaptureDirectory : string
}.

Definition set_Resource (r : option resource.Resource) (c : DataCaptureConfig) :=
  mkDataCaptureConfig (Name c) (Method c) (CaptureFrequencyHz c) (CaptureQueueSize c)
    (CaptureBufferSize c) (AdditionalParams c) (Disabled c) (Tags c) r (CaptureDirectory c).

Definition set_CaptureDirectory (d : string) (c : DataCaptureConfig) :=
  mkDataCaptureConfig (Name c) (Method c) (CaptureFrequencyHz c) (CaptureQueueSize c)
    (CaptureBufferSize c) (AdditionalParams c) (Disabled c) (Tags c) (Resource c) d.

Definition set_Tags (t : slice string) (c : DataCaptureConfig) :=
  mkDataCaptureConfig (Name c) (Method c) (CaptureFrequencyHz c) (CaptureQueueSize c)
    (CaptureBufferSize c) (AdditionalParams c) (Disabled c) t (Resource c)
    (CaptureDirectory c).
End datamanager.

(** A Go [interface{}] value, as a sensor reading holds it. *)
Inductive Value :=
| VBool (b : bool)
| VInt (z : Z)
| VFloat (f : float)
| VString (s : string)
| VNil.

(** [utils.AssertType[bool]]. *)
Definition AssertType_bool (v : Value) : option bool :=
  match v with
  | VBool b => Some b
  | _ => None
  end.

(** Config describes how to configure the service. *)
Record Config := mkConfig {
  CaptureDir : string;
  AdditionalSyncPaths : slice string;
  SyncIntervalMins : float;
  CaptureDisabled : bool;
  ScheduledSyncDisabled : bool;
  Tags : slice string;
  ResourceConfigs : list datamanager.DataCaptureConfig;
  FileLastModifiedMillis : Z;
  SelectiveSyncerName : string
}.

(** A [sensor.Sensor] used as [selectiveSyncer]: its identity and what
    [Readings] answers, the readings or an error. *)
Record selectiveSyncer := mkSensor {
  sensorId : nat;
  Readings : option (gmap string Value)
}.

(** Identifier for a particular collector: component name, component model,
    component type, method parameters, and method name. *)
Record resourceMethodMetadata := mkResourceMethodMetadata {
  ResourceName : string;
  MethodParams : string;
  MethodMetadata : data.MethodMetadata
}.

#[global] Instance resourceMethodMetadata_eq_dec : EqDecision resourceMethodMetadata.
Proof. solve_decision. Defined.

#[global] Instance resourceMethodMetadata_countable : Countable resourceMethodMetadata.
Proof.
  refine (inj_countable'
    (fun md => (ResourceName md, MethodParams md,
                data.API (MethodMetadata md), data.MethodName (MethodMetadata md)))
    (fun t => match t with
              | (rn, mp, api, mn) =>
                  mkResourceMethodMetadata rn mp (data.mkMethodMetadata api mn)
              end) _).
  intros [rn mp [api mn]]. reflexivity.
Defined.

(** Parameters stored for each collector. *)
Record collectorAndConfig := mkCollectorAndConfig {
  Collector : data.Collector;
  Config_ : datamanager.DataCaptureConfig
}.

(** The remote-sync client ([datasync.Manager]): the no-op manager, or one
    built by the constructor, by identity. *)
Inductive Manager :=
| NoopManager
| NewManager (id : nat).

(** ** The service state and its surroundings *)

(** The errors and the panic a call of the service can end in. *)
Inductive error :=
| errCaptureDirectoryConfigurationDisabled
| errNativeConfig                (* resource.NativeConfig: unexpected config type *)
| errMissingDependency           (* resource.FromDependencies: no cloud connection service *)
| ErrNotCloudManaged             (* cloud.ErrNotCloudManaged *)
| errAcquireConnection           (* any other error of AcquireConnection *)
| errSyncerInit                  (* "failed to initialize new syncer" *)
| panicNilCloudConnSvc.          (* a method call through the nil cloudConnSvc *)

(** What [cloud.ConnectionService.AcquireConnection] answers. *)
Inductive Acquired :=
| AcquireOk (partId : string) (conn : nat)
| AcquireNotCloudManaged
| AcquireFailed.

(** What the logger is told. *)
Inductive LogMsg :=
| LogReadingsError
| LogShouldSyncKeyNotPresent
| LogShouldSyncNotBool
| LogLookupFailed (name : resource.Name)
| LogCaptureFrequency (md : resourceMethodMetadata) (hz : float) (willSync : bool)
| LogCollectorFailed (md : resourceMethodMetadata)
| LogSelectiveSyncerUnavailable
| LogNoopManager.

(** What the service does to its collaborators. *)
Inductive Event :=
| MkdirAll (dir : string)
| CollectorNew (c : data.Collector) (md : resourceMethodMetadata)
| CollectorCollect (c : data.Collector)
| CollectorClose (c : data.Collector)
| CollectorFlush (c : data.Collector)
| SyncerNew (id : nat) (partId : string) (conn : nat) (captureDir : string)
| SyncerClose (m : Manager)
| SyncerSetArbitraryFileTags (m : Manager) (tags : slice string)
| SyncerSyncFile (m : Manager) (path : string)
| ConnClose (conn : nat)
| SchedulerStart (intervalMins : float)
| SchedulerCancel
| TickerStop.

(** The collaborators' side: the next fresh identity, what was done to them,
    and the log. *)
Record World := mkWorld {
  nextId : nat;
  events : list Event;
  logs : list LogMsg
}.

Definition emit (e : Event) (w : World) : World :=
  mkWorld (nextId w) (events w ++ [e]) (logs w).

Definition emits (es : list Event) (w : World) : World :=
  mkWorld (nextId w) (events w ++ es) (logs w).

Definition log (m : LogMsg) (w : World) : World :=
  mkWorld (nextId w) (events w) (logs w ++ [m]).

Definition fresh (w : World) : nat * World :=
  (nextId w, mkWorld (S (nextId w)) (events w) (logs w)).

(** [*v1.DataCaptureMetadata], as far as the target directory reads it. *)
Record DataCaptureMetadata := mkDataCaptureMetadata {
  GetComponentType : string;
  GetComponentName : string;
  GetMethodName : string
}.

(** [data.CollectorParams]; the interval is given as the frequency it is
    computed from. *)
Record CollectorParams := mkCollectorParams {
  ComponentName : string;
  IntervalOfHz : float;
  ParamsMethodParams : gmap string string;
  Target : string;
  QueueSize : Z;
  BufferSize : Z
}.

(** [resource.Dependencies], by what the three look-ups of [Reconfigure]
    find in it. *)
Record Dependencies := mkDependencies {
  (** [resources.Lookup(name)] *)
  Lookup : resource.Name -> option resource.Resource;
  (** [resource.FromDependencies[cloud.ConnectionService](deps, cloud.InternalServiceName)] *)
  cloudConnectionService : option nat;
  (** [sensor.FromDependencies(deps, name)] *)
  sensorFromDependencies : string -> option selectiveSyncer
}.

(** [resource.Config]: the attributes, when they are a [*Config]. *)
Record resource_Config := mkResourceConfig { ConvertedAttributes : option Config }.

(** What the service calls in other packages and in the operating system. *)
Record Env := mkEnv {
  (** [utils.IsTrustedEnvironment(ctx)] *)
  IsTrustedEnvironment : bool;
  (** [filepath.Join(os.Getenv("HOME"), ".viam", "capture")] *)
  viamCaptureDotDir : string;
  (** [datamanager.ShouldSyncKey] *)
  ShouldSyncKey : string;
  (** [fmt.Sprintf("%v", m)] of a map of strings *)
  Sprintf_v : gmap string string -> string;
  (** [DataCaptureConfig.Equals] *)
  Equals : datamanager.DataCaptureConfig -> datamanager.DataCaptureConfig -> bool;
  (** [datacapture.BuildCaptureMetadata] *)
  BuildCaptureMetadata :
    string -> string -> string -> gmap string string -> slice string ->
    option DataCaptureMetadata;
  (** [data.CollectorLookup], and whether the constructor found succeeds *)
  CollectorLookup :
    data.MethodMetadata ->
    option (option resource.Resource -> CollectorParams -> bool);
  (** [protoutils.ConvertStringMapToAnyPBMap] succeeds *)
  ConvertStringMapToAnyPBMap : gmap string string -> bool;
  (** [datacapture.FilePathWithReplacedReservedChars] *)
  FilePathWithReplacedReservedChars : string -> string;
  (** [os.MkdirAll] succeeds *)
  MkdirAllOk : string -> bool;
  (** [AcquireConnection] of the connection service of that identity *)
  AcquireConnection : nat -> Acquired;
  (** [svc.syncerConstructor] succeeds *)
  syncerConstructor : string -> nat -> string -> bool;
  (** [datacapture.FileExt], [datacapture.InProgressFileExt], [datasync.FailedDir] *)
  FileExt : string;
  InProgressFileExt : string;
  FailedDir : string
}.

(** builtIn initializes and orchestrates data capture collectors for
    registered component/methods. The lock, the wait group, the logger and
    the constructor of the syncer are in [World] and [Env]. *)
Record builtIn := mkBuiltIn {
  captureDir : string;
  captureDisabled : bool;
  collectors : gmap resourceMethodMetadata collectorAndConfig;
  fileLastModifiedMillis : Z;
  additionalSyncPaths : slice string;
  tags : slice string;
  syncDisabled : bool;
  syncIntervalMins : float;
  syncRoutineCancelFn : bool;          (* whether it is not nil *)
  syncer : option Manager;
  cloudConnSvc : option nat;
  cloudConn : option nat;
  syncTicker : option float;           (* the ticker, by its interval in minutes *)
  syncSensor : option selectiveSyncer;
  selectiveSyncEnabled : bool;
  componentMethodFrequencyHz : gmap resourceMethodMetadata float
}.

Definition set_captureDir v (s : builtIn) :=
  mkBuiltIn v (captureDisabled s) (collectors s) (fileLastModifiedMillis s)
    (additionalSyncPaths s) (tags s) (syncDisabled s) (syncIntervalMins s)
    (syncRoutineCancelFn s) (syncer s) (cloudConnSvc s) (cloudConn s) (syncTicker s)
    (syncSensor s) (selectiveSyncEnabled s) (componentMethodFrequencyHz s).
Definition set_captureDisabled v (s : builtIn) :=
  mkBuiltIn (captureDir s) v (collectors s) (fileLastModifiedMillis s)
    (additionalSyncPaths s) (tags s) (syncDisabled s) (syncIntervalMins s)
    (syncRoutineCancelFn s) (syncer s) (cloudConnSvc s) (cloudConn s) (syncTicker s)
    (syncSensor s) (selectiveSyncEnabled s) (componentMethodFrequencyHz s).
Definition set_collectors v (s : builtIn) :=
  mkBuiltIn (captureDir s) (captureDisabled s) v (fileLastModifiedMillis s)
    (additionalSyncPaths s) (tags s) (syncDisabled s) (syncIntervalMins s)
    (syncRoutineCancelFn s) (syncer s) (cloudConnSvc s) (cloudConn s) (syncTicker s)
    (syncSensor s) (selectiveSyncEnabled s) (componentMethodFrequencyHz s).
Definition set_fileLastModifiedMillis v (s : builtIn) :=
  mkBuiltIn (captureDir s) (captureDisabled s) (collectors s) v
    (additionalSyncPaths s) (tags s) (syncDisabled s) (syncIntervalMins s)
    (syncRoutineCancelFn s) (syncer s) (cloudConnSvc s) (cloudConn s) (syncTicker s)
    (syncSensor s) (selectiveSyncEnabled s) (componentMethodFrequencyHz s).
Definition set_additionalSyncPaths v (s : builtIn) :=
  mkBuiltIn (captureDir s) (captureDisabled s) (collectors s) (fileLastModifiedMillis s)
    v (tags s) (syncDisabled s) (syncIntervalMins s)
    (syncRoutineCancelFn s) (syncer s) (cloudConnSvc s) (cloudConn s) (syncTicker s)
    (syncSensor s) (selectiveSyncEnabled s) (componentMethodFrequencyHz s).
Definition set_tags v (s : builtIn) :=
  mkBuiltIn (captureDir s) (captureDisabled s) (collectors s) (fileLastModifiedMillis s)
    (additionalSyncPaths s) v (syncDisabled s) (syncIntervalMins s)
    (syncRoutineCancelFn s) (syncer s) (cloudConnSvc s) (cloudConn s) (syncTicker s)
    (syncSensor s) (selectiveSyncEnabled s) (componentMethodFrequencyHz s).
Definition set_syncDisabled v (s : builtIn) :=
  mkBuiltIn (captureDir s) (captureDisabled s) (collectors s) (fileLastModifiedMillis s)
    (additionalSyncPaths s) (tags s) v (syncIntervalMins s)
    (syncRoutineCancelFn s) (syncer s) (cloudConnSvc s) (cloudConn s) (syncTicker s)
    (syncSensor s) (selectiveSyncEnabled s) (componentMethodFrequencyHz s).
Definition set_syncIntervalMins v (s : builtIn) :=
  mkBuiltIn (captureDir s) (captureDisabled s) (collectors s) (fileLastModifiedMillis s)
    (additionalSyncPaths s) (tags s) (syncDisabled s) v
    (syncRoutineCancelFn s) (syncer s) (cloudConnSvc s) (cloudConn s) (syncTicker s)
    (syncSensor s) (selectiveSyncEnabled s) (componentMethodFrequencyHz s).
Definition set_syncRoutineCancelFn v (s : builtIn) :=
  mkBuiltIn (captureDir s) (captureDisabled s) (collectors s) (fileLastModifiedMillis s)
    (additionalSyncPaths s) (tags s) (syncDisabled s) (syncIntervalMins s)
    v (syncer s) (cloudConnSvc s) (cloudConn s) (syncTicker s)
    (syncSensor s) (selectiveSyncEnabled s) (componentMethodFrequencyHz s).
Definition set_syncer v (s : builtIn) :=
  mkBuiltIn (captureDir s) (captureDisabled s) (collectors s) (fileLastModifiedMillis s)
    (additionalSyncPaths s) (tags s) (syncDisabled s) (syncIntervalMins s)
    (syncRoutineCancelFn s) v (cloudConnSvc s) (cloudConn s) (syncTicker s)
    (syncSensor s) (selectiveSyncEnabled s) (componentMethodFrequencyHz s).
Definition set_cloudConnSvc v (s : builtIn) :=
  mkBuiltIn (captureDir s) (captureDisabled s) (collectors s) (fileLastModifiedMillis s)
    (additionalSyncPaths s) (tags s) (syncDisabled s) (syncIntervalMins s)
    (syncRoutineCancelFn s) (syncer s) v (cloudConn s) (syncTicker s)
    (syncSensor s) (selectiveSyncEnabled s) (componentMethodFrequencyHz s).
Definition set_cloudConn v (s : builtIn) :=
  mkBuiltIn (captureDir s) (captureDisabled s) (collectors s) (fileLastModifiedMillis s)
    (additionalSyncPaths s) (tags s) (syncDisabled s) (syncIntervalMins s)
    (syncRoutineCancelFn s) (syncer s) (cloudConnSvc s) v (syncTicker s)
    (syncSensor s) (selectiveSyncEnabled s) (componentMethodFrequencyHz s).
Definition set_syncTicker v (s : builtIn) :=
  mkBuiltIn (captureDir s) (captureDisabled s) (collectors s) (fileLastModifiedMillis s)
    (additionalSyncPaths s) (tags s) (syncDisabled s) (syncIntervalMins s)
    (syncRoutineCancelFn s) (syncer s) (cloudConnSvc s) (cloudConn s) v
    (syncSensor s) (selectiveSyncEnabled s) (componentMethodFrequencyHz s).
Definition set_syncSensor v (s : builtIn) :=
  mkBuiltIn (captureDir s) (captureDisabled s) (collectors s) (fileLastModifiedMillis s)
    (additionalSyncPaths s) (tags s) (syncDisabled s) (syncIntervalMins s)
    (syncRoutineCancelFn s) (syncer s) (cloudConnSvc s) (cloudConn s) (syncTicker s)
    v (selectiveSyncEnabled s) (componentMethodFrequencyHz s).
Definition set_selectiveSyncEnabled v (s : builtIn) :=
  mkBuiltIn (captureDir s) (captureDisabled s) (collectors s) (fileLastModifiedMillis s)
    (additionalSyncPaths s) (tags s) (syncDisabled s) (syncIntervalMins s)
    (syncRoutineCancelFn s) (syncer s) (cloudConnSvc s) (cloudConn s) (syncTicker s)
    (syncSensor s) v (componentMethodFrequencyHz s).
Definition set_componentMethodFrequencyHz v (s : builtIn) :=
  mkBuiltIn (captureDir s) (captureDisabled s) (collectors s) (fileLastModifiedMillis s)
    (additionalSyncPaths s) (tags s) (syncDisabled s) (syncIntervalMins s)
    (syncRoutineCancelFn s) (syncer s) (cloudConnSvc s) (cloudConn s) (syncTicker s)
    (syncSensor s) (selectiveSyncEnabled s) v.

(** ** The service *)

(** The Collector's queue should be big enough to ensure that .capture() is
    never blocked by the queue being written to disk. *)
Definition defaultCaptureQueueSize : Z := 250.

(** Default bufio.Writer buffer size in bytes. *)
Definition defaultCaptureBufferSize : Z := 4096.

Definition generateMetadataKey (component method : string) : string :=
  (component ++ "/" ++ method)%string.

Definition metadataToAdditionalParamFields : gmap string string :=
  <[generateMetadataKey "rdk:component:board" "Analogs" := "reader_name"]>
    (<[generateMetadataKey "rdk:component:board" "Gpios" := "pin_name"]> ∅).

Section Service.
Variable E : Env.
(** The file system and the reading of the clock when a sync pass runs. *)
Variable fs : string -> filepath.Entry.
Variable now : time.Time.

(** readyToSync is a method for getting the bool reading from the selective
    sync sensor for determining whether the key is present and what its
    value is. *)
Definition readyToSync (s : selectiveSyncer) (w : World) : bool * World :=
  match Readings s with
  | None => (false, log LogReadingsError w)
  | Some readings =>
      match readings !! ShouldSyncKey E with
      | None => (false, log LogShouldSyncKeyNotPresent w)
      | Some readyToSyncVal =>
          match AssertType_bool readyToSyncVal with
          | None => (false, log LogShouldSyncNotBool w)
          | Some readyToSyncBool => (readyToSyncBool, w)
          end
      end
  end.

(** The collectors are closed by goroutines that are joined; the order of a
    range over a Go map is not fixed, and is [map_to_list]'s here. *)
Definition closeCollectors (svc : builtIn) (w : World) : builtIn * World :=
  (set_collectors ∅ svc,
   emits (map (fun kv => CollectorClose (Collector (snd kv)))
            (map_to_list (collectors svc))) w).

Definition flushCollectors (svc : builtIn) (w : World) : World :=
  emits (map (fun kv => CollectorFlush (Collector (snd kv)))
           (map_to_list (collectors svc))) w.

(** Initialize a collector for the component/method or update it if it has
    previously been created; [None] is the error return. *)
Definition initializeOrUpdateCollector
    (svc : builtIn) (md : resourceMethodMetadata)
    (config : datamanager.DataCaptureConfig) (w : World)
  : option collectorAndConfig * World :=
  match BuildCaptureMetadata E
          (resource.API (datamanager.Name config))
          (resource.ShortName (datamanager.Name config))
          (datamanager.Method config)
          (datamanager.AdditionalParams config)
          (datamanager.Tags config) with
  | None => (None, w)
  | Some captureMetadata =>
      let create (w : World) : option collectorAndConfig * World :=
        match CollectorLookup E (MethodMetadata md) with
        | None => (None, w)
        | Some collectorConstructor =>
            let captureQueueSize :=
              if datamanager.CaptureQueueSize config =? 0
              then defaultCaptureQueueSize
              else datamanager.CaptureQueueSize config in
            let captureBufferSize :=
              if datamanager.CaptureBufferSize config =? 0
              then defaultCaptureBufferSize
              else datamanager.CaptureBufferSize config in
            let missingParam :=
              match metadataToAdditionalParamFields
                      !! generateMetadataKey (data.API (MethodMetadata md))
                                             (data.MethodName (MethodMetadata md)) with
              | Some additionalParamKey =>
                  bool_decide
                    (datamanager.AdditionalParams config !! additionalParamKey = None)
              | None => false
              end in
            if missingParam then (None, w)
            else if negb (ConvertStringMapToAnyPBMap E (datamanager.AdditionalParams config))
            then (None, w)
            else
              let targetDir :=
                FilePathWithReplacedReservedChars E
                  (filepath.Join
                     (filepath.Join
                        (filepath.Join (captureDir svc) (GetComponentType captureMetadata))
                        (GetComponentName captureMetadata))
                     (GetMethodName captureMetadata)) in
              if negb (MkdirAllOk E targetDir) then (None, w)
              else
                let w := emit (MkdirAll targetDir) w in
                let params :=
                  mkCollectorParams
                    (resource.ShortName (datamanager.Name config))
                    (datamanager.CaptureFrequencyHz config)
                    (datamanager.AdditionalParams config)
                    targetDir captureQueueSize captureBufferSize in
                if collectorConstructor (datamanager.Resource config) params then
                  let '(c, w) := fresh w in
                  (Some (mkCollectorAndConfig c config),
                   emit (CollectorCollect c) (emit (CollectorNew c md) w))
                else (None, w)
        end in
      match collectors svc !! md with
      | Some storedCollectorAndConfig =>
          if Equals E (Config_ storedCollectorAndConfig) config
          then (collectors svc !! md, w)
          else create (emit (CollectorClose (Collector storedCollectorAndConfig)) w)
      | None => create w
      end
  end.

Definition closeSyncer (svc : builtIn) (w : World) : builtIn * World :=
  let '(svc, w) :=
    match syncer svc with
    | Some m => (set_syncer None svc, emit (SyncerClose m) w)
    | None => (svc, w)
    end in
  match cloudConn svc with
  | Some c => (svc, emit (ConnClose c) w)
  | None => (svc, w)
  end.

Definition initSyncer (svc : builtIn) (w : World) : builtIn * World * option error :=
  match cloudConnSvc svc with
  | None => (svc, w, Some panicNilCloudConnSvc)
  | Some c =>
      match AcquireConnection E c with
      | AcquireNotCloudManaged =>
          (set_syncer (Some NoopManager) svc, log LogNoopManager w,
           Some ErrNotCloudManaged)
      | AcquireFailed => (svc, w, Some errAcquireConnection)
      | AcquireOk partId conn =>
          if syncerConstructor E partId conn (captureDir svc) then
            let '(id, w) := fresh w in
            (set_cloudConn (Some conn) (set_syncer (Some (NewManager id)) svc),
             emit (SyncerNew id partId conn (captureDir svc)) w, None)
          else (svc, w, Some errSyncerInit)
      end
  end.

(** The paths one sync pass hands to the syncer. *)
Definition toSync (svc : builtIn) : list string :=
  (getAllFilesToSync (FileExt E) (InProgressFileExt E) (FailedDir E) fs now
     (captureDir svc) (fileLastModifiedMillis svc)
   ++ flat_map
        (fun ap =>
           getAllFilesToSync (FileExt E) (InProgressFileExt E) (FailedDir E) fs now
             ap (fileLastModifiedMillis svc))
        (slice_elems (additionalSyncPaths svc)))%list.

(** [sync]; a nil syncer is first touched when a path is handed to it. *)
Definition sync (svc : builtIn) (w : World) : World :=
  let w := flushCollectors svc w in
  match syncer svc with
  | Some m => emits (map (SyncerSyncFile m) (toSync svc)) w
  | None => w
  end.

(** Sync performs a non-scheduled sync of the data in the capture directory. *)
Definition Sync (svc : builtIn) (w : World) : builtIn * World * option error :=
  match syncer svc with
  | None =>
      match initSyncer svc w with
      | (svc, w, Some err) => (svc, w, Some err)
      | (svc, w, None) => (svc, sync svc w, None)
      end
  | Some _ => (svc, sync svc w, None)
  end.

(** Build the component configs associated with the data manager service:
    the declarations are written to in place, and are returned here. *)
Fixpoint updateDataCaptureConfigs
    (resources : Dependencies) (resourceConfigs : list datamanager.DataCaptureConfig)
    (captureDir : string) (w : World)
  : list datamanager.DataCaptureConfig * World :=
  match resourceConfigs with
  | [] => ([], w)
  | resConf :: rest =>
      match Lookup resources (datamanager.Name resConf) with
      | None =>
          let '(rest', w) :=
            updateDataCaptureConfigs resources rest captureDir
              (log (LogLookupFailed (datamanager.Name resConf)) w) in
          (resConf :: rest', w)
      | Some res =>
          let '(rest', w) := updateDataCaptureConfigs resources rest captureDir w in
          (datamanager.set_CaptureDirectory captureDir
             (datamanager.set_Resource (Some res) resConf) :: rest', w)
      end
  end.

(** cancelSyncScheduler cancels the goroutine that calls Sync repeatedly if
    scheduled sync is enabled. *)
Definition cancelSyncScheduler (svc : builtIn) (w : World) : builtIn * World :=
  if syncRoutineCancelFn svc
  then (set_syncRoutineCancelFn false svc, emit SchedulerCancel w)
  else (svc, w).

(** startSyncScheduler starts the goroutine that calls Sync repeatedly if
    scheduled sync is enabled; the goroutine's ticks are [onTick]. *)
Definition startSyncScheduler (intervalMins : float) (svc : builtIn) (w : World)
  : builtIn * World :=
  (set_syncTicker (Some intervalMins) (set_syncRoutineCancelFn true svc),
   emit (SchedulerStart intervalMins) w).

(** What the scheduler computes under the lock on a tick. *)
Definition shouldSync (svc : builtIn) (w : World) : bool * World :=
  let shouldSync := negb (selectiveSyncEnabled svc) in
  match syncSensor svc with
  | Some s => if selectiveSyncEnabled svc then readyToSync s w else (shouldSync, w)
  | None => (shouldSync, w)
  end.

(** One tick of the loop of [uploadData]. *)
Definition onTick (svc : builtIn) (w : World) : World :=
  match syncer svc with
  | Some _ =>
      let '(b, w) := shouldSync svc w in
      if b then sync svc w else w
  | None => w
  end.

(** Close releases all resources managed by data_manager. *)
Definition Close (svc : builtIn) (w : World) : builtIn * World :=
  let '(svc, w) := closeCollectors svc w in
  let '(svc, w) := closeSyncer svc w in
  if syncRoutineCancelFn svc then (svc, emit SchedulerCancel w) else (svc, w).

End Service.

Section Reconfigure.
Variable E : Env.

(** The body of the loop of [Reconfigure] over [svcConfig.ResourceConfigs]:
    the service, [newCollectors] and the collaborators before and after one
    declaration. *)
Definition reconfigureCollector (svcConfig : Config)
    (acc : builtIn * gmap resourceMethodMetadata collectorAndConfig * World)
    (resConf : datamanager.DataCaptureConfig)
  : builtIn * gmap resourceMethodMetadata collectorAndConfig * World :=
  let '(svc, newCollectors, w) := acc in
  match datamanager.Resource resConf with
  | None => acc
  | Some _ =>
      let methodMetadata :=
        data.mkMethodMetadata (resource.API (datamanager.Name resConf))
          (datamanager.Method resConf) in
      let componentMethodMetadata :=
        mkResourceMethodMetadata
          (resource.ShortName (datamanager.Name resConf))
          (Sprintf_v E (datamanager.AdditionalParams resConf))
          methodMetadata in
      let hz := datamanager.CaptureFrequencyHz resConf in
      let logged :=
        log (LogCaptureFrequency componentMethodMetadata hz
               (negb (PrimFloat.eqb hz 0%float))) w in
      let w :=
        match componentMethodFrequencyHz svc !! componentMethodMetadata with
        | None => logged
        | Some old => if negb (PrimFloat.eqb hz old) then logged else w
        end in
      let svc :=
        set_componentMethodFrequencyHz
          (<[componentMethodMetadata := hz]> (componentMethodFrequencyHz svc)) svc in
      if negb (datamanager.Disabled resConf) && PrimFloat.ltb 0%float hz then
        let resConf := datamanager.set_Tags (Tags svcConfig) resConf in
        match initializeOrUpdateCollector E svc componentMethodMetadata resConf w with
        | (None, w) => (svc, newCollectors, log (LogCollectorFailed componentMethodMetadata) w)
        | (Some newCollectorAndConfig, w) =>
            (svc, <[componentMethodMetadata := newCollectorAndConfig]> newCollectors, w)
        end
      else (svc, newCollectors, w)
  end.

(** The collectors of [svc.collectors] that [newCollectors] has no entry
    for are closed. *)
Definition closeRemoved
    (old new : gmap resourceMethodMetadata collectorAndConfig) : list Event :=
  omap (fun kv =>
          match new !! fst kv with
          | None => Some (CollectorClose (Collector (snd kv)))
          | Some _ => None
          end)
       (map_to_list old).

(** Lines 425 to 495 of [Reconfigure]: the capture directory and the
    collectors. *)
Definition reconfigureCapture (svcConfig : Config)
    (resourceConfigs : list datamanager.DataCaptureConfig)
    (svc : builtIn) (w : World) : builtIn * World :=
  let svc :=
    if bool_decide (CaptureDir svcConfig <> "")
    then set_captureDir (CaptureDir svcConfig) svc
    else set_captureDir (viamCaptureDotDir E) svc in
  let svc := set_captureDisabled (CaptureDisabled svcConfig) svc in
  let '(svc, w) :=
    if captureDisabled svc then closeCollectors svc w else (svc, w) in
  let '(svc, newCollectors, w) :=
    if negb (captureDisabled svc)
    then fold_left (reconfigureCollector svcConfig) resourceConfigs (svc, ∅, w)
    else (svc, ∅, w) in
  let w := emits (closeRemoved (collectors svc) newCollectors) w in
  let svc := set_collectors newCollectors svc in
  (set_additionalSyncPaths (AdditionalSyncPaths svcConfig) svc, w).

(** Lines 502 to 515: the selective syncer. After the comparison of line 513
    [svc.syncSensor] is [syncSensor] on both branches. *)
Definition reconfigureSelectiveSync (deps : Dependencies) (svcConfig : Config)
    (svc : builtIn) (w : World) : builtIn * World :=
  let '(svc, syncSensor, w) :=
    if bool_decide (SelectiveSyncerName svcConfig <> "") then
      let svc := set_selectiveSyncEnabled true svc in
      match sensorFromDependencies deps (SelectiveSyncerName svcConfig) with
      | Some s => (svc, Some s, w)
      | None => (svc, None, log LogSelectiveSyncerUnavailable w)
      end
    else (set_selectiveSyncEnabled false svc, None, w) in
  (set_syncSensor syncSensor svc, w).

(** Lines 517 to 547: the scheduler and the syncer. *)
Definition reconfigureSync (reinitSyncer : bool) (svcConfig : Config)
    (fileLastModifiedMillis' : Z) (svc : builtIn) (w : World)
  : builtIn * World * option error :=
  if negb (Bool.eqb (syncDisabled svc) (ScheduledSyncDisabled svcConfig))
     || negb (PrimFloat.eqb (syncIntervalMins svc) (SyncIntervalMins svcConfig))
     || negb (bool_decide (tags svc = Tags svcConfig))
     || negb (fileLastModifiedMillis svc =? fileLastModifiedMillis')
  then
    let svc := set_syncDisabled (ScheduledSyncDisabled svcConfig) svc in
    let svc := set_syncIntervalMins (SyncIntervalMins svcConfig) svc in
    let svc := set_tags (Tags svcConfig) svc in
    let svc := set_fileLastModifiedMillis fileLastModifiedMillis' svc in
    let '(svc, w) := cancelSyncScheduler svc w in
    if negb (syncDisabled svc) && negb (PrimFloat.eqb (syncIntervalMins svc) 0%float)
    then
      let '(svc, w, err) :=
        match syncer svc with
        | None => initSyncer E svc w
        | Some _ =>
            if reinitSyncer then
              let '(svc, w) := closeSyncer svc w in
              initSyncer E svc w
            else (svc, w, None)
        end in
      match err with
      | Some e => (svc, w, Some e)
      | None =>
          let w :=
            match syncer svc with
            | Some m => emit (SyncerSetArbitraryFileTags m (tags svc)) w
            | None => w
            end in
          let '(svc, w) := startSyncScheduler (syncIntervalMins svc) svc w in
          (svc, w, None)
      end
    else
      let '(svc, w) :=
        match syncTicker svc with
        | Some _ => (set_syncTicker None svc, emit TickerStop w)
        | None => (svc, w)
        end in
      let '(svc, w) := closeSyncer svc w in
      (svc, w, None)
  else (svc, w, None).

(** Reconfigure updates the data manager service when the config has
    changed. *)
Definition Reconfigure (svc : builtIn) (w : World)
    (deps : Dependencies) (conf : resource_Config)
  : builtIn * World * option error :=
  match ConvertedAttributes conf with
  | None => (svc, w, Some errNativeConfig)
  | Some svcConfig =>
      match cloudConnectionService deps with
      | None => (svc, w, Some errMissingDependency)
      | Some cloudConnSvc' =>
          let reinitSyncer := negb (bool_decide (Some cloudConnSvc' = cloudConnSvc svc)) in
          let svc := set_cloudConnSvc (Some cloudConnSvc') svc in
          let '(resourceConfigs, w) :=
            updateDataCaptureConfigs deps (ResourceConfigs svcConfig)
              (CaptureDir svcConfig) w in
          if negb (IsTrustedEnvironment E)
             && bool_decide (CaptureDir svcConfig <> "")
             && bool_decide (CaptureDir svcConfig <> viamCaptureDotDir E)
          then (svc, w, Some errCaptureDirectoryConfigurationDisabled)
          else
            let '(svc, w) := reconfigureCapture svcConfig resourceConfigs svc w in
            let fileLastModifiedMillis' :=
              if FileLastModifiedMillis svcConfig <=? 0
              then defaultFileLastModifiedMillis
              else FileLastModifiedMillis svcConfig in
            let '(svc, w) := reconfigureSelectiveSync deps svcConfig svc w in
            reconfigureSync reinitSyncer svcConfig fileLastModifiedMillis' svc w
      end
  end.

(** The service as [NewBuiltIn] makes it, before its first [Reconfigure]. *)
Definition newBuiltIn : builtIn :=
  mkBuiltIn (viamCaptureDotDir E) false ∅ defaultFileLastModifiedMillis
    (Some []) (Some []) false 0%float false None None None None None false ∅.

(** NewBuiltIn returns a new data manager service for the given robot. *)
Definition NewBuiltIn (w : World) (deps : Dependencies) (conf : resource_Config)
  : option builtIn * World * option error :=
  match Reconfigure newBuiltIn w deps conf with
  | (svc, w, None) => (Some svc, w, None)
  | (_, w, Some err) => (None, w, Some err)
  end.

End Reconfigure.

(** ** Notions the properties of the file selector are stated with *)

Section ScanSpec.
Variables FileExt InProgressFileExt FailedDir : string.
Variable now : time.Time.

(** The age of a file at its last modification time: the time since then on
    the injected clock, and zero when that is negative. *)
Definition age (modTime : time.Time) : time.Duration :=
  Z.max 0 (clk.Since now modTime).

(** The three predicates of the selector, with the configured stale
    threshold as the number of milliseconds it stands for. *)
Definition isCompletedCapture (path : string) : Prop :=
  filepath.Ext path = FileExt.

Definition isStuckInProgress (path : string) (modTime : time.Time) : Prop :=
  filepath.Ext path = InProgressFileExt
  /\ 10000 * time.Millisecond <= age modTime.

Definition isStaleNonCapture (staleMillis : Z) (path : string) (modTime : time.Time) : Prop :=
  filepath.Ext path <> InProgressFileExt
  /\ staleMillis * time.Millisecond <= age modTime.

Definition eligible (staleMillis : Z) (path : string) (modTime : time.Time) : Prop :=
  isCompletedCapture path
  \/ isStuckInProgress path modTime
  \/ isStaleNonCapture staleMillis path modTime.

(** The condition of line 654 on a file, as the closure evaluates it. *)
Definition selects (lastModifiedMillis : Z) (path : string) (modTime : time.Time) : bool :=
  let timeSinceMod := clk.Since now modTime in
  let timeSinceMod := if timeSinceMod <? 0 then 0 else timeSinceMod in
  String.eqb (filepath.Ext path) FileExt
  || String.eqb (filepath.Ext path) InProgressFileExt
     && (defaultFileLastModifiedMillis * time.Millisecond <=? timeSinceMod)
  || negb (String.eqb (filepath.Ext path) InProgressFileExt)
     && (time.mul lastModifiedMillis time.Millisecond <=? timeSinceMod).

(** The paths the walk appends for the tree [e] found at [path]. *)
Fixpoint selected (lastModifiedMillis : Z) (path : string) (e : filepath.Entry)
  : list string :=
  match e with
  | filepath.File _ mt => if selects lastModifiedMillis path mt then [path] else []
  | filepath.Broken _ => []
  | filepath.Dir n _ readErr entries =>
      if readErr || String.eqb n FailedDir then []
      else
        flat_map
          (fun c => selected lastModifiedMillis
                      (filepath.Join path (filepath.entry_name c)) c)
          entries
  end.

(** What [walk] returns besides the paths: [SkipDir] at a readable
    directory named [FailedDir], no error elsewhere. *)
Definition walk_err (e : filepath.Entry) : option filepath.WalkErr :=
  match e with
  | filepath.Dir n _ false _ =>
      if String.eqb n FailedDir then Some filepath.SkipDir else None
  | _ => None
  end.

(** [Scanned path e p mt]: in the tree [e] found at [path], [p] is the path
    of a regular file last modified at [mt] that lies under no directory
    named [FailedDir] and under no directory that cannot be read. *)
Inductive Scanned : string -> filepath.Entry -> string -> time.Time -> Prop :=
| Scanned_file path n mt :
    Scanned path (filepath.File n mt) path mt
| Scanned_dir path n dmt entries c p mt :
    n <> FailedDir ->
    In c entries ->
    Scanned (filepath.Join path (filepath.entry_name c)) c p mt ->
    Scanned path (filepath.Dir n dmt false entries) p mt.

(** [EntryAt path e p]: [p] is the path of [e], found at [path], or of an
    entry below it. *)
Inductive EntryAt : string -> filepath.Entry -> string -> Prop :=
| EntryAt_here path e :
    EntryAt path e path
| EntryAt_below path n dmt readErr entries c p :
    In c entries ->
    EntryAt (filepath.Join path (filepath.entry_name c)) c p ->
    EntryAt path (filepath.Dir n dmt readErr entries) p.

(** [UnderFailed path e p]: in the tree [e] found at [path], [p] is the path
    of an entry under a directory whose name is [FailedDir]. *)
Inductive UnderFailed : string -> filepath.Entry -> string -> Prop :=
| UnderFailed_here path dmt readErr entries c p :
    In c entries ->
    EntryAt (filepath.Join path (filepath.entry_name c)) c p ->
    UnderFailed path (filepath.Dir FailedDir dmt readErr entries) p
| UnderFailed_below path n dmt readErr entries c p :
    In c entries ->
    UnderFailed (filepath.Join path (filepath.entry_name c)) c p ->
    UnderFailed path (filepath.Dir n dmt readErr entries) p.

End ScanSpec.

(** A name of a directory entry holds no separator. *)
Fixpoint no_separator (s : string) : bool :=
  match s with
  | EmptyString => true
  | String c r => negb (filepath.IsPathSeparator c) && no_separator r
  end.

(** The rest of a path after the path of an ancestor: nothing, or a
    separator and more. *)
Definition path_rest (r : string) : Prop :=
  r = "" \/ exists r', r = String filepath.Separator r'.

(** A directory tree as a file system holds it: the entries of a directory
    have names without separator, no two of them the same. *)
#[warnings="-register-all"]
Inductive tree : filepath.Entry -> Prop :=
| tree_File n mt : tree (filepath.File n mt)
| tree_Broken n : tree (filepath.Broken n)
| tree_Dir n dmt readErr entries :
    NoDup (map filepath.entry_name entries) ->
    Forall (fun c => no_separator (filepath.entry_name c) = true) entries ->
    Forall tree entries ->
    tree (filepath.Dir n dmt readErr entries).

(** The directory of the example: a completed capture file, an in-progress
    capture file 20000 ms old and a plain file 500 ms old, read when the clock
    is at 100000 ms. *)
Definition example_now : time.Time := 100000 * time.Millisecond.

Definition example_dir : filepath.Entry :=
  filepath.Dir "data" 0 false
    [ filepath.File "a.completed" (example_now - 3 * time.Millisecond);
      filepath.File "b.inprogress" (example_now - 20000 * time.Millisecond);
      filepath.File "c.plain" (example_now - 500 * time.Millisecond) ].

Definition example_fs (root : string) : filepath.Entry :=
  if String.eqb root "/data" then example_dir else filepath.Broken root.

(** A capture directory with the directory of the files that failed to sync
    in it, and a plain file whose modification time is 5 ms ahead of the
    clock. *)
Definition failed_example_dir : filepath.Entry :=
  filepath.Dir "data" 0 false
    [ filepath.Dir "failed" 0 false
        [ filepath.File "x.completed" (example_now - 50000 * time.Millisecond) ];
      filepath.File "a.completed" (example_now - 3 * time.Millisecond);
      filepath.File "c.plain" (example_now + 5 * time.Millisecond) ].

Definition failed_example_fs (root : string) : filepath.Entry :=
  if String.eqb root "/data" then failed_example_dir else filepath.Broken root.

(** ** Notions the properties of the connection handle are stated with *)

(** An operation that installs a connection. *)
Definition installs (o : grpc.Op) : bool :=
  match o with
  | grpc.OpReplaceConn (Some _) => true
  | _ => false
  end.


(** A connection that answers every call. *)
Definition example_conn : grpc.ClientConn :=
  grpc.mkClientConn 7 (fun _ => None) (fun _ => inl 1%nat) None.

(** ** Notions the properties of the service are stated with *)

(** The service, the collaborators and the error after a call. *)
Definition state_of {A B C : Type} (r : A * B * C) : A := fst (fst r).
Definition world_of {A B C : Type} (r : A * B * C) : B := snd (fst r).
Definition error_of {A B C : Type} (r : A * B * C) : C := snd r.

(** What was done to the collaborators between [w] and [w']. *)
Definition since (w w' : World) : list Event := drop (length (events w)) (events w').

(** The test of line 421: the capture directory of the config is one the
    environment does not allow. *)
Definition captureDirProhibited (E : Env) (svcConfig : Config) : bool :=
  negb (IsTrustedEnvironment E)
  && bool_decide (CaptureDir svcConfig <> "")
  && bool_decide (CaptureDir svcConfig <> viamCaptureDotDir E).

(** The test of lines 517 and 518: a setting of the scheduled sync differs
    from the one in force. *)
Definition syncSettingsChanged (svc : builtIn) (svcConfig : Config)
    (fileLastModifiedMillis' : Z) : bool :=
  negb (Bool.eqb (syncDisabled svc) (ScheduledSyncDisabled svcConfig))
  || negb (PrimFloat.eqb (syncIntervalMins svc) (SyncIntervalMins svcConfig))
  || negb (bool_decide (tags svc = Tags svcConfig))
  || negb (fileLastModifiedMillis svc =? fileLastModifiedMillis').

(** The stale threshold of lines 497 to 500. *)
Definition effectiveFileLastModifiedMillis (svcConfig : Config) : Z :=
  if FileLastModifiedMillis svcConfig <=? 0
  then defaultFileLastModifiedMillis
  else FileLastModifiedMillis svcConfig.

(** The identifier [Reconfigure] computes for a declaration. *)
Definition componentMethodMetadataOf (E : Env) (resConf : datamanager.DataCaptureConfig)
  : resourceMethodMetadata :=
  mkResourceMethodMetadata
    (resource.ShortName (datamanager.Name resConf))
    (Sprintf_v E (datamanager.AdditionalParams resConf))
    (data.mkMethodMetadata (resource.API (datamanager.Name resConf))
       (datamanager.Method resConf)).

(** *** An environment, dependencies and configs to run the service on *)

Definition example_Equals (a b : datamanager.DataCaptureConfig) : bool :=
  bool_decide (datamanager.Name a = datamanager.Name b)
  && String.eqb (datamanager.Method a) (datamanager.Method b)
  && PrimFloat.eqb (datamanager.CaptureFrequencyHz a) (datamanager.CaptureFrequencyHz b)
  && (datamanager.CaptureQueueSize a =? datamanager.CaptureQueueSize b)
  && (datamanager.CaptureBufferSize a =? datamanager.CaptureBufferSize b)
  && Bool.eqb (datamanager.Disabled a) (datamanager.Disabled b)
  && bool_decide (datamanager.Tags a = datamanager.Tags b)
  && bool_decide (datamanager.AdditionalParams a = datamanager.AdditionalParams b).

Definition example_env (trusted : bool) : Env :=
  mkEnv trusted "/root/.viam/capture" "should_sync"
    (fun m => if bool_decide (m = ∅) then "map[]" else "map[...]")
    example_Equals
    (fun api name method _ _ => Some (mkDataCaptureMetadata api name method))
    (fun _ => Some (fun _ _ => true))
    (fun _ => true)
    (fun p => p)
    (fun _ => true)
    (fun c => AcquireOk "part" (100 + c))
    (fun _ _ _ => true)
    ".capture" ".prog" "failed".

Definition example_world : World := mkWorld 0 [] [].

(** Dependencies with the arm "arm1", the cloud connection service of the
    given identity, and the sensor the function gives. *)
Definition example_deps (cloud : nat) (sensors : string -> option selectiveSyncer)
  : Dependencies :=
  mkDependencies
    (fun name => if String.eqb (resource.ShortName name) "arm1" then Some 1%nat else None)
    (Some cloud) sensors.

Definition example_resConf : datamanager.DataCaptureConfig :=
  datamanager.mkDataCaptureConfig (resource.mkName "rdk:component:arm" "arm1")
    "EndPosition" 10%float 0 0 ∅ false None None "".

(** A config that captures "arm1" and syncs every minute. *)
Definition example_config : Config :=
  mkConfig "" None 1%float false false None [example_resConf] 0 "".

Definition with_CaptureDir (d : string) (c : Config) : Config :=
  mkConfig d (AdditionalSyncPaths c) (SyncIntervalMins c) (CaptureDisabled c)
    (ScheduledSyncDisabled c) (Tags c) (ResourceConfigs c) (FileLastModifiedMillis c)
    (SelectiveSyncerName c).

Definition with_CaptureDisabled (b : bool) (c : Config) : Config :=
  mkConfig (CaptureDir c) (AdditionalSyncPaths c) (SyncIntervalMins c) b
    (ScheduledSyncDisabled c) (Tags c) (ResourceConfigs c) (FileLastModifiedMillis c)
    (SelectiveSyncerName c).

Definition with_FileLastModifiedMillis (n : Z) (c : Config) : Config :=
  mkConfig (CaptureDir c) (AdditionalSyncPaths c) (SyncIntervalMins c) (CaptureDisabled c)
    (ScheduledSyncDisabled c) (Tags c) (ResourceConfigs c) n (SelectiveSyncerName c).

Definition with_SelectiveSyncerName (n : string) (c : Config) : Config :=
  mkConfig (CaptureDir c) (AdditionalSyncPaths c) (SyncIntervalMins c) (CaptureDisabled c)
    (ScheduledSyncDisabled c) (Tags c) (ResourceConfigs c) (FileLastModifiedMillis c) n.

Definition conf_of (c : Config) : resource_Config := mkResourceConfig (Some c).

(** Dependencies that differ from [deps] in the sensors they resolve only. *)
Definition with_sensors (sensors : string -> option selectiveSyncer) (deps : Dependencies)
  : Dependencies :=
  mkDependencies (Lookup deps) (cloudConnectionService deps) sensors.

(** A sensor whose readings lack the key, and one that answers [true]. *)
Definition example_silent_sensor : selectiveSyncer := mkSensor 5 (Some ∅).

Definition example_ready_sensor : selectiveSyncer :=
  mkSensor 6 (Some (<["should_sync" := VBool true]> ∅)).

(** *** Tasks and declarations *)

(** What is done to a collector or for one. *)
Definition isCollectorEvent (e : Event) : bool :=
  match e with
  | MkdirAll _ | CollectorNew _ _ | CollectorCollect _ | CollectorClose _
  | CollectorFlush _ => true
  | _ => false
  end.

(** [extends P w w']: the collaborators were told more between [w] and [w'],
    and only events of the kind [P]. *)
Definition extends (P : Event -> bool) (w w' : World) : Prop :=
  exists es, events w' = (events w ++ es)%list /\ forallb P es = true.

(** A declaration as [updateDataCaptureConfigs] leaves it: with the resource
    of its name and the capture directory when the resource is found. *)
Definition resolve (deps : Dependencies) (captureDir : string)
    (resConf : datamanager.DataCaptureConfig) : datamanager.DataCaptureConfig :=
  match Lookup deps (datamanager.Name resConf) with
  | Some res =>
      datamanager.set_CaptureDirectory captureDir
        (datamanager.set_Resource (Some res) resConf)
  | None => resConf
  end.

(** A resolved declaration that is live and unchanged with respect to the
    tasks of [svc]: its resource is there, it is enabled with a positive
    frequency, its capture metadata builds, and the task of its identifier
    was built from a declaration that [Equals] it once the tags of the
    service config are set. *)
Definition unchangedDecl (E : Env) (svc : builtIn) (svcConfig : Config)
    (resConf : datamanager.DataCaptureConfig) : Prop :=
  is_Some (datamanager.Resource resConf)
  /\ datamanager.Disabled resConf = false
  /\ PrimFloat.ltb 0%float (datamanager.CaptureFrequencyHz resConf) = true
  /\ is_Some (BuildCaptureMetadata E
                (resource.API (datamanager.Name resConf))
                (resource.ShortName (datamanager.Name resConf))
                (datamanager.Method resConf)
                (datamanager.AdditionalParams resConf)
                (Tags svcConfig))
  /\ exists task,
      collectors svc !! componentMethodMetadataOf E resConf = Some task
      /\ Equals E (Config_ task) (datamanager.set_Tags (Tags svcConfig) resConf) = true.

(** The fields of the service that the scheduler and syncer part of
    [Reconfigure] reads, the capture directory and the cloud connection
    service apart. *)
Definition syncFields (svc : builtIn) :=
  (syncer svc, cloudConn svc, syncDisabled svc, syncIntervalMins svc, tags svc,
   fileLastModifiedMillis svc, syncRoutineCancelFn svc, syncTicker svc).

(** The service after its first [Reconfigure] with [example_config]: one
    collector, for "arm1", and a syncer on the connection of the cloud
    connection service 1. *)
Definition example_running : builtIn * World * option error :=
  Reconfigure (example_env true) (newBuiltIn (example_env true)) example_world
    (example_deps 1 (fun _ => None)) (conf_of example_config).

(** [example_config] with a sync interval of two minutes. *)
Definition example_config_2min : Config :=
  mkConfig "" None 2%float false false None [example_resConf] 0 "".

(** ** Histories of the connection handle *)

(** One operation on the handle: the handle after it, and the calls of
    underlying connections it makes. *)
Definition step_calls (c : grpc.ReconfigurableClientConn) (o : grpc.Op)
  : grpc.ReconfigurableClientConn * list grpc.Call :=
  match o with
  | grpc.OpReplaceConn k => (grpc.ReplaceConn c k, [])
  | grpc.OpClose => (fst (fst (grpc.Close c)), snd (grpc.Close c))
  | grpc.OpInvoke m => (c, snd (grpc.Invoke c m))
  | grpc.OpNewStream m => (c, snd (grpc.NewStream c m))
  end.

(** The calls of underlying connections a sequence of operations makes. *)
Fixpoint calls_of (ops : list grpc.Op) (c : grpc.ReconfigurableClientConn)
  : list grpc.Call :=
  match ops with
  | [] => []
  | o :: rest => (snd (step_calls c o) ++ calls_of rest (fst (step_calls c o)))%list
  end.

Definition isCallClose (k : grpc.Call) : bool :=
  match k with
  | grpc.CallClose _ => true
  | _ => false
  end.

(** The connection a call reaches. *)
Definition call_conn (k : grpc.Call) : nat :=
  match k with
  | grpc.CallInvoke id _ | grpc.CallNewStream id _ | grpc.CallClose id => id
  end.

(** An operation that is a call of [Invoke] or of [NewStream]. *)
Definition isCallOp (o : grpc.Op) : bool :=
  match o with
  | grpc.OpInvoke _ | grpc.OpNewStream _ => true
  | _ => false
  end.

(** A file system that holds the tree [e] at the path [root], and nothing
    elsewhere. *)
Definition fs_at (root : string) (e : filepath.Entry) (path : string) : filepath.Entry :=
  if String.eqb path root then e else filepath.Broken path.

(** A resolved declaration [Reconfigure] keeps or builds a task for: its
    resource is there, and it is enabled with a positive frequency. *)
Definition liveDecl (resConf : datamanager.DataCaptureConfig) : Prop :=
  is_Some (datamanager.Resource resConf)
  /\ datamanager.Disabled resConf = false
  /\ PrimFloat.ltb 0%float (datamanager.CaptureFrequencyHz resConf) = true.

(** A task that was built and started between [w] and [w'] for the
    identifier [md]. *)
Definition builtSince (w w' : World) (md : resourceMethodMetadata)
    (task : collectorAndConfig) : Prop :=
  In (CollectorNew (Collector task) md) (since w w')
  /\ In (CollectorCollect (Collector task)) (since w w').

(** What holds of the loop of [Reconfigure] over the declarations [rcs],
    started from the service [svc0] and the collaborators [w0], after any
    number of turns: the tasks of the service are untouched, only collectors
    were touched, a task of [svc0] whose identifier has another task in
    [newCollectors] has been closed, and every task of [newCollectors] is the
    task [svc0] has for the identifier or was built and started in the loop,
    for a live declaration of that identifier. *)
Definition loopInvariant (E : Env) (svc0 : builtIn) (w0 : World)
    (rcs : list datamanager.DataCaptureConfig)
    (acc : builtIn * gmap resourceMethodMetadata collectorAndConfig * World) : Prop :=
  let '(svc, newCollectors, w) := acc in
  collectors svc = collectors svc0
  /\ extends isCollectorEvent w0 w
  /\ (forall md task t',
         collectors svc0 !! md = Some task ->
         newCollectors !! md = Some t' ->
         t' <> task ->
         In (CollectorClose (Collector task)) (since w0 w))
  /\ (forall md t,
         newCollectors !! md = Some t ->
         (collectors svc0 !! md = Some t \/ builtSince w0 w md t)
         /\ exists d, In d rcs /\ componentMethodMetadataOf E d = md /\ liveDecl d).

(** [example_config] with "arm1" captured at 20 Hz instead of 10 Hz. *)
Definition example_config_20hz : Config :=
  mkConfig "" None 1%float false false None
    [datamanager.mkDataCaptureConfig (resource.mkName "rdk:component:arm" "arm1")
       "EndPosition" 20%float 0 0 ∅ false None None ""]
    0 "".

(** The capture directory of lines 425 to 430. *)
Definition effectiveCaptureDir (E : Env) (svcConfig : Config) : string :=
  if bool_decide (CaptureDir svcConfig <> "")
  then CaptureDir svcConfig
  else viamCaptureDotDir E.

(** [example_env] with no collector constructor registered. *)
Definition example_env_no_collectors (trusted : bool) : Env :=
  mkEnv trusted "/root/.viam/capture" "should_sync"
    (fun m => if bool_decide (m = ∅) then "map[]" else "map[...]")
    example_Equals
    (fun api name method _ _ => Some (mkDataCaptureMetadata api name method))
    (fun _ => None)
    (fun _ => true)
    (fun p => p)
    (fun _ => true)
    (fun c => AcquireOk "part" (100 + c))
    (fun _ _ _ => true)
    ".capture" ".prog" "failed".

(** [example_env true] with a syncer constructor that fails. *)
Definition example_env_no_syncer : Env :=
  mkEnv true "/root/.viam/capture" "should_sync"
    (fun m => if bool_decide (m = ∅) then "map[]" else "map[...]")
    example_Equals
    (fun api name method _ _ => Some (mkDataCaptureMetadata api name method))
    (fun _ => Some (fun _ _ => true))
    (fun _ => true)
    (fun p => p)
    (fun _ => true)
    (fun c => AcquireOk "part" (100 + c))
    (fun _ _ _ => false)
    ".capture" ".prog" "failed".

(** ** Histories of the service *)

(** A call of the service or a tick of its scheduler, with the file system
    and the reading of the clock a sync pass finds. *)
Inductive Request :=
| ReqReconfigure (deps : Dependencies) (conf : resource_Config)
| ReqSync (fs : string -> filepath.Entry) (now : time.Time)
| ReqTick (fs : string -> filepath.Entry) (now : time.Time).

(** The service and its collaborators after one request; the ticker of a
    scheduler that was cancelled reaches no loop. *)
Definition handle (E : Env) (sw : builtIn * World) (r : Request) : builtIn * World :=
  let '(svc, w) := sw in
  match r with
  | ReqReconfigure deps conf => fst (Reconfigure E svc w deps conf)
  | ReqSync fs now => fst (Sync E fs now svc w)
  | ReqTick fs now =>
      if syncRoutineCancelFn svc then (svc, onTick E fs now svc w) else (svc, w)
  end.

Definition serve (E : Env) (rs : list Request) (sw : builtIn * World) : builtIn * World :=
  fold_left (handle E) rs sw.

(** A monitor reads a trace event by event and stops with [None] at the
    first event it does not allow. *)
Fixpoint monitor {S : Type} (f : S -> Event -> option S) (es : list Event) (s : S)
  : option S :=
  match es with
  | [] => Some s
  | e :: es =>
      match f s e with
      | Some s' => monitor f es s'
      | None => None
      end
  end.

(** The scheduler, by whether its goroutine runs: it is not started while it
    runs and not cancelled while it does not. *)
Definition schedulerStep (running : bool) (e : Event) : option bool :=
  match e with
  | SchedulerStart _ => if running then None else Some true
  | SchedulerCancel => if running then Some false else None
  | _ => Some running
  end.

(** The syncers made by the constructor, by the identities made so far and
    the one that is open: a syncer is made with a new identity and while
    none is open, and only the open one is given tags or files, or closed. *)
Definition isOpen (live : option nat) (id : nat) : bool :=
  match live with
  | Some id' => Nat.eqb id id'
  | None => false
  end.

Definition managerStep (st : list nat * option nat) (e : Event)
  : option (list nat * option nat) :=
  let '(made, live) := st in
  match e with
  | SyncerNew id _ _ _ =>
      if existsb (Nat.eqb id) made then None
      else match live with
           | Some _ => None
           | None => Some (id :: made, Some id)
           end
  | SyncerClose (NewManager id) => if isOpen live id then Some (made, None) else None
  | SyncerSetArbitraryFileTags (NewManager id) _
  | SyncerSyncFile (NewManager id) _ => if isOpen live id then Some st else None
  | _ => Some st
  end.

(** The identity of the syncer of the service when the constructor made
    it. *)
Definition openManager (svc : builtIn) : option nat :=
  match syncer svc with
  | Some (NewManager id) => Some id
  | _ => None
  end.

(** What holds of the scheduler between requests: while it runs there is a
    syncer, scheduled sync is enabled with an interval that is not zero, and
    the ticker has that interval. *)
Definition schedulerInvariant (svc : builtIn) : Prop :=
  syncRoutineCancelFn svc = true ->
  is_Some (syncer svc)
  /\ syncDisabled svc = false
  /\ PrimFloat.eqb (syncIntervalMins svc) 0%float = false
  /\ syncTicker svc = Some (syncIntervalMins svc).

(** A history: the service is configured, its scheduler ticks, it is
    configured anew with another cloud connection service and a sync
    interval of two minutes, and a sync is asked for. *)
Definition example_requests : list Request :=
  [ReqReconfigure (example_deps 1 (fun _ => None)) (conf_of example_config);
   ReqTick example_fs example_now;
   ReqReconfigure (example_deps 2 (fun _ => None)) (conf_of example_config_2min);
   ReqSync example_fs example_now].

(** The roots of a sync pass: the capture directory and the additional sync
    paths. *)
Definition syncRoots (svc : builtIn) : list string :=
  captureDir svc :: slice_elems (additionalSyncPaths svc).

(** An environment with the extensions of the example directory, and a
    config that captures into "/data". *)
Definition example_env_data : Env :=
  mkEnv true "/root/.viam/capture" "should_sync"
    (fun m => if bool_decide (m = ∅) then "map[]" else "map[...]")
    example_Equals
    (fun api name method _ _ => Some (mkDataCaptureMetadata api name method))
    (fun _ => Some (fun _ _ => true))
    (fun _ => true)
    (fun p => p)
    (fun _ => true)
    (fun c => AcquireOk "part" (100 + c))
    (fun _ _ _ => true)
    ".completed" ".inprogress" "failed".

Definition example_data_running : builtIn * World * option error :=
  Reconfigure example_env_data (newBuiltIn example_env_data) example_world
    (example_deps 1 (fun _ => None)) (conf_of (with_CaptureDir "/data" example_config)).
(** Any event but the close of a collector. *)
Definition notCollectorClose (e : Event) : bool :=
  match e with
  | CollectorClose _ => false
  | _ => true
  end.

(** A cloud connection service of a robot that is not managed by the cloud,
    in the environment of the example. *)
Definition example_env_local : Env :=
  mkEnv true "/root/.viam/capture" "should_sync"
    (fun m => if bool_decide (m = ∅) then "map[]" else "map[...]")
    example_Equals
    (fun api name method _ _ => Some (mkDataCaptureMetadata api name method))
    (fun _ => Some (fun _ _ => true))
    (fun _ => true)
    (fun p => p)
    (fun _ => true)
    (fun _ => AcquireNotCloudManaged)
    (fun _ _ _ => true)
    ".completed" ".inprogress" "failed".

(** A declaration of the analog readers of a board that names no reader. *)
Definition example_analogs_resConf : datamanager.DataCaptureConfig :=
  datamanager.mkDataCaptureConfig (resource.mkName "rdk:component:board" "board1")
    "Analogs" 10%float 0 0 ∅ false None (Some 2%nat) "".






(** * Properties *)

(** ** The file selector *)

Lemma Entry_nested_ind (P : filepath.Entry -> Prop) :
  (forall n mt, P (filepath.File n mt)) ->
  (forall n, P (filepath.Broken n)) ->
  (forall n dmt readErr entries, Forall P entries -> P (filepath.Dir n dmt readErr entries)) ->
  forall e, P e.
Proof.
  intros HF HB HD. fix IH 1.
  intros [n mt | n dmt readErr entries | n]; [apply HF | | apply HB].
  apply HD. induction entries as [| c entries IHentries]; constructor.
  - apply IH.
  - exact IHentries.
Qed.

Section SelectorFacts.
Variables FileExt InProgressFileExt FailedDir : string.
Variable now : time.Time.
Variable lastModifiedMillis : Z.

Let walkFn := syncWalkFn FileExt InProgressFileExt FailedDir now lastModifiedMillis.
Let sel := selected FileExt InProgressFileExt FailedDir now lastModifiedMillis.

Lemma walk_selected e :
  forall path acc,
    filepath.walk walkFn path e acc = ((acc ++ sel path e)%list, walk_err FailedDir e).
Proof.
  induction e as [n mt | n | n dmt readErr entries IH] using Entry_nested_ind;
    intros path acc.
  - cbn. unfold sel, selected, selects.
    destruct (_ || _ || _); [reflexivity | by rewrite app_nil_r].
  - cbn. by rewrite app_nil_r.
  - cbn [filepath.walk]. destruct readErr.
    + cbn. by rewrite app_nil_r.
    + unfold walkFn at 1, syncWalkFn. cbn [filepath.IsDir filepath.Name andb orb].
      unfold sel. cbn [selected walk_err orb].
      destruct (String.eqb n FailedDir); cbn.
      { by rewrite app_nil_r. }
      revert acc. induction IH as [| c entries Hc _ IHentries]; intros acc.
      { cbn. by rewrite app_nil_r. }
      cbn [flat_map]. destruct c as [cn cmt | cn cdmt cerr centries | cn].
      * rewrite Hc. cbn [walk_err]. rewrite IHentries. by rewrite app_assoc.
      * rewrite Hc. rewrite app_assoc. rewrite <- IHentries.
        unfold walk_err. destruct cerr; [reflexivity |].
        destruct (String.eqb cn FailedDir); reflexivity.
      * rewrite IHentries. reflexivity.
Qed.

Lemma getAllFilesToSync_selected fs dir :
  getAllFilesToSync FileExt InProgressFileExt FailedDir fs now dir lastModifiedMillis
  = sel dir (fs dir).
Proof.
  unfold getAllFilesToSync, filepath.Walk.
  destruct (fs dir) as [n mt | n dmt readErr entries | n] eqn:Hroot.
  - fold walkFn. rewrite walk_selected. reflexivity.
  - fold walkFn. rewrite walk_selected. cbn [walk_err app].
    destruct readErr; [reflexivity |]. destruct (String.eqb n FailedDir); reflexivity.
  - reflexivity.
Qed.

Lemma selected_Scanned e :
  forall path p,
    In p (sel path e) <->
    exists mt, Scanned FailedDir path e p mt
               /\ selects FileExt InProgressFileExt now lastModifiedMillis p mt = true.
Proof.
  induction e as [n mt | n | n dmt readErr entries IH] using Entry_nested_ind;
    intros path p; unfold sel; cbn [selected].
  - split.
    + destruct (selects _ _ _ _ path mt) eqn:Hs; [| intros []].
      intros [<- | []]. exists mt. split; [constructor | exact Hs].
    + intros (mt' & Hsc & Hs). inversion Hsc; subst. rewrite Hs. by left.
  - split; [intros [] | intros (mt & Hsc & _); inversion Hsc].
  - destruct readErr; cbn [orb].
    { split; [intros [] | intros (mt & Hsc & _); inversion Hsc]. }
    destruct (String.eqb n FailedDir) eqn:Hn.
    { apply String.eqb_eq in Hn. split; [intros [] |].
      intros (mt & Hsc & _). inversion Hsc; subst. congruence. }
    apply String.eqb_neq in Hn. rewrite in_flat_map. split.
    + intros (c & Hc & Hp). rewrite Forall_forall in IH.
      apply (IH c) in Hp; [| by apply list_elem_of_In].
      destruct Hp as (mt & Hsc & Hs). exists mt. split; [| exact Hs].
      econstructor; eauto.
    + intros (mt & Hsc & Hs). inversion Hsc; subst.
      exists c. split; [assumption |]. rewrite Forall_forall in IH.
      apply (IH c); [by apply list_elem_of_In |]. exists mt. by split.
Qed.

End SelectorFacts.

(** *** Paths of a tree *)

#[local] Arguments String.append !_ _ / : simpl nomatch.

Lemma string_app_assoc (a b c : string) :
  ((a ++ b) ++ c)%string = (a ++ (b ++ c))%string.
Proof. induction a as [| x a IH]; cbn; [reflexivity | by rewrite IH]. Qed.

Lemma name_prefix_inj (n1 n2 r1 r2 : string) :
  no_separator n1 = true -> no_separator n2 = true ->
  path_rest r1 -> path_rest r2 ->
  (n1 ++ r1)%string = (n2 ++ r2)%string -> n1 = n2.
Proof.
  revert n2. induction n1 as [| c1 n1 IH]; intros [| c2 n2] H1 H2 Hr1 Hr2 Heq;
    cbn in *.
  - reflexivity.
  - subst r1. destruct Hr1 as [Hr1 | [r' Hr1]]; [discriminate |].
    injection Hr1 as -> _. cbn in H2. discriminate.
  - subst r2. destruct Hr2 as [Hr2 | [r' Hr2]]; [discriminate |].
    injection Hr2 as -> _. cbn in H1. discriminate.
  - injection Heq as -> Heq.
    apply andb_true_iff in H1 as [_ H1]. apply andb_true_iff in H2 as [_ H2].
    f_equal. by apply IH.
Qed.

Lemma EntryAt_prefix path e p :
  EntryAt path e p -> exists r, p = (path ++ r)%string /\ path_rest r.
Proof.
  induction 1 as [path e | path n dmt readErr entries c p Hin _ (r & -> & Hr)].
  - exists "". split; [| by left]. induction path; cbn; congruence.
  - exists ("/" ++ filepath.entry_name c ++ r)%string. split.
    + unfold filepath.Join. by rewrite !string_app_assoc.
    + right. by eexists.
Qed.

Lemma Scanned_EntryAt FailedDir path e p mt :
  Scanned FailedDir path e p mt -> EntryAt path e p.
Proof. induction 1; econstructor; eauto. Qed.

Lemma UnderFailed_EntryAt FailedDir path e p :
  UnderFailed FailedDir path e p -> EntryAt path e p.
Proof. induction 1; econstructor; eauto. Qed.

(** Two entries of one directory of a tree that both lie on the way to the
    path [p] are the same entry. *)
Lemma same_child path entries c c' p :
  NoDup (map filepath.entry_name entries) ->
  Forall (fun c => no_separator (filepath.entry_name c) = true) entries ->
  In c entries -> In c' entries ->
  EntryAt (filepath.Join path (filepath.entry_name c)) c p ->
  EntryAt (filepath.Join path (filepath.entry_name c')) c' p ->
  c = c'.
Proof.
  intros Hnd Hsep Hc Hc' (r & -> & Hr)%EntryAt_prefix (r' & Heq & Hr')%EntryAt_prefix.
  rewrite Forall_forall in Hsep.
  assert (filepath.entry_name c = filepath.entry_name c') as Hname.
  { unfold filepath.Join in Heq. rewrite !string_app_assoc in Heq.
    apply (inj (String.append path)) in Heq. cbn in Heq. injection Heq as Heq.
    eapply name_prefix_inj; [| | exact Hr | exact Hr' | exact Heq];
      apply Hsep; by apply list_elem_of_In. }
  clear -Hnd Hc Hc' Hname.
  induction entries as [| x entries IH]; [destruct Hc |].
  cbn in Hnd. apply NoDup_cons in Hnd as [Hx Hnd].
  destruct Hc as [-> | Hc], Hc' as [-> | Hc'].
  - reflexivity.
  - exfalso. apply Hx. rewrite Hname. apply list_elem_of_In, in_map, Hc'.
  - exfalso. apply Hx. rewrite <- Hname. apply list_elem_of_In, in_map, Hc.
  - by apply IH.
Qed.

Lemma tree_child n dmt readErr entries c :
  tree (filepath.Dir n dmt readErr entries) -> In c entries -> tree c.
Proof.
  intros Ht Hc. inversion Ht as [| | ? ? ? ? _ _ Hall]; subst.
  rewrite Forall_forall in Hall. by apply Hall, list_elem_of_In.
Qed.

Lemma Scanned_not_UnderFailed FailedDir path e p mt :
  tree e -> Scanned FailedDir path e p mt -> UnderFailed FailedDir path e p -> False.
Proof.
  intros Ht Hsc. induction Hsc as [path n mt | path n dmt entries c p mt Hn Hc Hsc IH];
    intros Huf.
  - inversion Huf.
  - assert (tree c) as Htc by (eapply tree_child; eauto).
    inversion Ht as [| | ? ? ? ? Hnd Hsep _]; subst.
    inversion Huf as [? ? ? ? c' ? Hc' Hat | ? ? ? ? ? c' ? Hc' Huf']; subst.
    + congruence.
    + assert (c = c') as <-.
      { eapply same_child; eauto using Scanned_EntryAt, UnderFailed_EntryAt. }
      by apply IH.
Qed.


(** *** The condition of the closure and the three predicates *)

Lemma mul_Millisecond_exact (staleMillis : Z) :
  -9223372036854 <= staleMillis <= 9223372036854 ->
  time.mul staleMillis time.Millisecond = staleMillis * time.Millisecond.
Proof.
  intros H. unfold time.mul, wrap64, time.Millisecond.
  rewrite Z.mod_small; lia.
Qed.

Lemma clamp_age now mt :
  (if clk.Since now mt <? 0 then 0 else clk.Since now mt) = age now mt.
Proof. unfold age. destruct (Z.ltb_spec (clk.Since now mt) 0); lia. Qed.

Lemma selects_spec FileExt InProgressFileExt now lastModifiedMillis path mt :
  selects FileExt InProgressFileExt now lastModifiedMillis path mt = true <->
  filepath.Ext path = FileExt
  \/ (filepath.Ext path = InProgressFileExt /\ 10000 * time.Millisecond <= age now mt)
  \/ (filepath.Ext path <> InProgressFileExt
      /\ time.mul lastModifiedMillis time.Millisecond <= age now mt).
Proof.
  unfold selects. cbv zeta. rewrite clamp_age.
  rewrite !orb_true_iff, !andb_true_iff, negb_true_iff, !String.eqb_eq,
    String.eqb_neq, !Z.leb_le.
  unfold defaultFileLastModifiedMillis. tauto.
Qed.

Lemma selects_eligible FileExt InProgressFileExt now staleMillis path mt :
  -9223372036854 <= staleMillis <= 9223372036854 ->
  selects FileExt InProgressFileExt now staleMillis path mt = true <->
  eligible FileExt InProgressFileExt now staleMillis path mt.
Proof.
  intros H. rewrite selects_spec, mul_Millisecond_exact by exact H. reflexivity.
Qed.

Lemma getAllFilesToSync_Scanned FileExt InProgressFileExt FailedDir fs now dir
    lastModifiedMillis p :
  In p (getAllFilesToSync FileExt InProgressFileExt FailedDir fs now dir lastModifiedMillis)
  <-> exists mt, Scanned FailedDir dir (fs dir) p mt
                 /\ selects FileExt InProgressFileExt now lastModifiedMillis p mt = true.
Proof. rewrite getAllFilesToSync_selected. apply selected_Scanned. Qed.

(** C2, as amended. For every directory tree and every stale threshold whose
    nanosecond count fits the 64 bits of a duration (at most 9223372036854 ms
    in absolute value), a path is selected if and only if it is the path of a
    regular file the walk reaches and the file's extension marks a completed
    capture segment, or marks an in-progress segment while its age is at least
    10000 ms, or does not mark an in-progress segment while its age is at
    least the stale threshold. For the files a.completed, b.inprogress aged
    20000 ms and c.plain aged 500 ms with a stale threshold of 10000 ms,
    exactly a.completed and b.inprogress are selected. *)
Theorem selected_iff_eligible :
  (forall FileExt InProgressFileExt FailedDir fs now dir staleMillis p,
      -9223372036854 <= staleMillis <= 9223372036854 ->
      In p (getAllFilesToSync FileExt InProgressFileExt FailedDir fs now dir staleMillis)
      <-> exists mt, Scanned FailedDir dir (fs dir) p mt
                     /\ eligible FileExt InProgressFileExt now staleMillis p mt)
  /\ getAllFilesToSync ".completed" ".inprogress" "failed" example_fs example_now
       "/data" 10000
     = ["/data/a.completed"; "/data/b.inprogress"].
Proof.
  split; [| vm_compute; reflexivity].
  intros FileExt InProgressFileExt FailedDir fs now dir staleMillis p Hrange.
  rewrite getAllFilesToSync_Scanned.
  split; intros (mt & Hsc & Hs); exists mt; (split; [exact Hsc |]);
    by apply (selects_eligible _ _ _ _ _ _ Hrange).
Qed.

Lemma selected_iff_eligible_witness :
  -9223372036854 <= 10000 <= 9223372036854
  /\ (In "/data/b.inprogress"
        (getAllFilesToSync ".completed" ".inprogress" "failed" example_fs example_now
           "/data" 10000)
      <-> exists mt, Scanned "failed" "/data" (example_fs "/data") "/data/b.inprogress" mt
                     /\ eligible ".completed" ".inprogress" example_now 10000
                          "/data/b.inprogress" mt).
Proof.
  split; [lia |].
  apply (proj1 selected_iff_eligible ".completed" ".inprogress" "failed" example_fs
           example_now "/data" 10000 "/data/b.inprogress").
  lia.
Defined.

(** C2 as stated fails where the threshold's nanosecond count leaves the 64
    bits of a duration: with a stale threshold of 9223372036855 ms the product
    with [time.Millisecond] wraps to a negative duration, and c.plain, 500 ms
    old, is selected although none of the three predicates holds of it. It
    also fails of a file the walk does not reach: x.completed, under the
    directory of the failed files, is a completed capture file and is not
    selected. *)
Lemma selected_iff_eligible_counterexample :
  (In "/data/c.plain"
     (getAllFilesToSync ".completed" ".inprogress" "failed" example_fs example_now
        "/data" 9223372036855)
   /\ ~ (exists mt, Scanned "failed" "/data" (example_fs "/data") "/data/c.plain" mt
                    /\ eligible ".completed" ".inprogress" example_now 9223372036855
                         "/data/c.plain" mt))
  /\ (EntryAt "/data" (failed_example_fs "/data") "/data/failed/x.completed"
      /\ isCompletedCapture ".completed" "/data/failed/x.completed"
      /\ ~ In "/data/failed/x.completed"
             (getAllFilesToSync ".completed" ".inprogress" "failed" failed_example_fs
                example_now "/data" 10000)).
Proof.
  split; [split |].
  - vm_compute. tauto.
  - intros (mt & Hsc & Hel). change (example_fs "/data") with example_dir in Hsc.
    unfold example_dir in Hsc. inversion Hsc as [| ? ? ? ? c ? ? _ Hc Hfile]; subst.
    destruct Hc as [<- | [<- | [<- | []]]]; inversion Hfile; subst; try discriminate.
    destruct Hel as [Hel | [[Hel _] | [_ Hel]]]; try discriminate.
    vm_compute in Hel. by apply Hel.
  - split; [| split].
    + change (failed_example_fs "/data") with failed_example_dir.
      unfold failed_example_dir.
      eapply EntryAt_below; [left; reflexivity |].
      eapply EntryAt_below; [left; reflexivity |]. apply EntryAt_here.
    + reflexivity.
    + vm_compute. intros [H | []]. discriminate.
Qed.

(** C7. For every directory tree, no path of an entry under a directory whose
    name is the reserved failed-sync name is selected by the scan. *)
Theorem scan_skips_failed_dir
    FileExt InProgressFileExt FailedDir fs now dir lastModifiedMillis p :
  tree (fs dir) ->
  UnderFailed FailedDir dir (fs dir) p ->
  ~ In p (getAllFilesToSync FileExt InProgressFileExt FailedDir fs now dir
            lastModifiedMillis).
Proof.
  intros Ht Huf (mt & Hsc & _)%getAllFilesToSync_Scanned.
  eapply Scanned_not_UnderFailed; eauto.
Qed.

Lemma failed_example_tree : tree failed_example_dir.
Proof.
  unfold failed_example_dir.
  apply tree_Dir.
  - apply (bool_decide_unpack _). vm_compute. exact I.
  - repeat (constructor; [reflexivity |]). constructor.
  - constructor; [| repeat (constructor; [apply tree_File |]); constructor].
    apply tree_Dir.
    + apply (bool_decide_unpack _). vm_compute. exact I.
    + repeat (constructor; [reflexivity |]). constructor.
    + repeat (constructor; [apply tree_File |]). constructor.
Defined.

Lemma scan_skips_failed_dir_witness :
  tree (failed_example_fs "/data")
  /\ UnderFailed "failed" "/data" (failed_example_fs "/data") "/data/failed/x.completed"
  /\ ~ In "/data/failed/x.completed"
         (getAllFilesToSync ".completed" ".inprogress" "failed" failed_example_fs
            example_now "/data" 10000).
Proof.
  assert (tree (failed_example_fs "/data")) as Ht by exact failed_example_tree.
  assert (UnderFailed "failed" "/data" (failed_example_fs "/data")
            "/data/failed/x.completed") as Huf.
  { change (failed_example_fs "/data") with failed_example_dir.
    unfold failed_example_dir.
    eapply UnderFailed_below; [left; reflexivity |].
    eapply UnderFailed_here; [left; reflexivity |]. apply EntryAt_here. }
  split; [exact Ht |]. split; [exact Huf |].
  exact (scan_skips_failed_dir ".completed" ".inprogress" "failed" failed_example_fs
           example_now "/data" 10000 "/data/failed/x.completed" Ht Huf).
Defined.




(** ** The connection handle *)



Lemma run_app ops ops' c : grpc.run (ops ++ ops') c = grpc.run ops' (grpc.run ops c).
Proof. apply fold_left_app. Qed.



(** ** The service *)

(** Unfolds the steps of the scheduler and syncer part of [Reconfigure] and
    splits on every test they make. *)
Ltac sync_cases :=
  unfold reconfigureSync, cancelSyncScheduler, closeSyncer, initSyncer,
    startSyncScheduler, fresh in *;
  repeat (case_match; simplify_eq/=).

Lemma reconfigureSync_fileLastModifiedMillis E r cfg flm svc w svc' w' res :
  reconfigureSync E r cfg flm svc w = (svc', w', res) ->
  fileLastModifiedMillis svc' = flm.
Proof.
  intros H. sync_cases; try reflexivity.
  repeat match goal with
         | H : _ || _ = false |- _ => apply orb_false_iff in H as [? ?]
         end.
  match goal with
  | H : negb (_ =? _) = false |- _ => apply negb_false_iff, Z.eqb_eq in H; exact H
  end.
Qed.

(** [Reconfigure] as the sequence of its parts, once the config is read, the
    cloud connection service is found and the capture directory is allowed. *)
Lemma Reconfigure_parts E svc w deps conf cfg c :
  ConvertedAttributes conf = Some cfg ->
  cloudConnectionService deps = Some c ->
  captureDirProhibited E cfg = false ->
  Reconfigure E svc w deps conf =
  let '(resourceConfigs, w0) :=
    updateDataCaptureConfigs deps (ResourceConfigs cfg) (CaptureDir cfg) w in
  let '(svc1, w1) :=
    reconfigureCapture E cfg resourceConfigs (set_cloudConnSvc (Some c) svc) w0 in
  let '(svc2, w2) := reconfigureSelectiveSync deps cfg svc1 w1 in
  reconfigureSync E (negb (bool_decide (Some c = cloudConnSvc svc))) cfg
    (effectiveFileLastModifiedMillis cfg) svc2 w2.
Proof.
  intros Hconf Hcloud Hdir. unfold Reconfigure, captureDirProhibited in *.
  rewrite Hconf, Hcloud. destruct (updateDataCaptureConfigs _ _ _ _) as [rcs w0].
  rewrite Hdir. reflexivity.
Qed.

(** An error of [Reconfigure] other than the three of its first lines comes
    from its last part. *)
Lemma Reconfigure_success_parts E svc w deps conf cfg :
  ConvertedAttributes conf = Some cfg ->
  error_of (Reconfigure E svc w deps conf) = None ->
  exists c, cloudConnectionService deps = Some c /\ captureDirProhibited E cfg = false.
Proof.
  intros Hconf Herr. unfold Reconfigure, captureDirProhibited in *. rewrite Hconf in Herr.
  destruct (cloudConnectionService deps) as [c |]; [| discriminate].
  exists c. split; [reflexivity |].
  destruct (updateDataCaptureConfigs _ _ _ _) as [rcs w0].
  destruct (negb _ && _ && _); [discriminate | reflexivity].
Qed.

(** C10. After a successful [Reconfigure] whose config carries a stale
    threshold of zero or less, the stale threshold of the service is the
    default of 10000 ms, and that is the threshold every later sync pass scans
    the capture directory and the additional paths with. *)
Theorem nonpositive_stale_threshold_defaults E svc w deps conf cfg :
  ConvertedAttributes conf = Some cfg ->
  FileLastModifiedMillis cfg <= 0 ->
  error_of (Reconfigure E svc w deps conf) = None ->
  let svc' := state_of (Reconfigure E svc w deps conf) in
  fileLastModifiedMillis svc' = 10000
  /\ forall fs now,
      toSync E fs now svc'
      = (getAllFilesToSync (FileExt E) (InProgressFileExt E) (FailedDir E) fs now
           (captureDir svc') 10000
         ++ flat_map
              (fun ap =>
                 getAllFilesToSync (FileExt E) (InProgressFileExt E) (FailedDir E) fs now
                   ap 10000)
              (slice_elems (additionalSyncPaths svc')))%list.
Proof.
  intros Hconf Hle Herr svc'.
  assert (fileLastModifiedMillis svc' = 10000) as Hflm.
  { destruct (Reconfigure_success_parts _ _ _ _ _ _ Hconf Herr) as (c & Hc & Hdir).
    unfold svc'. rewrite (Reconfigure_parts _ _ _ _ _ _ _ Hconf Hc Hdir).
    destruct (updateDataCaptureConfigs _ _ _ _) as [rcs w0].
    destruct (reconfigureCapture _ _ _ _ _) as [svc1 w1].
    destruct (reconfigureSelectiveSync _ _ _ _) as [svc2 w2].
    destruct (reconfigureSync _ _ _ _ _ _) as [[svc3 w3] res] eqn:Hsync.
    apply reconfigureSync_fileLastModifiedMillis in Hsync. cbn. rewrite Hsync.
    unfold effectiveFileLastModifiedMillis.
    destruct (Z.leb_spec (FileLastModifiedMillis cfg) 0); [reflexivity | lia]. }
  split; [exact Hflm |]. intros fs now. unfold toSync. rewrite Hflm. reflexivity.
Qed.

Lemma nonpositive_stale_threshold_defaults_witness :
  let conf := conf_of (with_FileLastModifiedMillis (-5) example_config) in
  let deps := example_deps 1 (fun _ => None) in
  let E := example_env true in
  ConvertedAttributes conf = Some (with_FileLastModifiedMillis (-5) example_config)
  /\ FileLastModifiedMillis (with_FileLastModifiedMillis (-5) example_config) <= 0
  /\ error_of (Reconfigure E (newBuiltIn E) example_world deps conf) = None
  /\ fileLastModifiedMillis (state_of (Reconfigure E (newBuiltIn E) example_world deps conf))
     = 10000.
Proof.
  cbv zeta.
  assert (error_of (Reconfigure (example_env true) (newBuiltIn (example_env true))
                      example_world (example_deps 1 (fun _ => None))
                      (conf_of (with_FileLastModifiedMillis (-5) example_config))) = None)
    as Herr by (vm_compute; reflexivity).
  split; [reflexivity |]. split; [cbn; lia |]. split; [exact Herr |].
  exact (proj1 (nonpositive_stale_threshold_defaults (example_env true)
                  (newBuiltIn (example_env true)) example_world
                  (example_deps 1 (fun _ => None))
                  (conf_of (with_FileLastModifiedMillis (-5) example_config))
                  _ eq_refl ltac:(cbn; lia) Herr)).
Defined.

(** *** The selective sync gate *)

Lemma readyToSync_events E s w : events (snd (readyToSync E s w)) = events w.
Proof. unfold readyToSync. repeat case_match; reflexivity. Qed.

Lemma reconfigureSync_selective E r cfg flm svc w :
  selectiveSyncEnabled (state_of (reconfigureSync E r cfg flm svc w))
  = selectiveSyncEnabled svc
  /\ syncSensor (state_of (reconfigureSync E r cfg flm svc w)) = syncSensor svc.
Proof.
  destruct (reconfigureSync E r cfg flm svc w) as [[svc' w'] res] eqn:H.
  sync_cases; split; reflexivity.
Qed.

Lemma reconfigureSync_logs E r cfg flm svc w :
  exists l, logs (world_of (reconfigureSync E r cfg flm svc w)) = (logs w ++ l)%list.
Proof.
  destruct (reconfigureSync E r cfg flm svc w) as [[svc' w'] res] eqn:H.
  sync_cases; first [by exists [] ; rewrite app_nil_r | by eexists].
Qed.

Lemma Reconfigure_selective E svc w deps conf cfg c :
  ConvertedAttributes conf = Some cfg ->
  cloudConnectionService deps = Some c ->
  captureDirProhibited E cfg = false ->
  let R := Reconfigure E svc w deps conf in
  selectiveSyncEnabled (state_of R) = bool_decide (SelectiveSyncerName cfg <> "")
  /\ syncSensor (state_of R)
     = (if bool_decide (SelectiveSyncerName cfg <> "")
        then sensorFromDependencies deps (SelectiveSyncerName cfg) else None)
  /\ (SelectiveSyncerName cfg <> "" ->
      sensorFromDependencies deps (SelectiveSyncerName cfg) = None ->
      In LogSelectiveSyncerUnavailable (logs (world_of R))).
Proof.
  intros Hconf Hc Hdir R. unfold R.
  rewrite (Reconfigure_parts _ _ _ _ _ _ _ Hconf Hc Hdir).
  destruct (updateDataCaptureConfigs _ _ _ _) as [rcs w0].
  destruct (reconfigureCapture _ _ _ _ _) as [svc1 w1].
  destruct (reconfigureSelectiveSync deps cfg svc1 w1) as [svc2 w2] eqn:Hsel.
  destruct (reconfigureSync_selective E (negb (bool_decide (Some c = cloudConnSvc svc)))
              cfg (effectiveFileLastModifiedMillis cfg) svc2 w2) as [-> ->].
  destruct (reconfigureSync_logs E (negb (bool_decide (Some c = cloudConnSvc svc)))
              cfg (effectiveFileLastModifiedMillis cfg) svc2 w2) as [l ->].
  unfold reconfigureSelectiveSync in Hsel.
  destruct (bool_decide (SelectiveSyncerName cfg <> "")) eqn:Hname.
  - destruct (sensorFromDependencies deps (SelectiveSyncerName cfg)) eqn:Hs;
      simplify_eq/=; repeat split; try discriminate.
    intros _ _. rewrite !in_app_iff. left. right. by left.
  - simplify_eq/=. repeat split.
    intros Hne. apply bool_decide_eq_false in Hname. contradiction.
Qed.

(** C4. The gate is true whenever selective sync is not enabled, as after
    every successful [Reconfigure] with a config that names no selective
    syncer. With selective sync enabled and a sensor in place, an error of
    [Readings], readings without the should-sync key, and a value under that
    key that is no bool each make the gate false; the gate then writes one
    line to the log, touches no collaborator, returns no error, and the tick
    runs no sync pass. *)
Theorem gate_fails_closed E fs now svc w :
  (selectiveSyncEnabled svc = false -> fst (shouldSync E svc w) = true)
  /\ (forall deps conf cfg w',
         ConvertedAttributes conf = Some cfg ->
         SelectiveSyncerName cfg = "" ->
         error_of (Reconfigure E svc w deps conf) = None ->
         fst (shouldSync E (state_of (Reconfigure E svc w deps conf)) w') = true)
  /\ (forall s,
         selectiveSyncEnabled svc = true ->
         syncSensor svc = Some s ->
         Readings s = None
         \/ (exists readings,
                Readings s = Some readings
                /\ (readings !! ShouldSyncKey E = None
                    \/ exists v, readings !! ShouldSyncKey E = Some v
                                 /\ forall b, v <> VBool b)) ->
         fst (shouldSync E svc w) = false
         /\ events (snd (shouldSync E svc w)) = events w
         /\ (exists m, logs (snd (shouldSync E svc w)) = (logs w ++ [m])%list)
         /\ events (onTick E fs now svc w) = events w).
Proof.
  split; [| split].
  - intros Hoff. unfold shouldSync. rewrite Hoff. by destruct (syncSensor svc).
  - intros deps conf cfg w' Hconf Hname Herr.
    destruct (Reconfigure_success_parts _ _ _ _ _ _ Hconf Herr) as (c & Hc & Hdir).
    destruct (Reconfigure_selective E svc w deps conf cfg c Hconf Hc Hdir) as (Hen & Hs & _).
    unfold shouldSync. rewrite Hen, Hs, Hname. reflexivity.
  - intros s Hon Hs Hbad.
    assert (fst (shouldSync E svc w) = false
            /\ events (snd (shouldSync E svc w)) = events w
            /\ exists m, logs (snd (shouldSync E svc w)) = (logs w ++ [m])%list)
      as (Hgate & Hev & Hlog).
    { unfold shouldSync. rewrite Hs, Hon. unfold readyToSync.
      destruct Hbad as [-> | (readings & -> & [-> | (v & -> & Hv)])].
      - repeat split. by eexists.
      - repeat split. by eexists.
      - destruct v; try (repeat split; by eexists). by destruct (Hv b). }
    repeat split; try assumption.
    unfold onTick. destruct (syncer svc); [| reflexivity].
    destruct (shouldSync E svc w) as [b w1]. cbn in *. by rewrite Hgate.
Qed.

Lemma gate_fails_closed_witness :
  let svc :=
    set_syncSensor (Some example_silent_sensor)
      (set_selectiveSyncEnabled true (newBuiltIn (example_env true))) in
  selectiveSyncEnabled svc = true
  /\ syncSensor svc = Some example_silent_sensor
  /\ (Readings example_silent_sensor = None
      \/ exists readings,
          Readings example_silent_sensor = Some readings
          /\ (readings !! ShouldSyncKey (example_env true) = None
              \/ exists v, readings !! ShouldSyncKey (example_env true) = Some v
                           /\ forall b, v <> VBool b))
  /\ fst (shouldSync (example_env true) svc example_world) = false.
Proof.
  cbv zeta.
  assert (Readings example_silent_sensor = None
          \/ exists readings,
              Readings example_silent_sensor = Some readings
              /\ (readings !! ShouldSyncKey (example_env true) = None
                  \/ exists v, readings !! ShouldSyncKey (example_env true) = Some v
                               /\ forall b, v <> VBool b)) as Hbad.
  { right. exists ∅. split; [reflexivity |]. left. reflexivity. }
  split; [reflexivity |]. split; [reflexivity |]. split; [exact Hbad |].
  exact (proj1 (proj2 (proj2
           (gate_fails_closed (example_env true) example_fs example_now
              (set_syncSensor (Some example_silent_sensor)
                 (set_selectiveSyncEnabled true (newBuiltIn (example_env true))))
              example_world)) example_silent_sensor eq_refl eq_refl Hbad)).
Defined.

(** *** A selective syncer that does not resolve *)

Lemma updateDataCaptureConfigs_with_sensors sensors deps rcs dir w :
  updateDataCaptureConfigs (with_sensors sensors deps) rcs dir w
  = updateDataCaptureConfigs deps rcs dir w.
Proof.
  revert w. induction rcs as [| resConf rcs IH]; intros w; [reflexivity |].
  cbn. destruct (Lookup deps (datamanager.Name resConf)); by rewrite IH.
Qed.

(** The error of the last part of [Reconfigure] does not depend on the
    selective syncer, nor on what the collaborators were told before. *)
Lemma reconfigureSync_error_selective E r cfg flm svc w w' s b s' b' :
  error_of (reconfigureSync E r cfg flm
              (set_syncSensor s (set_selectiveSyncEnabled b svc)) w)
  = error_of (reconfigureSync E r cfg flm
                (set_syncSensor s' (set_selectiveSyncEnabled b' svc)) w').
Proof.
  unfold error_of, reconfigureSync, cancelSyncScheduler, closeSyncer, initSyncer,
    startSyncScheduler, fresh.
  destruct svc. cbn.
  repeat (case_match; simplify_eq/=); try reflexivity; congruence.
Qed.

(** C5, as amended. When the config names a selective syncer that does not
    resolve, [Reconfigure] returns what it returns when the name resolves, the
    failure raising no error of its own; and once [Reconfigure] is past the
    check of the capture directory, the failure is logged and selective sync
    stays enabled with no sensor, so that the gate is false at every tick and
    no scheduled sync pass runs. *)
Theorem unresolved_selective_syncer E svc w deps conf cfg :
  ConvertedAttributes conf = Some cfg ->
  SelectiveSyncerName cfg <> "" ->
  sensorFromDependencies deps (SelectiveSyncerName cfg) = None ->
  let R := Reconfigure E svc w deps conf in
  (forall sensors,
      error_of R = error_of (Reconfigure E svc w (with_sensors sensors deps) conf))
  /\ (forall c,
         cloudConnectionService deps = Some c ->
         captureDirProhibited E cfg = false ->
         selectiveSyncEnabled (state_of R) = true
         /\ syncSensor (state_of R) = None
         /\ In LogSelectiveSyncerUnavailable (logs (world_of R))
         /\ forall w', fst (shouldSync E (state_of R) w') = false).
Proof.
  intros Hconf Hname Hsensor R. split.
  - intros sensors. unfold R.
    destruct (cloudConnectionService deps) as [c |] eqn:Hc;
      [| unfold Reconfigure; cbn; by rewrite Hconf, Hc].
    destruct (captureDirProhibited E cfg) eqn:Hdir.
    { unfold Reconfigure, captureDirProhibited in *. cbn.
      rewrite Hconf, Hc, updateDataCaptureConfigs_with_sensors.
      destruct (updateDataCaptureConfigs _ _ _ _) as [rcs w0]. by rewrite Hdir. }
    rewrite (Reconfigure_parts _ _ _ _ _ _ _ Hconf Hc Hdir).
    rewrite (Reconfigure_parts E svc w (with_sensors sensors deps) conf cfg c Hconf Hc Hdir).
    rewrite updateDataCaptureConfigs_with_sensors.
    destruct (updateDataCaptureConfigs _ _ _ _) as [rcs w0].
    destruct (reconfigureCapture _ _ _ _ _) as [svc1 w1].
    unfold reconfigureSelectiveSync. cbn [sensorFromDependencies with_sensors].
    repeat case_match; simplify_eq; apply reconfigureSync_error_selective.
  - intros c Hc Hdir.
    destruct (Reconfigure_selective E svc w deps conf cfg c Hconf Hc Hdir)
      as (Hen & Hs & Hlog).
    fold R in Hen, Hs, Hlog.
    rewrite (bool_decide_eq_true_2 _ Hname) in Hen, Hs. rewrite Hsensor in Hs.
    repeat split; try assumption; [by apply Hlog |].
    intros w'. unfold shouldSync. by rewrite Hen, Hs.
Qed.

Lemma unresolved_selective_syncer_witness :
  let cfg := with_SelectiveSyncerName "gate" example_config in
  let deps := example_deps 1 (fun _ => None) in
  let R := Reconfigure (example_env true) (newBuiltIn (example_env true)) example_world
             deps (conf_of cfg) in
  ConvertedAttributes (conf_of cfg) = Some cfg
  /\ SelectiveSyncerName cfg <> ""
  /\ sensorFromDependencies deps (SelectiveSyncerName cfg) = None
  /\ error_of R
     = error_of (Reconfigure (example_env true) (newBuiltIn (example_env true))
                   example_world
                   (with_sensors (fun _ => Some example_ready_sensor) deps) (conf_of cfg)).
Proof.
  cbv zeta.
  assert (SelectiveSyncerName (with_SelectiveSyncerName "gate" example_config) <> "")
    as Hname by discriminate.
  split; [reflexivity |]. split; [exact Hname |]. split; [reflexivity |].
  exact (proj1 (unresolved_selective_syncer (example_env true)
                  (newBuiltIn (example_env true)) example_world
                  (example_deps 1 (fun _ => None))
                  (conf_of (with_SelectiveSyncerName "gate" example_config))
                  _ eq_refl Hname eq_refl)
               (fun _ => Some example_ready_sensor)).
Defined.

(** C5 as stated fails: after a successful [Reconfigure] with the selective
    syncer "gate", which does not resolve, selective sync is enabled, not
    disabled, and the gate is false; with no selective syncer named the gate
    is true. *)
Lemma unresolved_selective_syncer_counterexample :
  let E := example_env true in
  let deps := example_deps 1 (fun _ => None) in
  let R := Reconfigure E (newBuiltIn E) example_world deps
             (conf_of (with_SelectiveSyncerName "gate" example_config)) in
  let R0 := Reconfigure E (newBuiltIn E) example_world deps (conf_of example_config) in
  sensorFromDependencies deps "gate" = None
  /\ error_of R = None
  /\ selectiveSyncEnabled (state_of R) = true
  /\ fst (shouldSync E (state_of R) (world_of R)) = false
  /\ selectiveSyncEnabled (state_of R0) = false
  /\ fst (shouldSync E (state_of R0) (world_of R0)) = true.
Proof. vm_compute. repeat split. Qed.

(** *** What the collaborators are told *)

Lemma extends_refl P w : extends P w w.
Proof. exists []. by rewrite app_nil_r. Qed.

Lemma extends_trans P w1 w2 w3 : extends P w1 w2 -> extends P w2 w3 -> extends P w1 w3.
Proof.
  intros (es1 & H1 & HP1) (es2 & H2 & HP2). exists (es1 ++ es2)%list.
  rewrite H2, H1, app_assoc, forallb_app, HP1, HP2. by split.
Qed.

Lemma extends_emits P es w : forallb P es = true -> extends P w (emits es w).
Proof. intros H. by exists es. Qed.

Lemma extends_emit P e w : P e = true -> extends P w (emit e w).
Proof. intros H. exists [e]. cbn. by rewrite H. Qed.

Lemma extends_same_events P w w' : events w' = events w -> extends P w w'.
Proof. intros H. exists []. by rewrite H, app_nil_r. Qed.

Lemma extends_log P m w : extends P w (log m w).
Proof. by apply extends_same_events. Qed.

Lemma extends_weaken (P Q : Event -> bool) w w' :
  (forall e, P e = true -> Q e = true) -> extends P w w' -> extends Q w w'.
Proof.
  intros HPQ (es & H & HP). exists es. split; [exact H |].
  rewrite forallb_forall in *. auto.
Qed.

Lemma extends_since P w w' e :
  extends P w w' -> In e (since w w') -> P e = true.
Proof.
  intros (es & H & HP) Hin. unfold since in Hin. rewrite H, drop_app_length in Hin.
  rewrite forallb_forall in HP. by apply HP.
Qed.

Lemma since_app w w' es : events w' = (events w ++ es)%list -> since w w' = es.
Proof. intros H. unfold since. by rewrite H, drop_app_length. Qed.

Lemma updateDataCaptureConfigs_resolve deps rcs dir w :
  fst (updateDataCaptureConfigs deps rcs dir w) = map (resolve deps dir) rcs
  /\ events (snd (updateDataCaptureConfigs deps rcs dir w)) = events w
  /\ nextId (snd (updateDataCaptureConfigs deps rcs dir w)) = nextId w.
Proof.
  revert w. induction rcs as [| resConf rcs IH]; intros w; [by repeat split |].
  cbn. unfold resolve at 1. destruct (Lookup deps (datamanager.Name resConf)).
  - destruct (IH w) as (H1 & H2 & H3).
    destruct (updateDataCaptureConfigs deps rcs dir w) as [rest' w'].
    cbn in *. by rewrite H1.
  - destruct (IH (log (LogLookupFailed (datamanager.Name resConf)) w)) as (H1 & H2 & H3).
    destruct (updateDataCaptureConfigs deps rcs dir _) as [rest' w'].
    cbn in *. by rewrite H1.
Qed.

(** *** A capture directory that is not allowed *)

(** C1, as the code has it. When the environment is not trusted and the
    capture directory of the config is neither empty nor the default one,
    [Reconfigure] fails with the configuration error and tells the
    collaborators nothing, but the service it leaves is the one before with
    the cloud connection service of the call in place of the one it had. *)
Theorem prohibited_capture_dir E svc w deps conf cfg c :
  ConvertedAttributes conf = Some cfg ->
  cloudConnectionService deps = Some c ->
  IsTrustedEnvironment E = false ->
  CaptureDir cfg <> "" ->
  CaptureDir cfg <> viamCaptureDotDir E ->
  let R := Reconfigure E svc w deps conf in
  error_of R = Some errCaptureDirectoryConfigurationDisabled
  /\ state_of R = set_cloudConnSvc (Some c) svc
  /\ events (world_of R) = events w
  /\ nextId (world_of R) = nextId w.
Proof.
  intros Hconf Hc Htrust Hne Hnd R. unfold R, Reconfigure.
  rewrite Hconf, Hc, Htrust.
  destruct (updateDataCaptureConfigs_resolve deps (ResourceConfigs cfg) (CaptureDir cfg) w)
    as (_ & Hev & Hid).
  destruct (updateDataCaptureConfigs _ _ _ _) as [rcs w0].
  rewrite (bool_decide_eq_true_2 _ Hne), (bool_decide_eq_true_2 _ Hnd).
  cbn in *. by repeat split.
Qed.

Lemma prohibited_capture_dir_witness :
  let E := example_env false in
  let cfg := with_CaptureDir "/tmp/capture" example_config in
  let svc :=
    state_of (Reconfigure E (newBuiltIn E) example_world (example_deps 1 (fun _ => None))
                (conf_of example_config)) in
  let R := Reconfigure E svc example_world (example_deps 2 (fun _ => None)) (conf_of cfg) in
  ConvertedAttributes (conf_of cfg) = Some cfg
  /\ cloudConnectionService (example_deps 2 (fun _ => None)) = Some 2%nat
  /\ IsTrustedEnvironment E = false
  /\ CaptureDir cfg <> ""
  /\ CaptureDir cfg <> viamCaptureDotDir E
  /\ error_of R = Some errCaptureDirectoryConfigurationDisabled
  /\ state_of R = set_cloudConnSvc (Some 2%nat) svc
  /\ cloudConnSvc svc = Some 1%nat
  /\ cloudConnSvc (state_of R) = Some 2%nat.
Proof.
  cbv zeta.
  assert (CaptureDir (with_CaptureDir "/tmp/capture" example_config) <> "")
    as Hne by discriminate.
  assert (CaptureDir (with_CaptureDir "/tmp/capture" example_config)
          <> viamCaptureDotDir (example_env false)) as Hnd by discriminate.
  pose proof
    (prohibited_capture_dir (example_env false)
       (state_of (Reconfigure (example_env false) (newBuiltIn (example_env false))
                    example_world (example_deps 1 (fun _ => None))
                    (conf_of example_config)))
       example_world (example_deps 2 (fun _ => None))
       (conf_of (with_CaptureDir "/tmp/capture" example_config))
       _ 2%nat eq_refl eq_refl eq_refl Hne Hnd) as (Herr & Hst & _).
  split; [reflexivity |]. split; [reflexivity |]. split; [reflexivity |].
  split; [exact Hne |]. split; [exact Hnd |]. split; [exact Herr |].
  split; [exact Hst |]. split; [vm_compute; reflexivity |].
  rewrite Hst. reflexivity.
Defined.

(** After the failed call of the witness the service no longer knows that its
    syncer was built on the connection of the first cloud connection service:
    a later [Reconfigure] with the second one and a new sync interval keeps
    the syncer, where without the failed call it closes and rebuilds it. *)
Lemma prohibited_capture_dir_loses_reinit :
  let E := example_env false in
  let deps2 := example_deps 2 (fun _ => None) in
  let next :=
    conf_of (mkConfig "" None 2%float false false None [example_resConf] 0 "") in
  let R1 := Reconfigure E (newBuiltIn E) example_world (example_deps 1 (fun _ => None))
              (conf_of example_config) in
  let Rfail := Reconfigure E (state_of R1) (world_of R1) deps2
                 (conf_of (with_CaptureDir "/tmp/capture" example_config)) in
  let Rafter := Reconfigure E (state_of Rfail) (world_of Rfail) deps2 next in
  let Rdirect := Reconfigure E (state_of R1) (world_of R1) deps2 next in
  syncer (state_of R1) = Some (NewManager 1)
  /\ error_of Rfail = Some errCaptureDirectoryConfigurationDisabled
  /\ syncer (state_of Rafter) = Some (NewManager 1)
  /\ ~ In (SyncerClose (NewManager 1)) (events (world_of Rafter))
  /\ syncer (state_of Rdirect) = Some (NewManager 2)
  /\ In (SyncerClose (NewManager 1)) (events (world_of Rdirect)).
Proof.
  vm_compute. repeat split; try tauto.
  intros H. repeat (destruct H as [H | H]; [discriminate |]). exact H.
Qed.

(** *** The capture part of [Reconfigure] *)

(** Closes a goal [extends P w w'] where [w'] is [w] after some [emit]s. *)
Ltac solve_extends :=
  first
    [ by apply extends_refl
    | by apply extends_same_events
    | unfold extends, emit, emits, log; cbn; rewrite <- ?app_assoc; by eexists ].

Lemma initializeOrUpdateCollector_extends E svc md d w :
  extends isCollectorEvent w (snd (initializeOrUpdateCollector E svc md d w)).
Proof.
  unfold initializeOrUpdateCollector, fresh.
  repeat (case_match; simplify_eq/=); solve_extends.
Qed.

Lemma componentMethodMetadataOf_eq E d :
  mkResourceMethodMetadata
    (resource.ShortName (datamanager.Name d))
    (Sprintf_v E (datamanager.AdditionalParams d))
    (data.mkMethodMetadata (resource.API (datamanager.Name d)) (datamanager.Method d))
  = componentMethodMetadataOf E d.
Proof. reflexivity. Qed.

Lemma reconfigureCollector_general E cfg svc new w d svc' new' w' :
  reconfigureCollector E cfg (svc, new, w) d = (svc', new', w') ->
  syncFields svc' = syncFields svc
  /\ captureDir svc' = captureDir svc
  /\ cloudConnSvc svc' = cloudConnSvc svc
  /\ collectors svc' = collectors svc
  /\ extends isCollectorEvent w w'.
Proof.
  unfold reconfigureCollector. intros H.
  repeat (case_match; simplify_eq/=); repeat split;
    try match goal with
        | H : initializeOrUpdateCollector ?E ?s ?md ?d ?w0 = (_, ?w2) |- _ =>
            pose proof (initializeOrUpdateCollector_extends E s md d w0) as Hx;
            rewrite H in Hx; cbn in Hx
        end;
    eauto 6 using extends_trans, extends_log, extends_refl.
Qed.

Lemma fold_reconfigureCollector_general E cfg rcs :
  forall svc new w svc' new' w',
    fold_left (reconfigureCollector E cfg) rcs (svc, new, w) = (svc', new', w') ->
    syncFields svc' = syncFields svc
    /\ captureDir svc' = captureDir svc
    /\ cloudConnSvc svc' = cloudConnSvc svc
    /\ collectors svc' = collectors svc
    /\ extends isCollectorEvent w w'.
Proof.
  induction rcs as [| d rcs IH]; intros svc new w svc' new' w' H.
  - cbn in H. simplify_eq. repeat split. apply extends_refl.
  - cbn [fold_left] in H.
    destruct (reconfigureCollector E cfg (svc, new, w) d) as [[svc1 new1] w1] eqn:Hstep.
    apply reconfigureCollector_general in Hstep as (Hs & Hd & Hc & Hm & Hw).
    apply IH in H as (Hs' & Hd' & Hc' & Hm' & Hw').
    repeat split; try congruence. eapply extends_trans; eauto.
Qed.

Lemma forallb_CollectorClose (l : list (resourceMethodMetadata * collectorAndConfig)) :
  forallb isCollectorEvent (map (fun kv => CollectorClose (Collector (snd kv))) l) = true.
Proof. induction l; cbn; auto. Qed.

Lemma closeRemoved_collector old new : forallb isCollectorEvent (closeRemoved old new) = true.
Proof.
  unfold closeRemoved. induction (map_to_list old) as [| kv l IH]; [reflexivity |].
  cbn. destruct (new !! kv.1); cbn; auto.
Qed.

Lemma closeRemoved_same m : closeRemoved m m = [].
Proof.
  unfold closeRemoved.
  assert (forall kv, In kv (map_to_list m) -> is_Some (m !! kv.1)) as H.
  { intros [k v] Hin%list_elem_of_In%elem_of_map_to_list. by exists v. }
  induction (map_to_list m) as [| kv l IH]; [reflexivity |].
  cbn. destruct (H kv) as [v ->]; [by left |]. apply IH. intros kv' Hin. apply H. by right.
Qed.

Lemma reconfigureCapture_general E cfg rcs svc w svc' w' :
  reconfigureCapture E cfg rcs svc w = (svc', w') ->
  syncFields svc' = syncFields svc
  /\ cloudConnSvc svc' = cloudConnSvc svc
  /\ extends isCollectorEvent w w'.
Proof.
  unfold reconfigureCapture, closeCollectors. intros H.
  repeat (case_match; simplify_eq/=);
    try match goal with
        | H : fold_left _ _ _ = _ |- _ =>
            apply fold_reconfigureCollector_general in H as (Hs & _ & Hc & _ & Hw);
            cbn in Hs, Hc
        end;
    repeat split; try assumption;
    repeat first
      [ by apply extends_refl
      | by apply extends_emits, closeRemoved_collector
      | by apply extends_emits, forallb_CollectorClose
      | eapply extends_trans; [eassumption |]
      | eapply extends_trans; [apply extends_emits, forallb_CollectorClose |] ].
Qed.

(** *** Declarations that are unchanged *)

Lemma reconfigureCollector_unchanged E cfg svc0 svc new w d :
  unchangedDecl E svc0 cfg d ->
  collectors svc = collectors svc0 ->
  exists svc' task w',
    reconfigureCollector E cfg (svc, new, w) d
    = (svc', <[componentMethodMetadataOf E d := task]> new, w')
    /\ collectors svc0 !! componentMethodMetadataOf E d = Some task
    /\ collectors svc' = collectors svc0
    /\ events w' = events w.
Proof.
  intros ([res Hres] & Hen & Hhz & [cm Hcm] & task & Htask & Heq) Hcoll.
  unfold reconfigureCollector. rewrite Hres. cbv zeta.
  rewrite componentMethodMetadataOf_eq, Hen, Hhz. cbn [negb andb].
  unfold initializeOrUpdateCollector. cbn [datamanager.Name datamanager.Method
    datamanager.AdditionalParams datamanager.Tags datamanager.set_Tags].
  rewrite Hcm. cbn [collectors set_componentMethodFrequencyHz].
  rewrite Hcoll, Htask, Heq.
  eexists _, task, _. split; [reflexivity |]. split; [reflexivity |].
  split; [exact Hcoll |].
  destruct (componentMethodFrequencyHz svc !! componentMethodMetadataOf E d);
    [destruct (negb _) |]; reflexivity.
Qed.

Lemma fold_reconfigureCollector_unchanged E cfg svc0 rcs :
  Forall (unchangedDecl E svc0 cfg) rcs ->
  forall svc new w,
    collectors svc = collectors svc0 ->
    (forall md t, new !! md = Some t -> collectors svc0 !! md = Some t) ->
    exists svc' new' w',
      fold_left (reconfigureCollector E cfg) rcs (svc, new, w) = (svc', new', w')
      /\ collectors svc' = collectors svc0
      /\ events w' = events w
      /\ (forall md t, new' !! md = Some t -> collectors svc0 !! md = Some t)
      /\ (forall md, is_Some (new !! md) -> is_Some (new' !! md))
      /\ (forall d, In d rcs -> is_Some (new' !! componentMethodMetadataOf E d)).
Proof.
  induction 1 as [| d rcs Hd _ IH]; intros svc new w Hcoll Hnew.
  - exists svc, new, w. repeat split; auto. intros d [].
  - destruct (reconfigureCollector_unchanged E cfg svc0 svc new w d Hd Hcoll)
      as (svc1 & task & w1 & Hstep & Htask & Hcoll1 & Hev1).
    destruct (IH svc1 (<[componentMethodMetadataOf E d := task]> new) w1 Hcoll1)
      as (svc' & new' & w' & Hfold & Hcoll' & Hev' & Hnew' & Hmono & Hkeys).
    { intros md t. destruct (decide (componentMethodMetadataOf E d = md)) as [<- | Hne].
      - rewrite lookup_insert_eq. congruence.
      - rewrite lookup_insert_ne by exact Hne. apply Hnew. }
    exists svc', new', w'. cbn [fold_left]. rewrite Hstep.
    split; [exact Hfold |]. split; [exact Hcoll' |]. split; [congruence |].
    split; [exact Hnew' |]. split.
    + intros md Hmd. apply Hmono.
      destruct (decide (componentMethodMetadataOf E d = md)) as [<- | Hne].
      * rewrite lookup_insert_eq. by eexists.
      * by rewrite lookup_insert_ne.
    + intros d' [<- | Hin]; [| by apply Hkeys].
      apply Hmono. rewrite lookup_insert_eq. by eexists.
Qed.

Lemma reconfigureCapture_unchanged E cfg rcs svc0 svc w :
  CaptureDisabled cfg = false ->
  Forall (unchangedDecl E svc0 cfg) rcs ->
  (forall md, is_Some (collectors svc0 !! md) ->
              exists d, In d rcs /\ componentMethodMetadataOf E d = md) ->
  collectors svc = collectors svc0 ->
  collectors (fst (reconfigureCapture E cfg rcs svc w)) = collectors svc0
  /\ events (snd (reconfigureCapture E cfg rcs svc w)) = events w.
Proof.
  intros Hen Hall Hcover Hcoll. unfold reconfigureCapture.
  set (svcA := set_captureDisabled _ _).
  assert (captureDisabled svcA = false) as HdisA by exact Hen.
  assert (collectors svcA = collectors svc0) as HcollA.
  { unfold svcA. by destruct (bool_decide _). }
  rewrite HdisA. cbv beta iota zeta. rewrite HdisA. cbn [negb].
  destruct (fold_reconfigureCollector_unchanged E cfg svc0 rcs Hall svcA ∅ w HcollA)
    as (svc' & new' & w' & Hfold & Hcoll' & Hev' & Hnew' & _ & Hkeys).
  { intros md t. by rewrite lookup_empty. }
  rewrite Hfold.
  assert (new' = collectors svc0) as ->.
  { apply map_eq. intros md. destruct (collectors svc0 !! md) as [t |] eqn:Hmd.
    - destruct (Hcover md) as (d & Hin & <-); [by eexists |].
      destruct (Hkeys d Hin) as [t' Ht']. rewrite Ht'. apply Hnew' in Ht'. congruence.
    - destruct (new' !! md) as [t' |] eqn:Ht'; [| reflexivity].
      apply Hnew' in Ht'. congruence. }
  cbv beta iota zeta. rewrite Hcoll', closeRemoved_same. cbn.
  rewrite app_nil_r. by split.
Qed.

Lemma reconfigureSelectiveSync_frame deps cfg svc w :
  syncFields (fst (reconfigureSelectiveSync deps cfg svc w)) = syncFields svc
  /\ cloudConnSvc (fst (reconfigureSelectiveSync deps cfg svc w)) = cloudConnSvc svc
  /\ collectors (fst (reconfigureSelectiveSync deps cfg svc w)) = collectors svc
  /\ events (snd (reconfigureSelectiveSync deps cfg svc w)) = events w.
Proof. unfold reconfigureSelectiveSync. repeat case_match; simplify_eq/=; done. Qed.

Lemma reconfigureSync_collectors E r cfg flm svc w :
  collectors (state_of (reconfigureSync E r cfg flm svc w)) = collectors svc
  /\ extends (fun e => negb (isCollectorEvent e)) w
       (world_of (reconfigureSync E r cfg flm svc w)).
Proof.
  destruct (reconfigureSync E r cfg flm svc w) as [[svc' w'] res] eqn:H.
  sync_cases; (split; [reflexivity | solve_extends]).
Qed.

(** C3, as amended. For every state of the service, a [Reconfigure] with a
    config that does not disable capture and whose declarations, as resolved
    against the dependencies, are all live and unchanged with respect to the
    tasks in place and name every one of them, leaves the task map as it was,
    every identifier with the task it had, and closes, builds, starts or
    flushes no collector. *)
Theorem unchanged_declarations_keep_tasks E svc w deps conf cfg :
  ConvertedAttributes conf = Some cfg ->
  CaptureDisabled cfg = false ->
  Forall (unchangedDecl E svc cfg)
    (map (resolve deps (CaptureDir cfg)) (ResourceConfigs cfg)) ->
  (forall md, is_Some (collectors svc !! md) ->
              exists d, In d (ResourceConfigs cfg)
                        /\ componentMethodMetadataOf E (resolve deps (CaptureDir cfg) d) = md) ->
  let R := Reconfigure E svc w deps conf in
  collectors (state_of R) = collectors svc
  /\ forall e, In e (since w (world_of R)) -> isCollectorEvent e = false.
Proof.
  intros Hconf Hen Hall Hcover R.
  assert (collectors (state_of R) = collectors svc
          /\ extends (fun e => negb (isCollectorEvent e)) w (world_of R)) as [Hcoll Hext].
  { unfold R.
    destruct (cloudConnectionService deps) as [c |] eqn:Hc.
    2: { unfold Reconfigure. rewrite Hconf, Hc. split; [reflexivity | apply extends_refl]. }
    destruct (updateDataCaptureConfigs_resolve deps (ResourceConfigs cfg)
                (CaptureDir cfg) w) as (Hrcs & Hev0 & _).
    destruct (captureDirProhibited E cfg) eqn:Hdir.
    { unfold Reconfigure, captureDirProhibited in *. rewrite Hconf, Hc.
      destruct (updateDataCaptureConfigs _ _ _ _) as [rcs w0]. rewrite Hdir.
      split; [reflexivity | by apply extends_same_events]. }
    rewrite (Reconfigure_parts _ _ _ _ _ _ _ Hconf Hc Hdir).
    destruct (updateDataCaptureConfigs _ _ _ _) as [rcs w0]. cbn in Hrcs, Hev0. subst rcs.
    destruct (reconfigureCapture_unchanged E cfg
                (map (resolve deps (CaptureDir cfg)) (ResourceConfigs cfg)) svc
                (set_cloudConnSvc (Some c) svc) w0 Hen Hall) as [Hcoll1 Hev1];
      [| reflexivity |].
    { intros md Hmd. destruct (Hcover md Hmd) as (d & Hin & Hd).
      exists (resolve deps (CaptureDir cfg) d). split; [by apply in_map | exact Hd]. }
    destruct (reconfigureCapture _ _ _ _ _) as [svc1 w1]. cbn in Hcoll1, Hev1.
    destruct (reconfigureSelectiveSync_frame deps cfg svc1 w1) as (_ & _ & Hcoll2 & Hev2).
    destruct (reconfigureSelectiveSync deps cfg svc1 w1) as [svc2 w2]. cbn in Hcoll2, Hev2.
    destruct (reconfigureSync_collectors E (negb (bool_decide (Some c = cloudConnSvc svc)))
                cfg (effectiveFileLastModifiedMillis cfg) svc2 w2) as [Hcoll3 Hext3].
    split; [congruence |].
    eapply extends_trans; [| exact Hext3].
    apply extends_same_events. congruence. }
  split; [exact Hcoll |].
  intros e He. apply (extends_since _ _ _ _ Hext) in He. by apply negb_true_iff.
Qed.

Lemma example_running_tasks :
  map_to_list (collectors (state_of example_running))
  = [(componentMethodMetadataOf (example_env true) example_resConf,
      mkCollectorAndConfig 0%nat
        (datamanager.set_CaptureDirectory ""
           (datamanager.set_Resource (Some 1%nat) example_resConf)))].
Proof. vm_compute. reflexivity. Qed.

Lemma example_running_unchanged :
  Forall (unchangedDecl (example_env true) (state_of example_running) example_config)
    (map (resolve (example_deps 1 (fun _ => None)) (CaptureDir example_config))
       (ResourceConfigs example_config)).
Proof.
  constructor; [| constructor].
  split; [by eexists |]. split; [reflexivity |]. split; [reflexivity |].
  split; [by eexists |].
  exists (mkCollectorAndConfig 0%nat
            (datamanager.set_CaptureDirectory ""
               (datamanager.set_Resource (Some 1%nat) example_resConf))).
  split; vm_compute; reflexivity.
Qed.

Lemma example_running_covered md :
  is_Some (collectors (state_of example_running) !! md) ->
  exists d, In d (ResourceConfigs example_config)
            /\ componentMethodMetadataOf (example_env true)
                 (resolve (example_deps 1 (fun _ => None)) (CaptureDir example_config) d)
               = md.
Proof.
  intros [t Ht]. apply elem_of_map_to_list in Ht.
  rewrite example_running_tasks in Ht. apply list_elem_of_singleton in Ht.
  injection Ht as -> _.
  exists example_resConf. split; [by left | reflexivity].
Qed.

Lemma unchanged_declarations_keep_tasks_witness :
  let E := example_env true in
  let deps := example_deps 1 (fun _ => None) in
  let svc := state_of example_running in
  let R := Reconfigure E svc (world_of example_running) deps (conf_of example_config) in
  ConvertedAttributes (conf_of example_config) = Some example_config
  /\ CaptureDisabled example_config = false
  /\ Forall (unchangedDecl E svc example_config)
       (map (resolve deps (CaptureDir example_config)) (ResourceConfigs example_config))
  /\ (forall md, is_Some (collectors svc !! md) ->
                 exists d, In d (ResourceConfigs example_config)
                           /\ componentMethodMetadataOf E
                                (resolve deps (CaptureDir example_config) d) = md)
  /\ collectors (state_of R) = collectors svc
  /\ forall e, In e (since (world_of example_running) (world_of R)) ->
               isCollectorEvent e = false.
Proof.
  cbv zeta.
  split; [reflexivity |]. split; [reflexivity |].
  split; [exact example_running_unchanged |].
  split; [exact example_running_covered |].
  exact (unchanged_declarations_keep_tasks (example_env true) (state_of example_running)
           (world_of example_running) (example_deps 1 (fun _ => None))
           (conf_of example_config) example_config eq_refl eq_refl
           example_running_unchanged example_running_covered).
Defined.

(** C3 as stated fails where the config disables capture: with the very
    declarations the running task was built from, every one of them live and
    unchanged, [Reconfigure] closes the collector and leaves no task. *)
Lemma unchanged_declarations_keep_tasks_counterexample :
  let E := example_env true in
  let deps := example_deps 1 (fun _ => None) in
  let svc := state_of example_running in
  let cfg := with_CaptureDisabled true example_config in
  let R := Reconfigure E svc (world_of example_running) deps (conf_of cfg) in
  ResourceConfigs cfg = ResourceConfigs example_config
  /\ Forall (unchangedDecl E svc cfg)
       (map (resolve deps (CaptureDir cfg)) (ResourceConfigs cfg))
  /\ (exists md task, collectors svc !! md = Some task
                      /\ collectors (state_of R) !! md = None
                      /\ In (CollectorClose (Collector task))
                           (since (world_of example_running) (world_of R))).
Proof.
  cbv zeta. split; [reflexivity |]. split; [exact example_running_unchanged |].
  exists (componentMethodMetadataOf (example_env true) example_resConf),
    (mkCollectorAndConfig 0%nat
       (datamanager.set_CaptureDirectory ""
          (datamanager.set_Resource (Some 1%nat) example_resConf))).
  split; [vm_compute; reflexivity |]. split; [vm_compute; reflexivity |].
  vm_compute. by left.
Qed.

(** *** The life of the syncer *)

Lemma reconfigureSync_unchanged E r cfg flm svc w :
  syncSettingsChanged svc cfg flm = false ->
  reconfigureSync E r cfg flm svc w = (svc, w, None).
Proof. intros H. unfold reconfigureSync, syncSettingsChanged in *. by rewrite H. Qed.

Lemma reconfigureSync_tears_down E cfg flm svc w m :
  syncSettingsChanged svc cfg flm = true ->
  syncer svc = Some m ->
  exists es,
    events (world_of (reconfigureSync E true cfg flm svc w)) = (events w ++ es)%list
    /\ In (SyncerClose m) es.
Proof.
  intros Hch Hm. unfold syncSettingsChanged in Hch.
  destruct (reconfigureSync E true cfg flm svc w) as [[svc' w'] res] eqn:H.
  unfold reconfigureSync in H. rewrite Hch in H.
  sync_cases; rewrite <- ?app_assoc; eexists; (split; [reflexivity |]); cbn; tauto.
Qed.

Lemma reconfigureSync_creates E r cfg flm svc w :
  syncSettingsChanged svc cfg flm = true ->
  ScheduledSyncDisabled cfg = false ->
  PrimFloat.eqb (SyncIntervalMins cfg) 0%float = false ->
  syncer svc = None ->
  error_of (reconfigureSync E r cfg flm svc w) = None ->
  exists id, syncer (state_of (reconfigureSync E r cfg flm svc w)) = Some (NewManager id)
             /\ syncRoutineCancelFn (state_of (reconfigureSync E r cfg flm svc w)) = true.
Proof.
  intros Hch Hen Hint Hm. unfold syncSettingsChanged in Hch.
  destruct (reconfigureSync E r cfg flm svc w) as [[svc' w'] res] eqn:H.
  unfold reconfigureSync in H. rewrite Hch in H. cbn. intros ->.
  sync_cases; try by eexists.
  all: match goal with
       | H : negb (ScheduledSyncDisabled _) && _ = false |- _ =>
           rewrite Hen, Hint in H; discriminate
       end.
Qed.

Lemma reconfigureSync_lazy E r cfg flm svc w :
  syncer svc = None ->
  syncSettingsChanged svc cfg flm = false
  \/ ScheduledSyncDisabled cfg = true
  \/ PrimFloat.eqb (SyncIntervalMins cfg) 0%float = true ->
  syncer (state_of (reconfigureSync E r cfg flm svc w)) = None.
Proof.
  intros Hm Hor.
  destruct (syncSettingsChanged svc cfg flm) eqn:Hch;
    [| by rewrite reconfigureSync_unchanged].
  destruct Hor as [? | Hor]; [discriminate |]. unfold syncSettingsChanged in Hch.
  destruct (reconfigureSync E r cfg flm svc w) as [[svc' w'] res] eqn:H.
  unfold reconfigureSync in H. rewrite Hch in H.
  destruct Hor as [Hor | Hor]; sync_cases; try congruence.
  all: match goal with
       | H : negb (ScheduledSyncDisabled _) && _ = true |- _ =>
           rewrite Hor in H; cbn in H; try rewrite andb_false_r in H; discriminate
       end.
Qed.

(** The service and the collaborators when the last part of [Reconfigure]
    starts: the sync settings and the syncer are those before the call, and
    only collectors were touched. *)
Lemma Reconfigure_before_sync E svc w deps conf cfg c :
  ConvertedAttributes conf = Some cfg ->
  cloudConnectionService deps = Some c ->
  captureDirProhibited E cfg = false ->
  exists svc2 w2,
    Reconfigure E svc w deps conf
    = reconfigureSync E (negb (bool_decide (Some c = cloudConnSvc svc))) cfg
        (effectiveFileLastModifiedMillis cfg) svc2 w2
    /\ syncFields svc2 = syncFields svc
    /\ cloudConnSvc svc2 = Some c
    /\ extends isCollectorEvent w w2.
Proof.
  intros Hconf Hc Hdir. rewrite (Reconfigure_parts _ _ _ _ _ _ _ Hconf Hc Hdir).
  destruct (updateDataCaptureConfigs_resolve deps (ResourceConfigs cfg) (CaptureDir cfg) w)
    as (_ & Hev0 & _).
  destruct (updateDataCaptureConfigs _ _ _ _) as [rcs w0]. cbn in Hev0.
  destruct (reconfigureCapture E cfg rcs (set_cloudConnSvc (Some c) svc) w0)
    as [svc1 w1] eqn:Hcap.
  apply reconfigureCapture_general in Hcap as (Hs1 & Hc1 & Hw1).
  destruct (reconfigureSelectiveSync_frame deps cfg svc1 w1) as (Hs2 & Hc2 & _ & Hev2).
  destruct (reconfigureSelectiveSync deps cfg svc1 w1) as [svc2 w2].
  cbn [fst snd] in Hs2, Hc2, Hev2.
  exists svc2, w2. split; [reflexivity |].
  split; [by rewrite Hs2, Hs1 |]. split; [by rewrite Hc2, Hc1 |].
  eapply extends_trans; [by apply extends_same_events |].
  eapply extends_trans; [exact Hw1 |]. by apply extends_same_events.
Qed.

Lemma syncSettingsChanged_syncFields svc svc' cfg flm :
  syncFields svc' = syncFields svc ->
  syncSettingsChanged svc' cfg flm = syncSettingsChanged svc cfg flm.
Proof.
  unfold syncFields, syncSettingsChanged. intros H.
  injection H as Ha Hb Hc Hd He Hf Hg Hh.
  by rewrite ?Ha, ?Hb, ?Hc, ?Hd, ?He, ?Hf, ?Hg, ?Hh.
Qed.

(** C6, as amended. The syncer is not made with the service; [Sync] makes it
    when there is none, and [Reconfigure] makes it when there is none and it
    starts the scheduler, and not otherwise. A [Reconfigure] whose cloud
    connection service is not the one of the service closes the syncer in
    place when it finds a changed sync setting (the sync-disabled flag, the
    interval, the tags or the stale threshold); when it finds none changed it
    keeps the syncer and touches nothing but collectors. [Close] closes the
    syncer and leaves none. *)
Theorem syncer_lifecycle E fs now svc w :
  syncer (newBuiltIn E) = None
  /\ (forall m, syncer svc = Some m ->
                syncer (state_of (Sync E fs now svc w)) = Some m)
  /\ (forall c partId conn,
         syncer svc = None ->
         cloudConnSvc svc = Some c ->
         AcquireConnection E c = AcquireOk partId conn ->
         syncerConstructor E partId conn (captureDir svc) = true ->
         error_of (Sync E fs now svc w) = None
         /\ syncer (state_of (Sync E fs now svc w)) = Some (NewManager (nextId w)))
  /\ (forall deps conf cfg,
         ConvertedAttributes conf = Some cfg ->
         syncer svc = None ->
         let R := Reconfigure E svc w deps conf in
         (error_of R = None ->
          syncSettingsChanged svc cfg (effectiveFileLastModifiedMillis cfg) = true ->
          ScheduledSyncDisabled cfg = false ->
          PrimFloat.eqb (SyncIntervalMins cfg) 0%float = false ->
          exists id, syncer (state_of R) = Some (NewManager id)
                     /\ syncRoutineCancelFn (state_of R) = true)
         /\ (syncSettingsChanged svc cfg (effectiveFileLastModifiedMillis cfg) = false
             \/ ScheduledSyncDisabled cfg = true
             \/ PrimFloat.eqb (SyncIntervalMins cfg) 0%float = true ->
             syncer (state_of R) = None))
  /\ (forall deps conf cfg c m,
         ConvertedAttributes conf = Some cfg ->
         cloudConnectionService deps = Some c ->
         captureDirProhibited E cfg = false ->
         cloudConnSvc svc <> Some c ->
         syncer svc = Some m ->
         let R := Reconfigure E svc w deps conf in
         (syncSettingsChanged svc cfg (effectiveFileLastModifiedMillis cfg) = true ->
          In (SyncerClose m) (since w (world_of R)))
         /\ (syncSettingsChanged svc cfg (effectiveFileLastModifiedMillis cfg) = false ->
             error_of R = None
             /\ syncer (state_of R) = Some m
             /\ cloudConnSvc (state_of R) = Some c
             /\ forall e, In e (since w (world_of R)) -> isCollectorEvent e = true))
  /\ syncer (fst (Close svc w)) = None
  /\ (forall m, syncer svc = Some m -> In (SyncerClose m) (since w (snd (Close svc w)))).
Proof.
  split; [reflexivity |]. split; [| split; [| split; [| split; [| split]]]].
  - intros m Hm. unfold Sync. by rewrite Hm.
  - intros c partId conn Hm Hc Hacq Hctor. unfold Sync, initSyncer, fresh.
    rewrite Hm, Hc, Hacq, Hctor. by split.
  - intros deps conf cfg Hconf Hm R. split.
    + intros Herr Hch Hen Hint.
      destruct (Reconfigure_success_parts _ _ _ _ _ _ Hconf Herr) as (c & Hc & Hdir).
      destruct (Reconfigure_before_sync E svc w deps conf cfg c Hconf Hc Hdir)
        as (svc2 & w2 & HR & Hs & _ & _).
      unfold R in *. rewrite HR in *.
      apply reconfigureSync_creates; try assumption.
      * by rewrite (syncSettingsChanged_syncFields _ _ _ _ Hs).
      * injection Hs. intros. congruence.
    + intros Hor. unfold R.
      destruct (cloudConnectionService deps) as [c |] eqn:Hc;
        [| unfold Reconfigure; by rewrite Hconf, Hc].
      destruct (captureDirProhibited E cfg) eqn:Hdir.
      { unfold Reconfigure, captureDirProhibited in *. rewrite Hconf, Hc.
        destruct (updateDataCaptureConfigs _ _ _ _) as [rcs w0]. by rewrite Hdir. }
      destruct (Reconfigure_before_sync E svc w deps conf cfg c Hconf Hc Hdir)
        as (svc2 & w2 & -> & Hs & _ & _).
      apply reconfigureSync_lazy.
      * injection Hs. intros. congruence.
      * by rewrite (syncSettingsChanged_syncFields _ _ _ _ Hs).
  - intros deps conf cfg c m Hconf Hc Hdir Hne Hm R.
    destruct (Reconfigure_before_sync E svc w deps conf cfg c Hconf Hc Hdir)
      as (svc2 & w2 & HR & Hs & Hc2 & Hext).
    assert (syncer svc2 = Some m) as Hm2 by (injection Hs; intros; congruence).
    assert (negb (bool_decide (Some c = cloudConnSvc svc)) = true) as Hre.
    { apply negb_true_iff, bool_decide_eq_false. congruence. }
    unfold R. rewrite HR, Hre. split; intros Hch;
      rewrite <- (syncSettingsChanged_syncFields _ _ _ _ Hs) in Hch.
    + destruct (reconfigureSync_tears_down E cfg _ svc2 w2 m Hch Hm2) as (es & Hes & Hin).
      destruct Hext as (es0 & Hes0 & _).
      erewrite since_app; [| rewrite Hes, Hes0, <- app_assoc; reflexivity].
      apply in_app_iff. by right.
    + rewrite (reconfigureSync_unchanged _ _ _ _ _ _ Hch). cbn.
      repeat split; try assumption.
      intros e He. by apply (extends_since _ _ _ _ Hext).
  - unfold Close, closeCollectors, closeSyncer. cbn.
    repeat (case_match; simplify_eq/=); done.
  - intros m Hm. unfold Close, closeCollectors, closeSyncer. cbn. rewrite Hm.
    repeat (case_match; simplify_eq/=);
      (erewrite since_app; [| cbn; rewrite <- ?app_assoc; reflexivity]);
      rewrite !in_app_iff; cbn; tauto.
Qed.

Lemma syncer_lifecycle_witness :
  let E := example_env true in
  let svc := state_of example_running in
  let w := world_of example_running in
  let deps := example_deps 2 (fun _ => None) in
  let R := Reconfigure E svc w deps (conf_of example_config_2min) in
  ConvertedAttributes (conf_of example_config_2min) = Some example_config_2min
  /\ cloudConnectionService deps = Some 2%nat
  /\ captureDirProhibited E example_config_2min = false
  /\ cloudConnSvc svc <> Some 2%nat
  /\ syncer svc = Some (NewManager 1)
  /\ syncSettingsChanged svc example_config_2min
       (effectiveFileLastModifiedMillis example_config_2min) = true
  /\ In (SyncerClose (NewManager 1)) (since w (world_of R)).
Proof.
  cbv zeta.
  assert (cloudConnSvc (state_of example_running) <> Some 2%nat) as Hne
    by (vm_compute; discriminate).
  assert (syncer (state_of example_running) = Some (NewManager 1)) as Hm
    by (vm_compute; reflexivity).
  assert (syncSettingsChanged (state_of example_running) example_config_2min
            (effectiveFileLastModifiedMillis example_config_2min) = true) as Hch
    by (vm_compute; reflexivity).
  split; [reflexivity |]. split; [reflexivity |]. split; [reflexivity |].
  split; [exact Hne |]. split; [exact Hm |]. split; [exact Hch |].
  exact (proj1
           (proj1 (proj2 (proj2 (proj2 (proj2
                     (syncer_lifecycle (example_env true) example_fs example_now
                        (state_of example_running) (world_of example_running))))))
              (example_deps 2 (fun _ => None)) (conf_of example_config_2min)
              example_config_2min 2%nat (NewManager 1) eq_refl eq_refl eq_refl Hne Hm)
           Hch).
Defined.

(** C6 as stated fails: a second [Reconfigure] with the same config and
    another cloud connection service succeeds, puts that service in place,
    and keeps the syncer built on the connection of the first one, closing
    nothing. *)
Lemma syncer_lifecycle_counterexample :
  let E := example_env true in
  let svc := state_of example_running in
  let w := world_of example_running in
  let R := Reconfigure E svc w (example_deps 2 (fun _ => None)) (conf_of example_config) in
  error_of example_running = None
  /\ cloudConnSvc svc = Some 1%nat
  /\ syncer svc = Some (NewManager 1)
  /\ error_of R = None
  /\ cloudConnSvc (state_of R) = Some 2%nat
  /\ syncer (state_of R) = Some (NewManager 1)
  /\ since w (world_of R) = [].
Proof. vm_compute. repeat split. Qed.

(** ** Histories of the connection handle *)

Lemma step_calls_step c o : fst (step_calls c o) = grpc.step c o.
Proof. by destruct o. Qed.

Lemma run_call_ops ops c :
  forallb isCallOp ops = true -> grpc.run ops c = c.
Proof.
  revert c. induction ops as [| o ops IH]; intros c H; [reflexivity |].
  cbn in H. apply andb_true_iff in H as [Ho H]. cbn.
  destruct o; try discriminate; by apply IH.
Qed.

Lemma calls_of_call_ops ops c k :
  forallb isCallOp ops = true ->
  grpc.conn c = Some k ->
  Forall (fun call => call_conn call = grpc.connId k /\ isCallClose call = false)
    (calls_of ops c).
Proof.
  intros H Hk. induction ops as [| o ops IH]; [constructor |].
  cbn in H. apply andb_true_iff in H as [Ho H].
  destruct o; try discriminate; cbn; unfold grpc.Invoke, grpc.NewStream;
    rewrite Hk; cbn; constructor; auto.
Qed.

(** X1. The handle closes an underlying connection at most once for each
    time one is installed: over any sequence of operations, the calls of
    [Close] that reach a connection are no more than the connections
    installed, the one in place at the start included. A [Close] right after
    a [Close] reaches no connection and returns no error. *)
Theorem close_at_most_once_per_install (ops : list grpc.Op)
    (c : grpc.ReconfigurableClientConn) :
  (length (List.filter isCallClose (calls_of ops c))
   <= (match grpc.conn c with Some _ => 1 | None => 0 end)
      + length (List.filter installs ops))%nat
  /\ grpc.Close (fst (fst (grpc.Close c))) = (fst (fst (grpc.Close c)), None, []).
Proof.
  split.
  - revert c. induction ops as [| o ops IH]; intros c.
    + cbn. lia.
    + cbn [calls_of]. rewrite List.filter_app, length_app.
      specialize (IH (fst (step_calls c o))).
      destruct o as [[k |] | | m | m]; cbn in *;
        unfold grpc.Close, grpc.Invoke, grpc.NewStream in *;
        destruct (grpc.conn c) eqn:Hc; cbn in *; rewrite ?Hc in *; lia.
  - unfold grpc.Close. destruct (grpc.conn c) eqn:Hc; cbn; [reflexivity |].
    by rewrite Hc.
Qed.

(** X2. The connection installed last is the one in use, and the one it
    replaces is left alone: after any history, [ReplaceConn] with a connection
    followed by calls of [Invoke] and [NewStream] only makes every call reach
    that connection, none of them a [Close], and a further [Invoke] or
    [NewStream] returns what that connection answers. *)
Theorem last_installed_conn_serves (before calls : list grpc.Op)
    (c : grpc.ReconfigurableClientConn) (k : grpc.ClientConn) (method : string) :
  forallb isCallOp calls = true ->
  let c' := grpc.run (before ++ grpc.OpReplaceConn (Some k) :: calls) c in
  grpc.Invoke c' method = (grpc.connInvoke k method, [grpc.CallInvoke (grpc.connId k) method])
  /\ grpc.NewStream c' method
     = (grpc.connNewStream k method, [grpc.CallNewStream (grpc.connId k) method])
  /\ Forall (fun call => call_conn call = grpc.connId k /\ isCallClose call = false)
       (calls_of (grpc.OpReplaceConn (Some k) :: calls) (grpc.run before c)).
Proof.
  intros Hcalls c'.
  assert (grpc.conn c' = Some k) as Hc'.
  { unfold c'. rewrite run_app. cbn. by rewrite run_call_ops. }
  unfold grpc.Invoke, grpc.NewStream. rewrite Hc'. repeat split.
  cbn. by apply calls_of_call_ops.
Qed.

Lemma last_installed_conn_serves_witness :
  forallb isCallOp [grpc.OpInvoke "a"; grpc.OpNewStream "b"] = true
  /\ grpc.Invoke
       (grpc.run ([grpc.OpReplaceConn (Some (grpc.mkClientConn 3 (fun _ => None)
                                               (fun _ => inl 0%nat) None));
                   grpc.OpInvoke "x"]
                  ++ grpc.OpReplaceConn (Some example_conn)
                     :: [grpc.OpInvoke "a"; grpc.OpNewStream "b"])
          grpc.zero) "m"
     = (grpc.connInvoke example_conn "m", [grpc.CallInvoke (grpc.connId example_conn) "m"]).
Proof.
  split; [reflexivity |].
  exact (proj1 (last_installed_conn_serves
                  [grpc.OpReplaceConn (Some (grpc.mkClientConn 3 (fun _ => None)
                                               (fun _ => inl 0%nat) None));
                   grpc.OpInvoke "x"]
                  [grpc.OpInvoke "a"; grpc.OpNewStream "b"]
                  grpc.zero example_conn "m" eq_refl)).
Defined.

(** ** More on the file selector *)

Lemma age_mono now now' mt : now <= now' -> age now mt <= age now' mt.
Proof.
  intros H. unfold age, clk.Since, time.Sub.
  repeat match goal with
         | |- context [?a <? ?b] => destruct (Z.ltb_spec a b)
         end; unfold maxInt64, minInt64 in *; lia.
Qed.

(** X3. Selection is monotone. A path selected at one reading of the clock
    is selected at every later reading, the file system being the same; and
    with thresholds whose nanosecond count fits a duration, a path selected
    with one threshold is selected with every smaller one. *)
Theorem selection_monotone FileExt InProgressFileExt FailedDir fs now now' dir t t' p :
  now <= now' ->
  t' <= t ->
  -9223372036854 <= t' ->
  t <= 9223372036854 ->
  In p (getAllFilesToSync FileExt InProgressFileExt FailedDir fs now dir t) ->
  In p (getAllFilesToSync FileExt InProgressFileExt FailedDir fs now' dir t').
Proof.
  intros Hnow Ht Hlo Hhi. rewrite !getAllFilesToSync_Scanned.
  intros (mt & Hsc & Hs). exists mt. split; [exact Hsc |].
  apply selects_spec in Hs. apply selects_spec.
  rewrite mul_Millisecond_exact in * by lia.
  pose proof (age_mono now now' mt Hnow) as Hage. unfold time.Millisecond in *.
  destruct Hs as [Hs | [[He Hs] | [He Hs]]]; [by left | right; left | right; right];
    (split; [exact He | lia]).
Qed.

Lemma selection_monotone_witness :
  example_now <= example_now + 7
  /\ 400 <= 500
  /\ -9223372036854 <= 400
  /\ 500 <= 9223372036854
  /\ In "/data/c.plain"
       (getAllFilesToSync ".completed" ".inprogress" "failed" example_fs example_now
          "/data" 500)
  /\ In "/data/c.plain"
       (getAllFilesToSync ".completed" ".inprogress" "failed" example_fs
          (example_now + 7) "/data" 400).
Proof.
  assert (In "/data/c.plain"
            (getAllFilesToSync ".completed" ".inprogress" "failed" example_fs example_now
               "/data" 500)) as Hin by (vm_compute; tauto).
  assert (example_now <= example_now + 7) as H1 by lia.
  assert (400 <= 500) as H2 by lia.
  assert (-9223372036854 <= 400) as H3 by lia.
  assert (500 <= 9223372036854) as H4 by lia.
  repeat (split; [assumption |]).
  exact (selection_monotone ".completed" ".inprogress" "failed" example_fs example_now
           (example_now + 7) "/data" 500 400 "/data/c.plain" H1 H2 H3 H4 Hin).
Defined.

Lemma selected_flat_map_ext FileExt InProgressFileExt FailedDir now lm
    (f : filepath.Entry -> list string) dir entries :
  (forall c, In c entries ->
             selected FileExt InProgressFileExt FailedDir now lm
               (filepath.Join dir (filepath.entry_name c)) c = f c) ->
  flat_map (fun c => selected FileExt InProgressFileExt FailedDir now lm
                       (filepath.Join dir (filepath.entry_name c)) c) entries
  = flat_map f entries.
Proof.
  induction entries as [| c entries IH]; intros H; [reflexivity |].
  cbn. rewrite H by (by left). rewrite IH; [reflexivity |].
  intros c' Hc'. apply H. by right.
Qed.

(** X4. The scan of a directory is the scans of its entries, one after the
    other in the order of the directory: for a root directory that can be
    read and is not named as the directory of the failed files, the paths
    selected are those selected with each entry taken as a root at its joined
    path, concatenated in order. An entry that cannot be read, and a
    directory that is skipped, add nothing and do not stop the scan: a root
    whose [Lstat] fails, one named as the directory of the failed files and
    one that cannot be read select nothing. *)
Theorem scan_concatenates_entries FileExt InProgressFileExt FailedDir now lm :
  (forall fs fs' dir n dmt entries,
      n <> FailedDir ->
      fs dir = filepath.Dir n dmt false entries ->
      (forall c, In c entries -> fs' (filepath.Join dir (filepath.entry_name c)) = c) ->
      getAllFilesToSync FileExt InProgressFileExt FailedDir fs now dir lm
      = flat_map
          (fun c => getAllFilesToSync FileExt InProgressFileExt FailedDir fs' now
                      (filepath.Join dir (filepath.entry_name c)) lm)
          entries)
  /\ (forall fs dir,
         (exists n, fs dir = filepath.Broken n)
         \/ (exists dmt readErr entries,
                fs dir = filepath.Dir FailedDir dmt readErr entries)
         \/ (exists n dmt entries, fs dir = filepath.Dir n dmt true entries) ->
         getAllFilesToSync FileExt InProgressFileExt FailedDir fs now dir lm = []).
Proof.
  split.
  - intros fs fs' dir n dmt entries Hn Hdir Hfs'.
    rewrite getAllFilesToSync_selected, Hdir. cbn [selected orb].
    apply String.eqb_neq in Hn. rewrite Hn.
    apply selected_flat_map_ext. intros c Hc.
    by rewrite getAllFilesToSync_selected, (Hfs' c Hc).
  - intros fs dir H. rewrite getAllFilesToSync_selected.
    destruct H as [[n ->] | [(dmt & readErr & entries & ->) | (n & dmt & entries & ->)]];
      cbn; [reflexivity | | reflexivity].
    rewrite String.eqb_refl. by destruct readErr.
Qed.

Lemma scan_concatenates_entries_witness :
  "data" <> "failed"
  /\ failed_example_fs "/data"
     = filepath.Dir "data" 0 false
         [ filepath.Dir "failed" 0 false
             [ filepath.File "x.completed" (example_now - 50000 * time.Millisecond) ];
           filepath.File "a.completed" (example_now - 3 * time.Millisecond);
           filepath.File "c.plain" (example_now + 5 * time.Millisecond) ]
  /\ getAllFilesToSync ".completed" ".inprogress" "failed" failed_example_fs example_now
       "/data" 10000
     = flat_map
         (fun c => getAllFilesToSync ".completed" ".inprogress" "failed"
                     (fun path =>
                        if String.eqb path "/data/failed"
                        then filepath.Dir "failed" 0 false
                               [ filepath.File "x.completed"
                                   (example_now - 50000 * time.Millisecond) ]
                        else if String.eqb path "/data/a.completed"
                        then filepath.File "a.completed" (example_now - 3 * time.Millisecond)
                        else filepath.File "c.plain" (example_now + 5 * time.Millisecond))
                     example_now (filepath.Join "/data" (filepath.entry_name c)) 10000)
         [ filepath.Dir "failed" 0 false
             [ filepath.File "x.completed" (example_now - 50000 * time.Millisecond) ];
           filepath.File "a.completed" (example_now - 3 * time.Millisecond);
           filepath.File "c.plain" (example_now + 5 * time.Millisecond) ].
Proof.
  assert ("data" <> "failed") as Hn by discriminate.
  split; [exact Hn |]. split; [reflexivity |].
  apply (proj1 (scan_concatenates_entries ".completed" ".inprogress" "failed"
                  example_now 10000) failed_example_fs _ "/data" "data" 0 _ Hn eq_refl).
  intros c [<- | [<- | [<- | []]]]; reflexivity.
Defined.

Lemma list_ascii_of_string_app (a b : string) :
  list_ascii_of_string (a ++ b) = (list_ascii_of_string a ++ list_ascii_of_string b)%list.
Proof. induction a as [| x a IH]; cbn; [reflexivity | by rewrite IH]. Qed.

Lemma ext_scan_stops_at_separator (l rest suffix : list ascii) :
  forallb (fun c => negb (filepath.IsPathSeparator c)) l = true ->
  filepath.ext_scan (l ++ filepath.Separator :: rest) suffix = filepath.ext_scan l suffix.
Proof.
  revert suffix. induction l as [| c l IH]; intros suffix H; cbn in *.
  - reflexivity.
  - apply andb_true_iff in H as [Hc H]. apply negb_true_iff in Hc. rewrite Hc.
    destruct (Ascii.eqb c "."); [reflexivity | by apply IH].
Qed.

Lemma no_separator_forallb (s : string) :
  no_separator s = true ->
  forallb (fun c => negb (filepath.IsPathSeparator c)) (rev (list_ascii_of_string s)) = true.
Proof.
  intros H. apply forallb_forall. intros c Hc. apply in_rev in Hc.
  induction s as [| x s IH]; cbn in *; [destruct Hc |].
  apply andb_true_iff in H as [Hx H]. destruct Hc as [<- | Hc]; auto.
Qed.

Lemma Ext_Join dir name :
  no_separator name = true -> filepath.Ext (filepath.Join dir name) = filepath.Ext name.
Proof.
  intros H. unfold filepath.Ext, filepath.Join.
  rewrite !list_ascii_of_string_app, !rev_app_distr. cbn [list_ascii_of_string rev app].
  rewrite <- app_assoc. cbn [app].
  by rewrite ext_scan_stops_at_separator by (by apply no_separator_forallb).
Qed.

(** X5. Whether a file is selected does not depend on the directory it lies
    in: the extension of a joined path is the extension of the entry's name,
    and a file of one name and modification time scanned at its path under
    one directory is selected exactly when it is under another. *)
Theorem selection_ignores_directory
    FileExt InProgressFileExt FailedDir now lm dir dir' name mt :
  no_separator name = true ->
  filepath.Ext (filepath.Join dir name) = filepath.Ext name
  /\ (In (filepath.Join dir name)
        (getAllFilesToSync FileExt InProgressFileExt FailedDir
           (fs_at (filepath.Join dir name) (filepath.File name mt)) now
           (filepath.Join dir name) lm)
      <-> In (filepath.Join dir' name)
            (getAllFilesToSync FileExt InProgressFileExt FailedDir
               (fs_at (filepath.Join dir' name) (filepath.File name mt)) now
               (filepath.Join dir' name) lm)).
Proof.
  intros H. split; [by apply Ext_Join |].
  rewrite !getAllFilesToSync_selected. unfold fs_at. rewrite !String.eqb_refl.
  cbn [selected]. unfold selects. rewrite !Ext_Join by exact H.
  destruct (_ || _ || _); cbn; [| tauto].
  split; intros _; by left.
Qed.

Lemma selection_ignores_directory_witness :
  no_separator "b.inprogress" = true
  /\ filepath.Ext (filepath.Join "/data/arm.v1" "b.inprogress") = filepath.Ext "b.inprogress".
Proof.
  split; [reflexivity |].
  exact (proj1 (selection_ignores_directory ".completed" ".inprogress" "failed"
                  example_now 10000 "/data/arm.v1" "/other" "b.inprogress" 0 eq_refl)).
Defined.

(** ** More on the capture part of [Reconfigure] *)

Lemma since_trans P Q w0 w1 w2 :
  extends P w0 w1 -> extends Q w1 w2 -> since w0 w2 = (since w0 w1 ++ since w1 w2)%list.
Proof.
  intros (es1 & H1 & _) (es2 & H2 & _).
  rewrite (since_app w0 w1 es1 H1), (since_app w1 w2 es2 H2).
  apply since_app. by rewrite H2, H1, app_assoc.
Qed.

Lemma since_same_events_l w0 w1 w2 :
  events w1 = events w0 -> since w0 w2 = since w1 w2.
Proof. intros H. unfold since. by rewrite H. Qed.

Lemma since_same_events_r w0 w1 w2 :
  events w2 = events w1 -> since w0 w2 = since w0 w1.
Proof. intros H. unfold since. by rewrite H. Qed.

(** The three ways [initializeOrUpdateCollector] ends: the task in place is
    kept, the capture metadata does not build, or the task in place, if any,
    is closed and a new one is built or the building fails. *)
Lemma initializeOrUpdateCollector_cases E svc md config w r w' :
  initializeOrUpdateCollector E svc md config w = (r, w') ->
  (exists stored, collectors svc !! md = Some stored
                  /\ Equals E (Config_ stored) config = true
                  /\ r = Some stored /\ w' = w)
  \/ (r = None /\ w' = w)
  \/ (extends isCollectorEvent w w'
      /\ (forall stored, collectors svc !! md = Some stored ->
                         Equals E (Config_ stored) config = false
                         /\ In (CollectorClose (Collector stored)) (since w w'))
      /\ (forall t, r = Some t ->
                    t = mkCollectorAndConfig (nextId w) config
                    /\ In (CollectorNew (nextId w) md) (since w w')
                    /\ In (CollectorCollect (nextId w)) (since w w'))).
Proof.
  intros H.
  pose proof (initializeOrUpdateCollector_extends E svc md config w) as Hext.
  rewrite H in Hext. cbn [snd] in Hext.
  unfold initializeOrUpdateCollector, fresh in H.
  destruct (BuildCaptureMetadata E _ _ _ _ _); [| right; left; by simplify_eq].
  destruct (collectors svc !! md) as [stored |] eqn:Hst.
  - destruct (Equals E (Config_ stored) config) eqn:Heq.
    { left. exists stored. by simplify_eq. }
    right. right. split; [exact Hext |]. split.
    + intros ? [= <-]. split; [exact Heq |].
      repeat (case_match; simplify_eq/=);
        (erewrite since_app; [| cbn; rewrite <- ?app_assoc; reflexivity]);
        cbn; tauto.
    + intros t ->.
      repeat (case_match; simplify_eq/=);
        (split; [reflexivity |]);
        (erewrite since_app; [| cbn; rewrite <- ?app_assoc; reflexivity]);
        cbn; tauto.
  - right. right. split; [exact Hext |]. split; [intros ? [=] |].
    intros t ->.
    repeat (case_match; simplify_eq/=);
      (split; [reflexivity |]);
      (erewrite since_app; [| cbn; rewrite <- ?app_assoc; reflexivity]);
      cbn; tauto.
Qed.

(** One turn of the loop of [Reconfigure]: the declaration is passed over,
    or it is live and [initializeOrUpdateCollector] decides. *)
Lemma reconfigureCollector_cases E cfg svc new w d svc' new' w' :
  reconfigureCollector E cfg (svc, new, w) d = (svc', new', w') ->
  collectors svc' = collectors svc
  /\ ((new' = new /\ events w' = events w)
      \/ (liveDecl d
          /\ exists r w1 w2,
              events w1 = events w
              /\ initializeOrUpdateCollector E svc' (componentMethodMetadataOf E d)
                   (datamanager.set_Tags (Tags cfg) d) w1 = (r, w2)
              /\ events w' = events w2
              /\ new' = match r with
                        | Some t => <[componentMethodMetadataOf E d := t]> new
                        | None => new
                        end)).
Proof.
  unfold reconfigureCollector. intros H.
  destruct (datamanager.Resource d) as [res |] eqn:Hres;
    [| simplify_eq; split; [reflexivity | by left]].
  cbv zeta in H. rewrite !componentMethodMetadataOf_eq in H.
  set (w1 := match componentMethodFrequencyHz svc !! componentMethodMetadataOf E d with
             | Some _ => _ | None => _ end) in H.
  assert (events w1 = events w) as Hw1.
  { unfold w1. repeat case_match; reflexivity. }
  destruct (datamanager.Disabled d) eqn:Hdis; cbn [negb andb] in H;
    [simplify_eq; split; [reflexivity | by left] |].
  destruct (PrimFloat.ltb 0 (datamanager.CaptureFrequencyHz d)) eqn:Hhz;
    [| simplify_eq; split; [reflexivity | by left]].
  destruct (initializeOrUpdateCollector _ _ _ _ _) as [r w2] eqn:Hinit.
  destruct r as [t |]; simplify_eq; (split; [reflexivity |]); right;
    (split; [by repeat split; try eexists |]).
  - exists (Some t), w1, w'. by repeat split.
  - exists None, w1, w2. by repeat split.
Qed.


Lemma loopInvariant_step E cfg svc0 w0 rcs acc d :
  In d rcs ->
  loopInvariant E svc0 w0 rcs acc ->
  loopInvariant E svc0 w0 rcs (reconfigureCollector E cfg acc d).
Proof.
  destruct acc as [[svc new] w]. intros Hd (Hcoll & Hext & Hclosed & Hprov).
  destruct (reconfigureCollector E cfg (svc, new, w) d) as [[svc' new'] w'] eqn:Hstep.
  apply reconfigureCollector_cases in Hstep as (Hcoll' & Hcase).
  destruct Hext as (es0 & Hes0 & HP0).
  assert (since w0 w = es0) as Hs0 by (by apply since_app).
  unfold loopInvariant, builtSince in *. rewrite Hs0 in *.
  destruct Hcase as [(-> & Hev) | (Hlive & r & w1 & w2 & Hev1 & Hinit & Hev2 & ->)].
  { assert (since w0 w' = es0) as -> by (apply since_app; congruence).
    split; [congruence |]. split; [exists es0; split; [congruence | exact HP0] |].
    by split. }
  apply initializeOrUpdateCollector_cases in Hinit
    as [(stored & Hst & _ & -> & ->) | [(-> & ->) | ((es2 & Hes2 & HP2) & Hclose & Hbuilt)]].
  - (* the task in place is kept *)
    assert (since w0 w' = es0) as -> by (apply since_app; congruence).
    rewrite Hcoll', Hcoll in Hst.
    split; [congruence |]. split; [exists es0; split; [congruence | exact HP0] |].
    split.
    + intros md task t' Hmd Hnew Hne.
      destruct (decide (componentMethodMetadataOf E d = md)) as [<- | Hmdne].
      * rewrite lookup_insert_eq in Hnew. congruence.
      * rewrite lookup_insert_ne in Hnew by exact Hmdne. eauto.
    + intros md t Hnew.
      destruct (decide (componentMethodMetadataOf E d = md)) as [<- | Hmdne].
      * rewrite lookup_insert_eq in Hnew. injection Hnew as <-.
        split; [by left | by exists d].
      * rewrite lookup_insert_ne in Hnew by exact Hmdne. eauto.
  - (* the capture metadata does not build *)
    assert (since w0 w' = es0) as -> by (apply since_app; congruence).
    split; [congruence |]. split; [exists es0; split; [congruence | exact HP0] |].
    by split.
  - (* the task in place is closed, a new one is built or fails to *)
    assert (events w' = (events w0 ++ (es0 ++ es2))%list) as Hev'
      by (by rewrite Hev2, Hes2, Hev1, Hes0, app_assoc).
    assert (since w0 w' = (es0 ++ es2)%list) as -> by (by apply since_app).
    assert (since w1 w2 = es2) as Hs2 by (by apply since_app).
    rewrite Hs2 in *.
    split; [congruence |].
    split; [exists (es0 ++ es2)%list; split; [exact Hev' | by rewrite forallb_app, HP0, HP2] |].
    split.
    + intros md task t' Hmd Hnew Hne. apply in_app_iff.
      destruct r as [t |]; [| left; eauto].
      destruct (decide (componentMethodMetadataOf E d = md)) as [<- | Hmdne].
      * right. apply (Hclose task). by rewrite Hcoll', Hcoll.
      * rewrite lookup_insert_ne in Hnew by exact Hmdne. left. eauto.
    + intros md t Hnew. rewrite !in_app_iff.
      assert (new !! md = Some t ->
              (collectors svc0 !! md = Some t
               \/ (In (CollectorNew (Collector t) md) es0 \/ In (CollectorNew (Collector t) md) es2)
                  /\ (In (CollectorCollect (Collector t)) es0
                      \/ In (CollectorCollect (Collector t)) es2))
              /\ exists d0, In d0 rcs /\ componentMethodMetadataOf E d0 = md /\ liveDecl d0)
        as Hold.
      { intros Hn. destruct (Hprov md t Hn) as [[? | [? ?]] ?]; split; auto. }
      destruct r as [t0 |]; [| by apply Hold].
      destruct (decide (componentMethodMetadataOf E d = md)) as [<- | Hmdne].
      * rewrite lookup_insert_eq in Hnew. injection Hnew as <-.
        destruct (Hbuilt t0 eq_refl) as (-> & Hn & Hc). cbn.
        split; [right; split; by right | by exists d].
      * rewrite lookup_insert_ne in Hnew by exact Hmdne. by apply Hold.
Qed.

Lemma loopInvariant_fold E cfg svc0 w0 rcs :
  forall todo acc,
    (forall d, In d todo -> In d rcs) ->
    loopInvariant E svc0 w0 rcs acc ->
    loopInvariant E svc0 w0 rcs (fold_left (reconfigureCollector E cfg) todo acc).
Proof.
  induction todo as [| d todo IH]; intros acc Hsub Hinv; [exact Hinv |].
  cbn [fold_left]. apply IH; [intros d' Hd'; apply Hsub; by right |].
  apply loopInvariant_step; [apply Hsub; by left | exact Hinv].
Qed.

Lemma closeRemoved_In old new md task :
  old !! md = Some task -> new !! md = None ->
  In (CollectorClose (Collector task)) (closeRemoved old new).
Proof.
  intros Hold Hnew. unfold closeRemoved.
  apply list_elem_of_In, list_elem_of_omap. exists (md, task). split.
  - by apply elem_of_map_to_list.
  - cbn. by rewrite Hnew.
Qed.

Lemma closeCollectors_In (m : gmap resourceMethodMetadata collectorAndConfig) md task :
  m !! md = Some task ->
  In (CollectorClose (Collector task))
    (map (fun kv => CollectorClose (Collector (snd kv))) (map_to_list m)).
Proof.
  intros H. apply in_map_iff. exists (md, task). split; [reflexivity |].
  by apply list_elem_of_In, elem_of_map_to_list.
Qed.

(** The capture part of [Reconfigure], by what it does to the tasks. *)
Lemma reconfigureCapture_tasks E cfg rcs svc w svc' w' :
  reconfigureCapture E cfg rcs svc w = (svc', w') ->
  extends isCollectorEvent w w'
  /\ (forall md task,
         collectors svc !! md = Some task ->
         collectors svc' !! md <> Some task ->
         In (CollectorClose (Collector task)) (since w w'))
  /\ (forall md t,
         collectors svc' !! md = Some t ->
         CaptureDisabled cfg = false
         /\ (collectors svc !! md = Some t \/ builtSince w w' md t)
         /\ exists d, In d rcs /\ componentMethodMetadataOf E d = md /\ liveDecl d)
  /\ (CaptureDisabled cfg = true ->
      collectors svc' = ∅
      /\ since w w'
         = map (fun kv => CollectorClose (Collector (snd kv)))
             (map_to_list (collectors svc))).
Proof.
  intros H.
  pose proof (reconfigureCapture_general _ _ _ _ _ _ _ H) as (_ & _ & Hext).
  split; [exact Hext |].
  unfold reconfigureCapture in H.
  set (svcA := set_captureDisabled _ _) in H.
  assert (captureDisabled svcA = CaptureDisabled cfg) as HdisA by reflexivity.
  assert (collectors svcA = collectors svc) as HcollA.
  { unfold svcA. by destruct (bool_decide _). }
  clearbody svcA.
  rewrite HdisA in H. destruct (CaptureDisabled cfg) eqn:Hdis.
  - (* capture is disabled *)
    unfold closeCollectors in H. cbv beta iota zeta in H.
    change (captureDisabled (set_collectors ∅ svcA)) with (captureDisabled svcA) in H.
    rewrite HdisA in H. cbv beta iota zeta in H. cbn [negb collectors set_collectors] in H.
    rewrite closeRemoved_same in H. injection H as <- <-. cbn [collectors set_collectors
      set_additionalSyncPaths].
    assert (since w
              (emits []
                 (emits (map (fun kv => CollectorClose (Collector (snd kv)))
                           (map_to_list (collectors svcA))) w))
            = map (fun kv => CollectorClose (Collector (snd kv)))
                (map_to_list (collectors svc))) as Hsince.
    { apply since_app. unfold emits. cbn [events]. by rewrite app_nil_r, HcollA. }
    rewrite Hsince. split; [| split].
    + intros md task Hmd _. by apply (closeCollectors_In _ md).
    + intros md t Ht. by rewrite lookup_empty in Ht.
    + intros _. by split.
  - (* capture is enabled: the loop *)
    cbv beta iota zeta in H. rewrite HdisA in H. cbn [negb] in H.
    assert (loopInvariant E svcA w rcs (svcA, ∅, w)) as Hinv0.
    { split; [reflexivity |]. split; [apply extends_refl |].
      split; intros;
        match goal with H : ∅ !! _ = Some _ |- _ => by rewrite lookup_empty in H end. }
    apply (loopInvariant_fold E cfg svcA w rcs rcs) in Hinv0; [| auto].
    destruct (fold_left _ rcs _) as [[svc1 new] w1].
    destruct Hinv0 as (Hcoll1 & (es1 & Hes1 & HP1) & Hclosed & Hprov).
    injection H as <- <-. cbn [collectors set_collectors set_additionalSyncPaths].
    assert (since w w1 = es1) as Hs1 by (by apply since_app).
    assert (since w (emits (closeRemoved (collectors svc1) new) w1)
            = (es1 ++ closeRemoved (collectors svc1) new)%list) as Hsince.
    { apply since_app. unfold emits. cbn [events]. by rewrite Hes1, app_assoc. }
    unfold builtSince in *. rewrite Hsince, Hs1 in *. split; [| split].
    + intros md task Hmd Hne. rewrite <- HcollA in Hmd. apply in_app_iff.
      destruct (new !! md) as [t' |] eqn:Hnew.
      * left. eapply Hclosed; eauto. congruence.
      * right. apply (closeRemoved_In _ _ md); congruence.
    + intros md t Ht. destruct (Hprov md t Ht) as [Hor Hd].
      split; [reflexivity |]. split; [| exact Hd].
      rewrite HcollA in Hor. rewrite !in_app_iff. tauto.
    + discriminate.
Qed.

(** [Reconfigure] around its capture part, once it is past its checks. *)
Lemma Reconfigure_around_capture E svc w deps conf cfg c :
  ConvertedAttributes conf = Some cfg ->
  cloudConnectionService deps = Some c ->
  captureDirProhibited E cfg = false ->
  exists w0 svc1 w1,
    events w0 = events w
    /\ reconfigureCapture E cfg (map (resolve deps (CaptureDir cfg)) (ResourceConfigs cfg))
         (set_cloudConnSvc (Some c) svc) w0 = (svc1, w1)
    /\ collectors (state_of (Reconfigure E svc w deps conf)) = collectors svc1
    /\ extends (fun e => negb (isCollectorEvent e)) w1
         (world_of (Reconfigure E svc w deps conf)).
Proof.
  intros Hconf Hc Hdir. rewrite (Reconfigure_parts _ _ _ _ _ _ _ Hconf Hc Hdir).
  destruct (updateDataCaptureConfigs_resolve deps (ResourceConfigs cfg) (CaptureDir cfg) w)
    as (Hrcs & Hev0 & _).
  destruct (updateDataCaptureConfigs _ _ _ _) as [rcs w0]. cbn [fst snd] in Hrcs, Hev0.
  subst rcs.
  destruct (reconfigureCapture _ _ _ _ _) as [svc1 w1] eqn:Hcap.
  destruct (reconfigureSelectiveSync_frame deps cfg svc1 w1) as (_ & _ & Hcoll2 & Hev2).
  destruct (reconfigureSelectiveSync deps cfg svc1 w1) as [svc2 w2]. cbn [fst snd] in *.
  destruct (reconfigureSync_collectors E (negb (bool_decide (Some c = cloudConnSvc svc)))
              cfg (effectiveFileLastModifiedMillis cfg) svc2 w2) as [Hcoll3 Hext3].
  exists w0, svc1, w1. split; [exact Hev0 |]. split; [exact Hcap |].
  split; [congruence |].
  eapply extends_trans; [| exact Hext3]. by apply extends_same_events.
Qed.

(** [Reconfigure] leaves the tasks alone when it stops at one of its
    checks. *)
Lemma Reconfigure_checks E svc w deps conf :
  (exists cfg c, ConvertedAttributes conf = Some cfg
                 /\ cloudConnectionService deps = Some c
                 /\ captureDirProhibited E cfg = false)
  \/ (collectors (state_of (Reconfigure E svc w deps conf)) = collectors svc
      /\ events (world_of (Reconfigure E svc w deps conf)) = events w
      /\ error_of (Reconfigure E svc w deps conf) <> None).
Proof.
  unfold Reconfigure, captureDirProhibited.
  destruct (ConvertedAttributes conf) as [cfg |]; [| right; by repeat split].
  destruct (cloudConnectionService deps) as [c |]; [| right; by repeat split].
  destruct (updateDataCaptureConfigs_resolve deps (ResourceConfigs cfg) (CaptureDir cfg) w)
    as (_ & Hev0 & _).
  destruct (updateDataCaptureConfigs _ _ _ _) as [rcs w0].
  destruct (negb _ && _ && _) eqn:Hdir; [right; by repeat split |].
  left. by exists cfg, c.
Qed.

(** ** The tasks across [Reconfigure] *)

(** [Reconfigure] past its checks, by what it does to the tasks: what it
    tells the collaborators is what its capture part tells the collectors,
    [cs], and then what its sync part tells the others, [os]. *)
Lemma Reconfigure_tasks E svc w deps conf cfg c :
  ConvertedAttributes conf = Some cfg ->
  cloudConnectionService deps = Some c ->
  captureDirProhibited E cfg = false ->
  exists cs os,
    since w (world_of (Reconfigure E svc w deps conf)) = (cs ++ os)%list
    /\ forallb isCollectorEvent cs = true
    /\ forallb (fun e => negb (isCollectorEvent e)) os = true
    /\ (forall md task,
           collectors svc !! md = Some task ->
           collectors (state_of (Reconfigure E svc w deps conf)) !! md <> Some task ->
           In (CollectorClose (Collector task)) cs)
    /\ (forall md t,
           collectors (state_of (Reconfigure E svc w deps conf)) !! md = Some t ->
           CaptureDisabled cfg = false
           /\ (collectors svc !! md = Some t
               \/ In (CollectorNew (Collector t) md) cs
                  /\ In (CollectorCollect (Collector t)) cs)
           /\ exists d, In d (map (resolve deps (CaptureDir cfg)) (ResourceConfigs cfg))
                        /\ componentMethodMetadataOf E d = md /\ liveDecl d)
    /\ (CaptureDisabled cfg = true ->
        collectors (state_of (Reconfigure E svc w deps conf)) = ∅
        /\ cs = map (fun kv => CollectorClose (Collector (snd kv)))
                  (map_to_list (collectors svc))).
Proof.
  intros Hconf Hc Hdir.
  destruct (Reconfigure_around_capture E svc w deps conf cfg c Hconf Hc Hdir)
    as (w0 & svc1 & w1 & Hev0 & Hcap & Hcoll & Hext).
  destruct (reconfigureCapture_tasks _ _ _ _ _ _ _ Hcap)
    as (Hext1 & Hclosed & Hprov & Hdis).
  change (collectors (set_cloudConnSvc (Some c) svc)) with (collectors svc) in *.
  exists (since w0 w1), (since w1 (world_of (Reconfigure E svc w deps conf))).
  split.
  { rewrite (since_same_events_l w w0) by exact Hev0.
    eapply since_trans; eassumption. }
  split.
  { destruct Hext1 as (es & Hes & HP). by rewrite (since_app _ _ _ Hes). }
  split.
  { destruct Hext as (es & Hes & HP). by rewrite (since_app _ _ _ Hes). }
  rewrite Hcoll. split; [exact Hclosed |]. split; [exact Hprov | exact Hdis].
Qed.

(** X6. A task that is in place when [Reconfigure] is called and is not the
    task of its identifier when [Reconfigure] returns has had its collector
    closed by then, whatever [Reconfigure] returns. *)
Theorem replaced_tasks_are_closed E svc w deps conf md task :
  collectors svc !! md = Some task ->
  collectors (state_of (Reconfigure E svc w deps conf)) !! md <> Some task ->
  In (CollectorClose (Collector task))
     (since w (world_of (Reconfigure E svc w deps conf))).
Proof.
  intros Hold Hnew.
  destruct (Reconfigure_checks E svc w deps conf)
    as [(cfg & c & Hconf & Hc & Hdir) | (Hsame & _ & _)].
  - destruct (Reconfigure_tasks E svc w deps conf cfg c Hconf Hc Hdir)
      as (cs & os & -> & _ & _ & Hclosed & _).
    apply in_app_iff. left. by apply (Hclosed md).
  - rewrite Hsame in Hnew. contradiction.
Qed.

Lemma replaced_tasks_are_closed_witness :
  let E := example_env true in
  let deps := example_deps 1 (fun _ => None) in
  let svc := state_of example_running in
  let w := world_of example_running in
  let md := componentMethodMetadataOf E example_resConf in
  let task := mkCollectorAndConfig 0%nat
                (datamanager.set_CaptureDirectory ""
                   (datamanager.set_Resource (Some 1%nat) example_resConf)) in
  let R := Reconfigure E svc w deps (conf_of example_config_20hz) in
  collectors svc !! md = Some task
  /\ collectors (state_of R) !! md <> Some task
  /\ In (CollectorClose (Collector task)) (since w (world_of R)).
Proof.
  cbv zeta.
  assert (collectors (state_of example_running)
            !! componentMethodMetadataOf (example_env true) example_resConf
          = Some (mkCollectorAndConfig 0%nat
                    (datamanager.set_CaptureDirectory ""
                       (datamanager.set_Resource (Some 1%nat) example_resConf)))) as H1
    by (vm_compute; reflexivity).
  assert (collectors
            (state_of (Reconfigure (example_env true) (state_of example_running)
                         (world_of example_running) (example_deps 1 (fun _ => None))
                         (conf_of example_config_20hz)))
            !! componentMethodMetadataOf (example_env true) example_resConf
          <> Some (mkCollectorAndConfig 0%nat
                     (datamanager.set_CaptureDirectory ""
                        (datamanager.set_Resource (Some 1%nat) example_resConf)))) as H2
    by (vm_compute; discriminate).
  split; [exact H1 |]. split; [exact H2 |].
  exact (replaced_tasks_are_closed (example_env true) (state_of example_running)
           (world_of example_running) (example_deps 1 (fun _ => None))
           (conf_of example_config_20hz) _ _ H1 H2).
Defined.

(** X7. Every task the service has when [Reconfigure] returns is the task it
    had under that identifier before the call, or is a task whose collector
    was built for that identifier and started during the call. *)
Theorem tasks_are_kept_or_built E svc w deps conf md t :
  collectors (state_of (Reconfigure E svc w deps conf)) !! md = Some t ->
  collectors svc !! md = Some t
  \/ builtSince w (world_of (Reconfigure E svc w deps conf)) md t.
Proof.
  intros Ht.
  destruct (Reconfigure_checks E svc w deps conf)
    as [(cfg & c & Hconf & Hc & Hdir) | (Hsame & _ & _)].
  - destruct (Reconfigure_tasks E svc w deps conf cfg c Hconf Hc Hdir)
      as (cs & os & Hs & _ & _ & _ & Hprov & _).
    destruct (Hprov md t Ht) as (_ & [Hkept | [Hnew Hcollect]] & _); [by left |].
    right. unfold builtSince. rewrite Hs, !in_app_iff. tauto.
  - left. by rewrite <- Hsame.
Qed.

Lemma tasks_are_kept_or_built_witness :
  let E := example_env true in
  let deps := example_deps 1 (fun _ => None) in
  let svc := state_of example_running in
  let w := world_of example_running in
  let md := componentMethodMetadataOf E example_resConf in
  let R := Reconfigure E svc w deps (conf_of example_config_20hz) in
  exists t,
    collectors (state_of R) !! md = Some t
    /\ collectors svc !! md <> Some t
    /\ (collectors svc !! md = Some t \/ builtSince w (world_of R) md t).
Proof.
  cbv zeta.
  destruct (collectors
              (state_of (Reconfigure (example_env true) (state_of example_running)
                           (world_of example_running) (example_deps 1 (fun _ => None))
                           (conf_of example_config_20hz)))
              !! componentMethodMetadataOf (example_env true) example_resConf)
    as [t |] eqn:Ht; [| vm_compute in Ht; discriminate].
  exists t. split; [reflexivity |]. split.
  - vm_compute in Ht. injection Ht as <-. vm_compute. discriminate.
  - exact (tasks_are_kept_or_built (example_env true) (state_of example_running)
             (world_of example_running) (example_deps 1 (fun _ => None))
             (conf_of example_config_20hz) _ t Ht).
Defined.

(** X8. When [Reconfigure] gets past its checks, capture is not disabled in
    the config if the service has a task afterwards, and every such task is
    for a declaration of the config that is enabled with a positive capture
    frequency and whose resource is there once the declarations have been
    resolved against the dependencies. *)
Theorem tasks_have_live_declarations E svc w deps conf cfg c md t :
  ConvertedAttributes conf = Some cfg ->
  cloudConnectionService deps = Some c ->
  captureDirProhibited E cfg = false ->
  collectors (state_of (Reconfigure E svc w deps conf)) !! md = Some t ->
  CaptureDisabled cfg = false
  /\ exists resConf,
      In resConf (ResourceConfigs cfg)
      /\ componentMethodMetadataOf E resConf = md
      /\ is_Some (datamanager.Resource (resolve deps (CaptureDir cfg) resConf))
      /\ datamanager.Disabled resConf = false
      /\ PrimFloat.ltb 0%float (datamanager.CaptureFrequencyHz resConf) = true.
Proof.
  intros Hconf Hc Hdir Ht.
  destruct (Reconfigure_tasks E svc w deps conf cfg c Hconf Hc Hdir)
    as (cs & os & _ & _ & _ & _ & Hprov & _).
  destruct (Hprov md t Ht) as (Hdis & _ & d & Hd & Hmd & Hres & Hen & Hhz).
  split; [exact Hdis |].
  apply in_map_iff in Hd as (rc & <- & Hrc). exists rc.
  split; [exact Hrc |]. split; [| split; [exact Hres |]].
  - rewrite <- Hmd. unfold resolve. by destruct (Lookup deps (datamanager.Name rc)).
  - unfold resolve in Hen, Hhz. by destruct (Lookup deps (datamanager.Name rc)).
Qed.

Lemma tasks_have_live_declarations_witness :
  let E := example_env true in
  let deps := example_deps 1 (fun _ => None) in
  let md := componentMethodMetadataOf E example_resConf in
  let t := mkCollectorAndConfig 0%nat
             (datamanager.set_CaptureDirectory ""
                (datamanager.set_Resource (Some 1%nat) example_resConf)) in
  ConvertedAttributes (conf_of example_config) = Some example_config
  /\ cloudConnectionService deps = Some 1%nat
  /\ captureDirProhibited E example_config = false
  /\ collectors (state_of example_running) !! md = Some t
  /\ CaptureDisabled example_config = false
  /\ exists resConf,
      In resConf (ResourceConfigs example_config)
      /\ componentMethodMetadataOf E resConf = md
      /\ is_Some (datamanager.Resource (resolve deps (CaptureDir example_config) resConf))
      /\ datamanager.Disabled resConf = false
      /\ PrimFloat.ltb 0%float (datamanager.CaptureFrequencyHz resConf) = true.
Proof.
  cbv zeta.
  assert (collectors (state_of example_running)
            !! componentMethodMetadataOf (example_env true) example_resConf
          = Some (mkCollectorAndConfig 0%nat
                    (datamanager.set_CaptureDirectory ""
                       (datamanager.set_Resource (Some 1%nat) example_resConf)))) as H
    by (vm_compute; reflexivity).
  split; [reflexivity |]. split; [reflexivity |]. split; [reflexivity |].
  split; [exact H |].
  exact (tasks_have_live_declarations (example_env true)
           (newBuiltIn (example_env true)) example_world
           (example_deps 1 (fun _ => None)) (conf_of example_config) example_config
           1%nat _ _ eq_refl eq_refl eq_refl H).
Defined.

(** X9. When [Reconfigure] gets past its checks with a config that disables
    capture, the service has no task afterwards, and what the call tells the
    collectors is exactly one close for each task that was in place. *)
Theorem capture_disabled_closes_all E svc w deps conf cfg c :
  ConvertedAttributes conf = Some cfg ->
  cloudConnectionService deps = Some c ->
  captureDirProhibited E cfg = false ->
  CaptureDisabled cfg = true ->
  collectors (state_of (Reconfigure E svc w deps conf)) = ∅
  /\ List.filter isCollectorEvent (since w (world_of (Reconfigure E svc w deps conf)))
     = map (fun kv => CollectorClose (Collector (snd kv))) (map_to_list (collectors svc)).
Proof.
  intros Hconf Hc Hdir Hdis.
  destruct (Reconfigure_tasks E svc w deps conf cfg c Hconf Hc Hdir)
    as (cs & os & Hs & Hcs & Hos & _ & _ & Hall).
  destruct (Hall Hdis) as [Hempty Hcloses]. split; [exact Hempty |].
  rewrite Hs, List.filter_app, <- Hcloses.
  assert (List.filter isCollectorEvent cs = cs) as ->.
  { clear -Hcs. induction cs as [| e cs IH]; [reflexivity |].
    cbn in *. apply andb_true_iff in Hcs as [-> Hcs]. by rewrite IH. }
  assert (List.filter isCollectorEvent os = []) as ->.
  { clear -Hos. induction os as [| e os IH]; [reflexivity |].
    cbn in *. apply andb_true_iff in Hos as [He Hos].
    apply negb_true_iff in He. rewrite He. by apply IH. }
  by rewrite app_nil_r.
Qed.

Lemma capture_disabled_closes_all_witness :
  let E := example_env true in
  let deps := example_deps 1 (fun _ => None) in
  let svc := state_of example_running in
  let w := world_of example_running in
  let cfg := with_CaptureDisabled true example_config in
  let R := Reconfigure E svc w deps (conf_of cfg) in
  ConvertedAttributes (conf_of cfg) = Some cfg
  /\ cloudConnectionService deps = Some 1%nat
  /\ captureDirProhibited E cfg = false
  /\ CaptureDisabled cfg = true
  /\ collectors (state_of R) = ∅
  /\ List.filter isCollectorEvent (since w (world_of R))
     = map (fun kv => CollectorClose (Collector (snd kv))) (map_to_list (collectors svc)).
Proof.
  cbv zeta.
  split; [reflexivity |]. split; [reflexivity |]. split; [reflexivity |].
  split; [reflexivity |].
  exact (capture_disabled_closes_all (example_env true) (state_of example_running)
           (world_of example_running) (example_deps 1 (fun _ => None))
           (conf_of (with_CaptureDisabled true example_config))
           (with_CaptureDisabled true example_config) 1%nat
           eq_refl eq_refl eq_refl eq_refl).
Defined.

(** ** What [Reconfigure] stores, and what its result depends on *)

Lemma reconfigureCollector_captureDisabled E cfg acc d :
  captureDisabled (fst (fst (reconfigureCollector E cfg acc d)))
  = captureDisabled (fst (fst acc)).
Proof.
  destruct acc as [[svc new] w]. unfold reconfigureCollector.
  repeat (case_match; simplify_eq/=); reflexivity.
Qed.

Lemma fold_reconfigureCollector_captureDisabled E cfg rcs :
  forall acc,
    captureDisabled (fst (fst (fold_left (reconfigureCollector E cfg) rcs acc)))
    = captureDisabled (fst (fst acc)).
Proof.
  induction rcs as [| d rcs IH]; intros acc; [reflexivity |].
  cbn [fold_left]. by rewrite IH, reconfigureCollector_captureDisabled.
Qed.

Lemma reconfigureCapture_settings E cfg rcs svc w :
  captureDir (fst (reconfigureCapture E cfg rcs svc w)) = effectiveCaptureDir E cfg
  /\ captureDisabled (fst (reconfigureCapture E cfg rcs svc w)) = CaptureDisabled cfg
  /\ additionalSyncPaths (fst (reconfigureCapture E cfg rcs svc w))
     = AdditionalSyncPaths cfg.
Proof.
  unfold reconfigureCapture, effectiveCaptureDir.
  set (svcA := set_captureDisabled _ _).
  assert (captureDisabled svcA = CaptureDisabled cfg) as HdisA by reflexivity.
  assert (captureDir svcA
          = if bool_decide (CaptureDir cfg <> "") then CaptureDir cfg
            else viamCaptureDotDir E) as HdirA.
  { unfold svcA. by destruct (bool_decide _). }
  clearbody svcA. rewrite <- HdirA, <- HdisA.
  destruct (captureDisabled svcA) eqn:Hdis.
  - unfold closeCollectors. cbv beta iota zeta.
    change (captureDisabled (set_collectors ∅ svcA)) with (captureDisabled svcA).
    rewrite Hdis. cbn. by rewrite Hdis.
  - cbv beta iota zeta. rewrite Hdis. cbn [negb].
    pose proof (fold_reconfigureCollector_captureDisabled E cfg rcs (svcA, ∅, w)) as Hd.
    destruct (fold_left _ rcs _) as [[svc1 new] w1] eqn:Hfold.
    apply fold_reconfigureCollector_general in Hfold as (_ & Hdir & _).
    cbn in *. by rewrite Hdir, Hd.
Qed.

(** [Reconfigure] past its checks is its sync part on a service that has
    the sync fields of the service it was called on and the other settings
    of the config. *)
Lemma Reconfigure_stores E svc w deps conf cfg c :
  ConvertedAttributes conf = Some cfg ->
  cloudConnectionService deps = Some c ->
  captureDirProhibited E cfg = false ->
  exists svc2 w2,
    Reconfigure E svc w deps conf
    = reconfigureSync E (negb (bool_decide (Some c = cloudConnSvc svc))) cfg
        (effectiveFileLastModifiedMillis cfg) svc2 w2
    /\ syncFields svc2 = syncFields svc
    /\ cloudConnSvc svc2 = Some c
    /\ captureDir svc2 = effectiveCaptureDir E cfg
    /\ captureDisabled svc2 = CaptureDisabled cfg
    /\ additionalSyncPaths svc2 = AdditionalSyncPaths cfg
    /\ selectiveSyncEnabled svc2 = bool_decide (SelectiveSyncerName cfg <> "")
    /\ extends isCollectorEvent w w2.
Proof.
  intros Hconf Hc Hdir. rewrite (Reconfigure_parts _ _ _ _ _ _ _ Hconf Hc Hdir).
  destruct (updateDataCaptureConfigs_resolve deps (ResourceConfigs cfg) (CaptureDir cfg) w)
    as (_ & Hev0 & _).
  destruct (updateDataCaptureConfigs _ _ _ _) as [rcs w0]. cbn in Hev0.
  destruct (reconfigureCapture_settings E cfg rcs (set_cloudConnSvc (Some c) svc) w0)
    as (Hd1 & Hdis1 & Hap1).
  destruct (reconfigureCapture E cfg rcs (set_cloudConnSvc (Some c) svc) w0)
    as [svc1 w1] eqn:Hcap.
  apply reconfigureCapture_general in Hcap as (Hs1 & Hc1 & Hw1).
  cbn [fst] in Hd1, Hdis1, Hap1.
  exists (fst (reconfigureSelectiveSync deps cfg svc1 w1)),
         (snd (reconfigureSelectiveSync deps cfg svc1 w1)).
  split; [by destruct (reconfigureSelectiveSync deps cfg svc1 w1) |].
  destruct (reconfigureSelectiveSync_frame deps cfg svc1 w1) as (Hs2 & Hc2 & _ & Hev2).
  split; [by rewrite Hs2, Hs1 |]. split; [by rewrite Hc2, Hc1 |].
  assert (extends isCollectorEvent w (snd (reconfigureSelectiveSync deps cfg svc1 w1)))
    as Hext.
  { eapply extends_trans; [by apply extends_same_events |].
    eapply extends_trans; [exact Hw1 |]. by apply extends_same_events. }
  unfold reconfigureSelectiveSync in *.
  repeat (case_match; simplify_eq/=); by repeat split.
Qed.

(** The fields that the sync part of [Reconfigure] leaves as they are. *)
Lemma reconfigureSync_frame E r cfg flm svc w :
  let svc' := state_of (reconfigureSync E r cfg flm svc w) in
  captureDir svc' = captureDir svc
  /\ captureDisabled svc' = captureDisabled svc
  /\ additionalSyncPaths svc' = additionalSyncPaths svc
  /\ cloudConnSvc svc' = cloudConnSvc svc
  /\ selectiveSyncEnabled svc' = selectiveSyncEnabled svc
  /\ syncSensor svc' = syncSensor svc.
Proof.
  cbv zeta.
  destruct (reconfigureSync E r cfg flm svc w) as [[svc' w'] res] eqn:H.
  sync_cases; by repeat split.
Qed.

(** After the sync part of [Reconfigure], whatever it returns, no sync
    setting differs from the config's, for an interval that equals itself. *)
Lemma reconfigureSync_settled E r cfg flm svc w :
  PrimFloat.eqb (SyncIntervalMins cfg) (SyncIntervalMins cfg) = true ->
  syncSettingsChanged (state_of (reconfigureSync E r cfg flm svc w)) cfg flm = false.
Proof.
  intros Hrefl.
  destruct (syncSettingsChanged svc cfg flm) eqn:Hch.
  { unfold syncSettingsChanged in Hch.
    destruct (reconfigureSync E r cfg flm svc w) as [[svc' w'] res] eqn:H.
    unfold reconfigureSync in H. rewrite Hch in H. clear Hch.
    unfold syncSettingsChanged.
    sync_cases;
      rewrite ?Hrefl, ?Bool.eqb_reflx, ?Z.eqb_refl, ?bool_decide_eq_true_2 by done;
      reflexivity. }
  by rewrite (reconfigureSync_unchanged _ _ _ _ _ _ Hch).
Qed.

(** The error of the sync part of [Reconfigure] is read off the sync fields,
    the cloud connection service and the capture directory, with the two
    calls that make a syncer. *)
Lemma reconfigureSync_error_indep E E' r cfg flm svc svc' w w' :
  AcquireConnection E = AcquireConnection E' ->
  syncerConstructor E = syncerConstructor E' ->
  syncFields svc = syncFields svc' ->
  cloudConnSvc svc = cloudConnSvc svc' ->
  captureDir svc = captureDir svc' ->
  error_of (reconfigureSync E r cfg flm svc w)
  = error_of (reconfigureSync E' r cfg flm svc' w').
Proof.
  intros Ha Hs Hf Hc Hd.
  unfold error_of, reconfigureSync, cancelSyncScheduler, closeSyncer, initSyncer,
    startSyncScheduler, fresh, syncFields in *.
  destruct svc, svc'. cbn in *. simplify_eq/=. rewrite Ha, Hs.
  repeat (case_match; simplify_eq/=); try reflexivity; congruence.
Qed.
(** X10. Whether [Reconfigure] fails, and with which error, does not depend
    on the collectors: two calls with the same dependencies and config return
    the same error when the services agree on the sync fields and the cloud
    connection service and the environments agree on the trust, the default
    capture directory and the two calls that make a syncer, whatever the
    tasks in place, the log, and the answers of everything a collector is
    built with. *)
Theorem Reconfigure_error_ignores_collectors E E' svc svc' w w' deps conf :
  IsTrustedEnvironment E = IsTrustedEnvironment E' ->
  viamCaptureDotDir E = viamCaptureDotDir E' ->
  AcquireConnection E = AcquireConnection E' ->
  syncerConstructor E = syncerConstructor E' ->
  syncFields svc = syncFields svc' ->
  cloudConnSvc svc = cloudConnSvc svc' ->
  error_of (Reconfigure E svc w deps conf) = error_of (Reconfigure E' svc' w' deps conf).
Proof.
  intros Ht Hv Ha Hs Hf Hcs.
  destruct (ConvertedAttributes conf) as [cfg |] eqn:Hconf;
    [| unfold Reconfigure; by rewrite Hconf].
  destruct (cloudConnectionService deps) as [c |] eqn:Hc;
    [| unfold Reconfigure; by rewrite Hconf, Hc].
  assert (captureDirProhibited E' cfg = captureDirProhibited E cfg) as Hp.
  { unfold captureDirProhibited. by rewrite Ht, Hv. }
  destruct (captureDirProhibited E cfg) eqn:Hdir.
  { unfold Reconfigure, captureDirProhibited in *. rewrite Hconf, Hc.
    destruct (updateDataCaptureConfigs deps _ _ w) as [rcs w0].
    destruct (updateDataCaptureConfigs deps _ _ w') as [rcs' w0'].
    by rewrite Hdir, Hp. }
  destruct (Reconfigure_stores E svc w deps conf cfg c Hconf Hc Hdir)
    as (svc2 & w2 & -> & Hs2 & Hc2 & Hd2 & _).
  destruct (Reconfigure_stores E' svc' w' deps conf cfg c Hconf Hc Hp)
    as (svc2' & w2' & -> & Hs2' & Hc2' & Hd2' & _).
  rewrite <- Hcs. apply reconfigureSync_error_indep; try assumption; try congruence.
  rewrite Hd2, Hd2'. unfold effectiveCaptureDir. by rewrite Hv.
Qed.

Lemma Reconfigure_error_ignores_collectors_witness :
  let E := example_env true in
  let E' := example_env_no_collectors true in
  let deps := example_deps 1 (fun _ => None) in
  let R := Reconfigure E (newBuiltIn E) example_world deps (conf_of example_config) in
  let R' := Reconfigure E' (newBuiltIn E') example_world deps (conf_of example_config) in
  IsTrustedEnvironment E = IsTrustedEnvironment E'
  /\ viamCaptureDotDir E = viamCaptureDotDir E'
  /\ AcquireConnection E = AcquireConnection E'
  /\ syncerConstructor E = syncerConstructor E'
  /\ syncFields (newBuiltIn E) = syncFields (newBuiltIn E')
  /\ cloudConnSvc (newBuiltIn E) = cloudConnSvc (newBuiltIn E')
  /\ map_to_list (collectors (state_of R')) = []
  /\ error_of R = error_of R'.
Proof.
  cbv zeta.
  split; [reflexivity |]. split; [reflexivity |]. split; [reflexivity |].
  split; [reflexivity |]. split; [reflexivity |]. split; [reflexivity |].
  split; [vm_compute; reflexivity |].
  exact (Reconfigure_error_ignores_collectors (example_env true)
           (example_env_no_collectors true) (newBuiltIn (example_env true))
           (newBuiltIn (example_env_no_collectors true)) example_world example_world
           (example_deps 1 (fun _ => None)) (conf_of example_config)
           eq_refl eq_refl eq_refl eq_refl eq_refl eq_refl).
Defined.

(** X11. Once [Reconfigure] is past its checks, the service it leaves has
    the settings of the config, also when the call returns an error of the
    syncer: the capture directory (the default one for an empty name), the
    capture-disabled flag, the additional sync paths, the cloud connection
    service of the call, whether selective sync is enabled, the
    sync-disabled flag, the tags, the stale threshold and, for an interval
    that equals itself, the sync interval. *)
Theorem Reconfigure_stores_settings E svc w deps conf cfg c :
  ConvertedAttributes conf = Some cfg ->
  cloudConnectionService deps = Some c ->
  captureDirProhibited E cfg = false ->
  PrimFloat.eqb (SyncIntervalMins cfg) (SyncIntervalMins cfg) = true ->
  let svc' := state_of (Reconfigure E svc w deps conf) in
  captureDir svc' = effectiveCaptureDir E cfg
  /\ captureDisabled svc' = CaptureDisabled cfg
  /\ additionalSyncPaths svc' = AdditionalSyncPaths cfg
  /\ cloudConnSvc svc' = Some c
  /\ selectiveSyncEnabled svc' = bool_decide (SelectiveSyncerName cfg <> "")
  /\ syncDisabled svc' = ScheduledSyncDisabled cfg
  /\ tags svc' = Tags cfg
  /\ fileLastModifiedMillis svc' = effectiveFileLastModifiedMillis cfg
  /\ PrimFloat.eqb (syncIntervalMins svc') (SyncIntervalMins cfg) = true.
Proof.
  intros Hconf Hc Hdir Hrefl. cbv zeta.
  destruct (Reconfigure_stores E svc w deps conf cfg c Hconf Hc Hdir)
    as (svc2 & w2 & -> & _ & Hc2 & Hd2 & Hdis2 & Hap2 & Hsel2 & _).
  set (r := negb _).
  destruct (reconfigureSync_frame E r cfg (effectiveFileLastModifiedMillis cfg) svc2 w2)
    as (Hd & Hdis & Hap & Hcs & Hsel & _).
  pose proof (reconfigureSync_settled E r cfg (effectiveFileLastModifiedMillis cfg) svc2 w2
                Hrefl) as Hset.
  unfold syncSettingsChanged in Hset.
  repeat match type of Hset with
         | _ || _ = false => apply orb_false_iff in Hset as [Hset ?]
         end.
  repeat match goal with
         | H : negb _ = false |- _ => apply negb_false_iff in H
         end.
  split; [congruence |]. split; [congruence |]. split; [congruence |].
  split; [congruence |]. split; [congruence |].
  split; [by apply Bool.eqb_prop |].
  split; [by eapply bool_decide_eq_true_1 |].
  split; [by apply Z.eqb_eq | assumption].
Qed.

Lemma Reconfigure_stores_settings_witness :
  let E := example_env_no_syncer in
  let deps := example_deps 1 (fun _ => None) in
  let cfg := with_FileLastModifiedMillis 5000 example_config in
  let R := Reconfigure E (newBuiltIn E) example_world deps (conf_of cfg) in
  ConvertedAttributes (conf_of cfg) = Some cfg
  /\ cloudConnectionService deps = Some 1%nat
  /\ captureDirProhibited E cfg = false
  /\ PrimFloat.eqb (SyncIntervalMins cfg) (SyncIntervalMins cfg) = true
  /\ error_of R = Some errSyncerInit
  /\ captureDir (state_of R) = effectiveCaptureDir E cfg
  /\ captureDisabled (state_of R) = CaptureDisabled cfg
  /\ additionalSyncPaths (state_of R) = AdditionalSyncPaths cfg
  /\ cloudConnSvc (state_of R) = Some 1%nat
  /\ selectiveSyncEnabled (state_of R) = bool_decide (SelectiveSyncerName cfg <> "")
  /\ syncDisabled (state_of R) = ScheduledSyncDisabled cfg
  /\ tags (state_of R) = Tags cfg
  /\ fileLastModifiedMillis (state_of R) = effectiveFileLastModifiedMillis cfg
  /\ PrimFloat.eqb (syncIntervalMins (state_of R)) (SyncIntervalMins cfg) = true.
Proof.
  cbv zeta.
  split; [reflexivity |]. split; [reflexivity |]. split; [reflexivity |].
  split; [reflexivity |]. split; [vm_compute; reflexivity |].
  exact (Reconfigure_stores_settings example_env_no_syncer
           (newBuiltIn example_env_no_syncer) example_world
           (example_deps 1 (fun _ => None))
           (conf_of (with_FileLastModifiedMillis 5000 example_config))
           (with_FileLastModifiedMillis 5000 example_config) 1%nat
           eq_refl eq_refl eq_refl eq_refl).
Defined.

(** X12. A config is acted on once. After a [Reconfigure] that got past its
    checks, with whatever result, a [Reconfigure] with the same config (its
    interval equal to itself) and the same dependencies returns no error,
    leaves the syncer, the connection, the scheduler and the sync settings as
    they are, and tells nothing to anyone but collectors: a syncer that
    failed to initialise is not tried again, and the scheduler is not
    started. *)
Theorem same_config_is_not_retried E svc w w' deps conf cfg c :
  ConvertedAttributes conf = Some cfg ->
  cloudConnectionService deps = Some c ->
  captureDirProhibited E cfg = false ->
  PrimFloat.eqb (SyncIntervalMins cfg) (SyncIntervalMins cfg) = true ->
  let R1 := Reconfigure E svc w deps conf in
  let R2 := Reconfigure E (state_of R1) w' deps conf in
  error_of R2 = None
  /\ syncFields (state_of R2) = syncFields (state_of R1)
  /\ forall e, In e (since w' (world_of R2)) -> isCollectorEvent e = true.
Proof.
  intros Hconf Hc Hdir Hrefl. cbv zeta.
  destruct (Reconfigure_stores E svc w deps conf cfg c Hconf Hc Hdir)
    as (svc2 & w2 & -> & _).
  set (r := negb _).
  pose proof (reconfigureSync_settled E r cfg (effectiveFileLastModifiedMillis cfg) svc2 w2
                Hrefl) as Hset.
  set (s1 := state_of _) in *. clearbody s1.
  destruct (Reconfigure_stores E s1 w' deps conf cfg c Hconf Hc Hdir)
    as (svc3 & w3 & -> & Hs3 & _ & _ & _ & _ & _ & Hext).
  rewrite <- (syncSettingsChanged_syncFields _ _ _ _ Hs3) in Hset.
  rewrite (reconfigureSync_unchanged _ _ _ _ _ _ Hset).
  split; [reflexivity |]. split; [exact Hs3 |].
  intros e He. by apply (extends_since _ _ _ _ Hext).
Qed.

Lemma same_config_is_not_retried_witness :
  let E := example_env_no_syncer in
  let deps := example_deps 1 (fun _ => None) in
  let R1 := Reconfigure E (newBuiltIn E) example_world deps (conf_of example_config) in
  let R2 := Reconfigure E (state_of R1) (world_of R1) deps (conf_of example_config) in
  ConvertedAttributes (conf_of example_config) = Some example_config
  /\ cloudConnectionService deps = Some 1%nat
  /\ captureDirProhibited E example_config = false
  /\ PrimFloat.eqb (SyncIntervalMins example_config) (SyncIntervalMins example_config)
     = true
  /\ error_of R1 = Some errSyncerInit
  /\ error_of R2 = None
  /\ syncFields (state_of R2) = syncFields (state_of R1)
  /\ forall e, In e (since (world_of R1) (world_of R2)) -> isCollectorEvent e = true.
Proof.
  cbv zeta.
  split; [reflexivity |]. split; [reflexivity |]. split; [reflexivity |].
  split; [reflexivity |]. split; [vm_compute; reflexivity |].
  exact (same_config_is_not_retried example_env_no_syncer
           (newBuiltIn example_env_no_syncer) example_world
           (world_of (Reconfigure example_env_no_syncer
                        (newBuiltIn example_env_no_syncer) example_world
                        (example_deps 1 (fun _ => None)) (conf_of example_config)))
           (example_deps 1 (fun _ => None)) (conf_of example_config) example_config
           1%nat eq_refl eq_refl eq_refl eq_refl).
Defined.

(** ** Histories of the service *)

Lemma monitor_app {S : Type} (f : S -> Event -> option S) es1 es2 s :
  monitor f (es1 ++ es2) s
  = match monitor f es1 s with
    | Some s' => monitor f es2 s'
    | None => None
    end.
Proof.
  revert s. induction es1 as [| e es1 IH]; intros s; [reflexivity |].
  cbn. destruct (f s e); [apply IH | reflexivity].
Qed.

Lemma monitor_skip {S : Type} (f : S -> Event -> option S) (P : Event -> bool) es s :
  (forall e, P e = true -> f s e = Some s) ->
  forallb P es = true ->
  monitor f es s = Some s.
Proof.
  intros Hf. induction es as [| e es IH]; intros HP; [reflexivity |].
  cbn in *. apply andb_true_iff in HP as [He HP]. rewrite (Hf e He). by apply IH.
Qed.

Lemma schedulerStep_collector b e : isCollectorEvent e = true -> schedulerStep b e = Some b.
Proof. by destruct e. Qed.

Lemma managerStep_collector st e : isCollectorEvent e = true -> managerStep st e = Some st.
Proof. destruct st. by destruct e. Qed.

Lemma schedulerInvariant_syncFields svc svc' :
  syncFields svc' = syncFields svc -> schedulerInvariant svc -> schedulerInvariant svc'.
Proof.
  unfold syncFields, schedulerInvariant. intros H. injection H as Ha Hb Hc Hd He Hf Hg Hh.
  by rewrite Ha, Hc, Hd, Hg, Hh.
Qed.


(** [Reconfigure] stopped by one of its checks leaves the sync fields and
    tells the collaborators nothing. *)
Lemma Reconfigure_stopped E svc w deps conf :
  (exists cfg c, ConvertedAttributes conf = Some cfg
                 /\ cloudConnectionService deps = Some c
                 /\ captureDirProhibited E cfg = false)
  \/ (syncFields (state_of (Reconfigure E svc w deps conf)) = syncFields svc
      /\ events (world_of (Reconfigure E svc w deps conf)) = events w
      /\ nextId (world_of (Reconfigure E svc w deps conf)) = nextId w).
Proof.
  unfold Reconfigure, captureDirProhibited.
  destruct (ConvertedAttributes conf) as [cfg |]; [| right; by repeat split].
  destruct (cloudConnectionService deps) as [c |]; [| right; by repeat split].
  destruct (updateDataCaptureConfigs_resolve deps (ResourceConfigs cfg) (CaptureDir cfg) w)
    as (_ & Hev0 & Hid0).
  destruct (updateDataCaptureConfigs _ _ _ _) as [rcs w0].
  destruct (negb _ && _ && _) eqn:Hdir; [right; by repeat split |].
  left. by exists cfg, c.
Qed.


Lemma sync_events E fs now svc w :
  events (sync E fs now svc w)
  = (events w
     ++ map (fun kv => CollectorFlush (Collector (snd kv))) (map_to_list (collectors svc))
     ++ match syncer svc with
        | Some m => map (SyncerSyncFile m) (toSync E fs now svc)
        | None => []
        end)%list.
Proof.
  unfold sync, flushCollectors. destruct (syncer svc); cbn.
  - by rewrite app_assoc.
  - by rewrite app_nil_r.
Qed.

Lemma forallb_CollectorFlush (l : list (resourceMethodMetadata * collectorAndConfig)) :
  forallb isCollectorEvent (map (fun kv => CollectorFlush (Collector (snd kv))) l) = true.
Proof. by induction l. Qed.

Lemma monitor_scheduler_sync b m paths :
  monitor schedulerStep (map (SyncerSyncFile m) paths) b = Some b.
Proof. induction paths as [| p paths IH]; [reflexivity | exact IH]. Qed.

Lemma sync_scheduler E fs now svc w b :
  exists es,
    events (sync E fs now svc w) = (events w ++ es)%list
    /\ monitor schedulerStep es b = Some b.
Proof.
  eexists. split; [apply sync_events |].
  rewrite monitor_app, (monitor_skip _ isCollectorEvent _ _
                          (schedulerStep_collector _) (forallb_CollectorFlush _)).
  destruct (syncer svc); [apply monitor_scheduler_sync | reflexivity].
Qed.

Lemma shouldSync_events E svc w : events (snd (shouldSync E svc w)) = events w.
Proof.
  unfold shouldSync, readyToSync. repeat (case_match; simplify_eq/=); reflexivity.
Qed.




(** *** The syncers over a history *)

Lemma existsb_fresh (n : nat) (made : list nat) :
  Forall (fun id => (id < n)%nat) made -> existsb (Nat.eqb n) made = false.
Proof.
  induction 1 as [| id made Hid _ IH]; [reflexivity |].
  cbn. rewrite IH, orb_false_r. apply Nat.eqb_neq. lia.
Qed.

Lemma Forall_lt_S (n : nat) (made : list nat) :
  Forall (fun id => (id < n)%nat) made -> Forall (fun id => (id < S n)%nat) (n :: made).
Proof.
  intros H. constructor; [lia |]. eapply Forall_impl; [exact H |]. cbn. intros. lia.
Qed.

Lemma Forall_lt_le (n n' : nat) (made : list nat) :
  (n <= n')%nat ->
  Forall (fun id => (id < n)%nat) made -> Forall (fun id => (id < n')%nat) made.
Proof. intros Hle H. eapply Forall_impl; [exact H |]. cbn. intros. lia. Qed.

Lemma monitor_manager_sync st m paths :
  (forall id, m = NewManager id -> isOpen (snd st) id = true) ->
  monitor managerStep (map (SyncerSyncFile m) paths) st = Some st.
Proof.
  intros Hm. induction paths as [| p paths IH]; [reflexivity |].
  cbn [map monitor]. destruct st as [made live]. destruct m as [| id]; [exact IH |].
  cbn [managerStep]. cbn in Hm. by rewrite (Hm id eq_refl).
Qed.

Lemma isOpen_openManager svc id :
  syncer svc = Some (NewManager id) -> isOpen (openManager svc) id = true.
Proof. intros H. unfold openManager. rewrite H. cbn. apply Nat.eqb_refl. Qed.

(** Making a syncer, from a service that has none. *)
Lemma initSyncer_managers E svc w made :
  syncer svc = None ->
  Forall (fun id => (id < nextId w)%nat) made ->
  let R := initSyncer E svc w in
  exists es made',
    events (world_of R) = (events w ++ es)%list
    /\ monitor managerStep es (made, None) = Some (made', openManager (state_of R))
    /\ Forall (fun id => (id < nextId (world_of R))%nat) made'
    /\ (error_of R = None -> is_Some (syncer (state_of R))).
Proof.
  intros Hnone Hmade. cbv zeta. pose proof (existsb_fresh _ _ Hmade) as Hfresh.
  unfold initSyncer, fresh, openManager, state_of, world_of, error_of.
  repeat (case_match; simplify_eq/=); try congruence;
    try (exists [], made; rewrite app_nil_r, ?Hnone; by repeat split).
  all: try (eexists [_], _; split; [reflexivity |]; cbn; rewrite Hfresh;
    split; [reflexivity |]; split; [by apply Forall_lt_S | by eexists]).
Qed.

(** The sync part of [Reconfigure], by the syncers. *)
Lemma reconfigureSync_managers E r cfg flm svc w made :
  Forall (fun id => (id < nextId w)%nat) made ->
  let R := reconfigureSync E r cfg flm svc w in
  exists es made',
    events (world_of R) = (events w ++ es)%list
    /\ monitor managerStep es (made, openManager svc)
       = Some (made', openManager (state_of R))
    /\ Forall (fun id => (id < nextId (world_of R))%nat) made'.
Proof.
  intros Hmade. cbv zeta. pose proof (existsb_fresh _ _ Hmade) as Hfresh.
  pose proof (Forall_lt_S _ _ Hmade) as Hmade'.
  destruct (reconfigureSync E r cfg flm svc w) as [[svc' w'] res] eqn:H.
  unfold openManager, state_of, world_of.
  sync_cases; rewrite <- ?app_assoc;
    (eexists _, _; split; [first [reflexivity | symmetry; apply app_nil_r] |]);
    repeat match goal with
           | H : syncer svc = _ |- _ => rewrite H in *; clear H
           | m : Manager |- _ => destruct m
           end;
    repeat first [progress cbn | rewrite Nat.eqb_refl | rewrite Hfresh];
    (split; [reflexivity |]); assumption.
Qed.

Lemma initializeOrUpdateCollector_nextId E svc md d w :
  (nextId w <= nextId (snd (initializeOrUpdateCollector E svc md d w)))%nat.
Proof.
  unfold initializeOrUpdateCollector, fresh.
  repeat (case_match; simplify_eq/=); lia.
Qed.

Lemma reconfigureCollector_nextId E cfg acc d :
  (nextId (snd acc) <= nextId (snd (reconfigureCollector E cfg acc d)))%nat.
Proof.
  destruct acc as [[svc new] w]. unfold reconfigureCollector.
  repeat (case_match; simplify_eq/=); try lia;
    match goal with
    | H : initializeOrUpdateCollector ?E ?s ?md ?d ?w0 = _ |- _ =>
        pose proof (initializeOrUpdateCollector_nextId E s md d w0) as Hx;
        rewrite H in Hx; cbn in Hx; lia
    end.
Qed.

Lemma fold_reconfigureCollector_nextId E cfg rcs :
  forall acc,
    (nextId (snd acc)
     <= nextId (snd (fold_left (reconfigureCollector E cfg) rcs acc)))%nat.
Proof.
  induction rcs as [| d rcs IH]; intros acc; [cbn; lia |].
  cbn [fold_left]. etrans; [| apply IH]. apply reconfigureCollector_nextId.
Qed.

Lemma reconfigureCapture_nextId E cfg rcs svc w :
  (nextId w <= nextId (snd (reconfigureCapture E cfg rcs svc w)))%nat.
Proof.
  unfold reconfigureCapture, closeCollectors.
  repeat (case_match; simplify_eq/=); try lia;
    match goal with
    | H : fold_left _ ?rcs ?acc = _ |- _ =>
        pose proof (fold_reconfigureCollector_nextId E cfg rcs acc) as Hx;
        rewrite H in Hx; cbn in Hx; lia
    end.
Qed.

(** [Reconfigure] past its checks, for what its sync part starts from. *)
Lemma Reconfigure_before_sync_nextId E svc w deps conf cfg c :
  ConvertedAttributes conf = Some cfg ->
  cloudConnectionService deps = Some c ->
  captureDirProhibited E cfg = false ->
  exists svc2 w2,
    Reconfigure E svc w deps conf
    = reconfigureSync E (negb (bool_decide (Some c = cloudConnSvc svc))) cfg
        (effectiveFileLastModifiedMillis cfg) svc2 w2
    /\ syncFields svc2 = syncFields svc
    /\ extends isCollectorEvent w w2
    /\ (nextId w <= nextId w2)%nat.
Proof.
  intros Hconf Hc Hdir. rewrite (Reconfigure_parts _ _ _ _ _ _ _ Hconf Hc Hdir).
  destruct (updateDataCaptureConfigs_resolve deps (ResourceConfigs cfg) (CaptureDir cfg) w)
    as (_ & Hev0 & Hid0).
  destruct (updateDataCaptureConfigs _ _ _ _) as [rcs w0]. cbn in Hev0, Hid0.
  pose proof (reconfigureCapture_nextId E cfg rcs (set_cloudConnSvc (Some c) svc) w0)
    as Hid1.
  destruct (reconfigureCapture E cfg rcs (set_cloudConnSvc (Some c) svc) w0)
    as [svc1 w1] eqn:Hcap.
  apply reconfigureCapture_general in Hcap as (Hs1 & Hc1 & Hw1). cbn in Hid1.
  destruct (reconfigureSelectiveSync_frame deps cfg svc1 w1) as (Hs2 & Hc2 & _ & Hev2).
  assert (nextId (snd (reconfigureSelectiveSync deps cfg svc1 w1)) = nextId w1) as Hid2.
  { unfold reconfigureSelectiveSync. repeat (case_match; simplify_eq/=); reflexivity. }
  destruct (reconfigureSelectiveSync deps cfg svc1 w1) as [svc2 w2].
  cbn [fst snd] in *.
  exists svc2, w2. split; [reflexivity |].
  split; [by rewrite Hs2, Hs1 |]. split; [| lia].
  eapply extends_trans; [by apply extends_same_events |].
  eapply extends_trans; [exact Hw1 |]. by apply extends_same_events.
Qed.

Lemma openManager_syncFields svc svc' :
  syncFields svc' = syncFields svc -> openManager svc' = openManager svc.
Proof.
  unfold syncFields, openManager. intros H. injection H as Ha _ _ _ _ _ _ _.
  by rewrite Ha.
Qed.

Lemma Reconfigure_managers E svc w deps conf made :
  Forall (fun id => (id < nextId w)%nat) made ->
  let R := Reconfigure E svc w deps conf in
  exists es made',
    events (world_of R) = (events w ++ es)%list
    /\ monitor managerStep es (made, openManager svc)
       = Some (made', openManager (state_of R))
    /\ Forall (fun id => (id < nextId (world_of R))%nat) made'.
Proof.
  intros Hmade. cbv zeta.
  destruct (Reconfigure_stopped E svc w deps conf)
    as [(cfg & c & Hconf & Hc & Hdir) | (Hs & Hev & Hid)].
  - destruct (Reconfigure_before_sync_nextId E svc w deps conf cfg c Hconf Hc Hdir)
      as (svc2 & w2 & -> & Hs2 & (cs & Hcs & HP) & Hid2).
    set (r := negb _). clearbody r.
    destruct (reconfigureSync_managers E r cfg (effectiveFileLastModifiedMillis cfg)
                svc2 w2 made (Forall_lt_le _ _ _ Hid2 Hmade))
      as (os & made' & Hos & Hmon & Hmade').
    exists (cs ++ os)%list, made'. split; [by rewrite Hos, Hcs, app_assoc |].
    split; [| exact Hmade'].
    rewrite monitor_app, (monitor_skip _ isCollectorEvent cs _
                            (managerStep_collector _) HP).
    by rewrite <- (openManager_syncFields _ _ Hs2).
  - exists [], made. split; [by rewrite app_nil_r |]. split.
    + cbn. by rewrite (openManager_syncFields _ _ Hs).
    + by rewrite Hid.
Qed.

Lemma sync_managers E fs now svc w made :
  exists es,
    events (sync E fs now svc w) = (events w ++ es)%list
    /\ monitor managerStep es (made, openManager svc) = Some (made, openManager svc)
    /\ nextId (sync E fs now svc w) = nextId w.
Proof.
  eexists. split; [apply sync_events |]. split.
  - rewrite monitor_app, (monitor_skip _ isCollectorEvent _ _
                            (managerStep_collector _) (forallb_CollectorFlush _)).
    destruct (syncer svc) as [m |] eqn:Hm; [| reflexivity].
    apply monitor_manager_sync. intros id ->. by apply isOpen_openManager.
  - unfold sync, flushCollectors. by destruct (syncer svc).
Qed.

Lemma handle_managers E svc w r made :
  Forall (fun id => (id < nextId w)%nat) made ->
  exists es made',
    events (snd (handle E (svc, w) r)) = (events w ++ es)%list
    /\ monitor managerStep es (made, openManager svc)
       = Some (made', openManager (fst (handle E (svc, w) r)))
    /\ Forall (fun id => (id < nextId (snd (handle E (svc, w) r)))%nat) made'.
Proof.
  intros Hmade. destruct r as [deps conf | fs now | fs now]; cbn [handle].
  - destruct (Reconfigure_managers E svc w deps conf made Hmade) as (es & made' & H).
    exists es, made'. by destruct (Reconfigure E svc w deps conf) as [[svc' w'] res].
  - unfold Sync. destruct (syncer svc) as [m |] eqn:Hm.
    + cbn [fst snd]. destruct (sync_managers E fs now svc w made) as (es & H1 & H2 & H3).
      exists es, made. by rewrite H3.
    + destruct (initSyncer_managers E svc w made Hm Hmade)
        as (es0 & made' & H0 & Hm0 & Hmade' & _).
      assert (openManager svc = None) as -> by (unfold openManager; by rewrite Hm).
      destruct (initSyncer E svc w) as [[svc1 w1] res].
      unfold state_of, world_of in *. cbn [fst snd] in *.
      destruct res as [err |]; cbn [fst snd].
      * by exists es0, made'.
      * destruct (sync_managers E fs now svc1 w1 made') as (es & H1 & H2 & H3).
        exists (es0 ++ es)%list, made'. split; [by rewrite H1, H0, app_assoc |].
        split; [by rewrite monitor_app, Hm0 | by rewrite H3].
  - destruct (syncRoutineCancelFn svc); cbn [fst snd];
      [| exists [], made; by rewrite app_nil_r].
    unfold onTick. destruct (syncer svc) eqn:Hm; [| exists [], made; by rewrite app_nil_r].
    pose proof (shouldSync_events E svc w) as Hev.
    assert (nextId (snd (shouldSync E svc w)) = nextId w) as Hid.
    { unfold shouldSync, readyToSync. repeat (case_match; simplify_eq/=); reflexivity. }
    destruct (shouldSync E svc w) as [b w1]. cbn in Hev, Hid. destruct b.
    + destruct (sync_managers E fs now svc w1 made) as (es & H1 & H2 & H3).
      exists es, made. by rewrite H1, H3, Hev, Hid.
    + exists [], made. by rewrite app_nil_r, Hev, Hid.
Qed.

Lemma serve_managers E rs :
  forall svc w made,
    Forall (fun id => (id < nextId w)%nat) made ->
    exists es made',
      events (snd (serve E rs (svc, w))) = (events w ++ es)%list
      /\ monitor managerStep es (made, openManager svc)
         = Some (made', openManager (fst (serve E rs (svc, w)))).
Proof.
  induction rs as [| r rs IH]; intros svc w made Hmade.
  - exists [], made. by rewrite app_nil_r.
  - change (serve E (r :: rs) (svc, w)) with (serve E rs (handle E (svc, w) r)).
    destruct (handle_managers E svc w r made Hmade) as (es1 & made1 & H1 & Hm1 & Hmade1).
    destruct (handle E (svc, w) r) as [svc1 w1]. cbn [fst snd] in *.
    destruct (IH svc1 w1 made1 Hmade1) as (es2 & made2 & H2 & Hm2).
    exists (es1 ++ es2)%list, made2. split; [by rewrite H2, H1, app_assoc |].
    by rewrite monitor_app, Hm1.
Qed.

(** X14. One syncer at a time, and none used after its close. Over any
    history of [Reconfigure] calls, [Sync] calls and ticks on a service as
    it is made, every syncer the constructor makes has an identity of its
    own and is made while no other is open, and tags and files are given
    only to the syncer that is open, which alone is closed; the one open at
    the end is the syncer of the service. After [Close] none is open: every
    syncer made has been closed, once. *)
Theorem syncers_are_used_while_open E rs w :
  let svc' := fst (serve E rs (newBuiltIn E, w)) in
  let w' := snd (serve E rs (newBuiltIn E, w)) in
  (exists made,
      monitor managerStep (since w w') ([], None) = Some (made, openManager svc'))
  /\ (exists made,
         monitor managerStep (since w (snd (Close svc' w'))) ([], None)
         = Some (made, None)).
Proof.
  cbv zeta.
  destruct (serve_managers E rs (newBuiltIn E) w [] (Forall_nil_2 _))
    as (es & made & Hes & Hmon).
  destruct (serve E rs (newBuiltIn E, w)) as [svc' w']. cbn [fst snd] in *.
  change (openManager (newBuiltIn E)) with (@None nat) in Hmon.
  rewrite (since_app _ _ _ Hes). split; [by exists made |].
  exists made.
  assert (exists cl, events (snd (Close svc' w')) = (events w' ++ cl)%list
                     /\ monitor managerStep cl (made, openManager svc')
                        = Some (made, None))
    as (cl & Hcl & Hmcl).
  { unfold Close, closeCollectors, closeSyncer, openManager. cbn.
    set (cs := map _ (map_to_list (collectors svc'))).
    assert (forall st, monitor managerStep cs st = Some st) as Hcs.
    { intros st. apply (monitor_skip _ isCollectorEvent);
        [apply managerStep_collector | apply forallb_CollectorClose]. }
    clearbody cs.
    repeat (case_match; simplify_eq/=); rewrite <- ?app_assoc;
      (eexists; split; [reflexivity |]);
      first [rewrite monitor_app, Hcs | rewrite Hcs]; cbn;
      rewrite ?Nat.eqb_refl; reflexivity. }
  erewrite since_app; [| by rewrite Hcl, Hes, <- app_assoc].
  by rewrite monitor_app, Hmon.
Qed.


Lemma syncers_are_used_while_open_witness :
  let E := example_env true in
  let svc' := fst (serve E example_requests (newBuiltIn E, example_world)) in
  let w' := snd (serve E example_requests (newBuiltIn E, example_world)) in
  monitor managerStep (since example_world w') ([], None)
  = Some ([2%nat; 1%nat], Some 2%nat)
  /\ (exists made,
         monitor managerStep (since example_world w') ([], None)
         = Some (made, openManager svc'))
  /\ (exists made,
         monitor managerStep (since example_world (snd (Close svc' w'))) ([], None)
         = Some (made, None)).
Proof.
  cbv zeta. split; [vm_compute; reflexivity |].
  exact (syncers_are_used_while_open (example_env true) example_requests example_world).
Defined.


(** ** What a sync hands to the syncer *)

Lemma toSync_roots E fs now svc p :
  In p (toSync E fs now svc) <->
  exists root,
    In root (syncRoots svc)
    /\ In p (getAllFilesToSync (FileExt E) (InProgressFileExt E) (FailedDir E) fs now
               root (fileLastModifiedMillis svc)).
Proof.
  unfold toSync, syncRoots. rewrite in_app_iff, in_flat_map. split.
  - intros [H | (ap & Hap & H)].
    + exists (captureDir svc). split; [by left | exact H].
    + exists ap. split; [by right | exact H].
  - intros (root & [<- | Hap] & H); [by left | right; by exists root].
Qed.

Lemma In_sync_events E fs now svc w m p :
  In (SyncerSyncFile m p) (since w (sync E fs now svc w))
  <-> syncer svc = Some m /\ In p (toSync E fs now svc).
Proof.
  rewrite (since_app _ _ _ (sync_events E fs now svc w)), in_app_iff, !in_map_iff.
  split.
  - intros [(kv & Hkv & _) | H]; [discriminate |].
    destruct (syncer svc) as [m' |]; [| destruct H].
    apply in_map_iff in H as (p' & Hp & Hin). by simplify_eq.
  - intros [-> Hin]. right. apply in_map_iff. by exists p.
Qed.

(** X15. [Sync] hands to the syncer exactly the files its roots select: a
    path is given to a syncer during a call of [Sync] if and only if the call
    returns no error, the syncer is the one the service has afterwards, and
    the path is that of a regular file that the walk reaches from the capture
    directory or from one of the additional sync paths and that the
    condition of the selector holds of, with the stale threshold of the
    service. *)
Theorem Sync_hands_over_the_selected_files E fs now svc w m p :
  let S := Sync E fs now svc w in
  In (SyncerSyncFile m p) (since w (world_of S))
  <-> error_of S = None
      /\ syncer (state_of S) = Some m
      /\ exists root mt,
          In root (syncRoots svc)
          /\ Scanned (FailedDir E) root (fs root) p mt
          /\ selects (FileExt E) (InProgressFileExt E) now (fileLastModifiedMillis svc)
               p mt = true.
Proof.
  cbv zeta.
  assert (forall svc1,
             syncRoots svc1 = syncRoots svc ->
             fileLastModifiedMillis svc1 = fileLastModifiedMillis svc ->
             In p (toSync E fs now svc1) <->
             exists root mt,
               In root (syncRoots svc)
               /\ Scanned (FailedDir E) root (fs root) p mt
               /\ selects (FileExt E) (InProgressFileExt E) now
                    (fileLastModifiedMillis svc) p mt = true) as Hsel.
  { intros svc1 Hr Hf. rewrite toSync_roots, Hr, Hf. split.
    - intros (root & Hroot & (mt & Hsc & Hs)%getAllFilesToSync_Scanned). by exists root, mt.
    - intros (root & mt & Hroot & Hsc & Hs). exists root. split; [exact Hroot |].
      apply getAllFilesToSync_Scanned. by exists mt. }
  unfold Sync. destruct (syncer svc) as [m0 |] eqn:Hm0.
  - unfold world_of, state_of, error_of. cbn [fst snd].
    rewrite In_sync_events, (Hsel svc eq_refl eq_refl), Hm0. tauto.
  - unfold initSyncer, fresh.
    repeat (case_match; simplify_eq/=); unfold world_of, state_of, error_of; cbn [fst snd];
      try (split; [| by intros [? _]];
           erewrite since_app; [| symmetry; apply app_nil_r]; by intros []).
    match goal with
    | |- context [sync E fs now ?s ?w1] =>
        destruct (sync_scheduler E fs now s w1 true) as (es & Hes & _);
        pose proof (In_sync_events E fs now s w1 m p) as Hin;
        rewrite (Hsel s eq_refl eq_refl) in Hin;
        rewrite (since_app _ _ _ Hes) in Hin;
        erewrite since_app; [| rewrite Hes; cbn; rewrite <- app_assoc; reflexivity]
    end.
    cbn [app In]. cbn in Hin. rewrite <- Hin. split; [intros [H | H] |]; try done; tauto.
Qed.

Lemma Sync_hands_over_the_selected_files_witness :
  let E := example_env_data in
  let svc := state_of example_data_running in
  let w := world_of example_data_running in
  let S := Sync E example_fs example_now svc w in
  List.filter (fun e => match e with SyncerSyncFile _ _ => true | _ => false end)
    (since w (world_of S))
  = [SyncerSyncFile (NewManager 1) "/data/a.completed";
     SyncerSyncFile (NewManager 1) "/data/b.inprogress"]
  /\ (In (SyncerSyncFile (NewManager 1) "/data/b.inprogress") (since w (world_of S))
      <-> error_of S = None
          /\ syncer (state_of S) = Some (NewManager 1)
          /\ exists root mt,
              In root (syncRoots svc)
              /\ Scanned (FailedDir E) root (example_fs root) "/data/b.inprogress" mt
              /\ selects (FileExt E) (InProgressFileExt E) example_now
                   (fileLastModifiedMillis svc) "/data/b.inprogress" mt = true).
Proof.
  cbv zeta. split; [vm_compute; reflexivity |].
  exact (Sync_hands_over_the_selected_files example_env_data example_fs example_now
           (state_of example_data_running) (world_of example_data_running)
           (NewManager 1) "/data/b.inprogress").
Defined.

(** ** Edges of [Sync], [NewBuiltIn] and [initializeOrUpdateCollector] *)

(** X16. On a robot that is not managed by the cloud, the first [Sync] of a
    service without syncer returns [cloud.ErrNotCloudManaged], flushes and
    syncs nothing, and leaves the no-op syncer in place; every [Sync] after
    it returns no error, keeps the service as it is, flushes the collectors
    and hands the selected files to the no-op syncer. *)
Theorem Sync_not_cloud_managed E fs now svc w c :
  syncer svc = None ->
  cloudConnSvc svc = Some c ->
  AcquireConnection E c = AcquireNotCloudManaged ->
  let S1 := Sync E fs now svc w in
  error_of S1 = Some ErrNotCloudManaged
  /\ events (world_of S1) = events w
  /\ state_of S1 = set_syncer (Some NoopManager) svc
  /\ forall fs' now' w',
      let S2 := Sync E fs' now' (state_of S1) w' in
      error_of S2 = None
      /\ state_of S2 = state_of S1
      /\ since w' (world_of S2)
         = (map (fun kv => CollectorFlush (Collector (snd kv)))
              (map_to_list (collectors svc))
            ++ map (SyncerSyncFile NoopManager) (toSync E fs' now' svc))%list.
Proof.
  intros Hm Hc Hacq. cbv zeta.
  assert (Sync E fs now svc w
          = (set_syncer (Some NoopManager) svc, log LogNoopManager w,
             Some ErrNotCloudManaged)) as ->.
  { unfold Sync, initSyncer. by rewrite Hm, Hc, Hacq. }
  unfold error_of, world_of, state_of. cbn [fst snd].
  split; [reflexivity |]. split; [reflexivity |]. split; [reflexivity |].
  intros fs' now' w'. unfold Sync. cbn [syncer set_syncer fst snd].
  split; [reflexivity |]. split; [reflexivity |].
  apply since_app. by rewrite sync_events.
Qed.

Lemma Sync_not_cloud_managed_witness :
  let E := example_env_local in
  let svc := set_cloudConnSvc (Some 1%nat) (newBuiltIn E) in
  let S1 := Sync E example_fs example_now svc example_world in
  syncer svc = None
  /\ cloudConnSvc svc = Some 1%nat
  /\ AcquireConnection E 1%nat = AcquireNotCloudManaged
  /\ error_of S1 = Some ErrNotCloudManaged
  /\ events (world_of S1) = events example_world
  /\ state_of S1 = set_syncer (Some NoopManager) svc
  /\ forall fs' now' w',
      let S2 := Sync E fs' now' (state_of S1) w' in
      error_of S2 = None
      /\ state_of S2 = state_of S1
      /\ since w' (world_of S2)
         = (map (fun kv => CollectorFlush (Collector (snd kv)))
              (map_to_list (collectors svc))
            ++ map (SyncerSyncFile NoopManager) (toSync E fs' now' svc))%list.
Proof.
  cbv zeta.
  split; [reflexivity |]. split; [reflexivity |]. split; [reflexivity |].
  exact (Sync_not_cloud_managed example_env_local example_fs example_now
           (set_cloudConnSvc (Some 1%nat) (newBuiltIn example_env_local))
           example_world 1%nat eq_refl eq_refl eq_refl).
Defined.

Lemma initializeOrUpdateCollector_no_close E svc md d w :
  collectors svc !! md = None ->
  extends notCollectorClose w (snd (initializeOrUpdateCollector E svc md d w)).
Proof.
  intros Hnone. unfold initializeOrUpdateCollector, fresh. rewrite Hnone.
  repeat (case_match; simplify_eq/=); solve_extends.
Qed.

Lemma reconfigureCollector_no_close E cfg svc new w d :
  collectors svc = ∅ ->
  extends notCollectorClose w (snd (reconfigureCollector E cfg (svc, new, w) d)).
Proof.
  intros Hempty. unfold reconfigureCollector.
  repeat (case_match; simplify_eq/=); try solve_extends;
    match goal with
    | H : initializeOrUpdateCollector ?E ?s ?md ?d ?w0 = _ |- _ =>
        pose proof (initializeOrUpdateCollector_no_close E s md d w0) as Hx;
        rewrite H in Hx; cbn in Hx;
        (eapply extends_trans; [| eapply extends_trans; [apply Hx |]]);
        [solve_extends | by rewrite Hempty, lookup_empty | solve_extends]
    end.
Qed.

Lemma fold_reconfigureCollector_no_close E cfg rcs :
  forall svc new w,
    collectors svc = ∅ ->
    extends notCollectorClose w
      (snd (fold_left (reconfigureCollector E cfg) rcs (svc, new, w))).
Proof.
  induction rcs as [| d rcs IH]; intros svc new w Hempty; [apply extends_refl |].
  cbn [fold_left].
  pose proof (reconfigureCollector_no_close E cfg svc new w d Hempty) as H1.
  destruct (reconfigureCollector E cfg (svc, new, w) d) as [[svc1 new1] w1] eqn:Hstep.
  apply reconfigureCollector_general in Hstep as (_ & _ & _ & Hm & _).
  eapply extends_trans; [exact H1 |]. apply IH. by rewrite Hm.
Qed.

Lemma reconfigureCapture_no_close E cfg rcs svc w :
  collectors svc = ∅ ->
  extends notCollectorClose w (snd (reconfigureCapture E cfg rcs svc w)).
Proof.
  intros Hempty. unfold reconfigureCapture.
  set (svcA := set_captureDisabled _ _).
  assert (collectors svcA = ∅) as HA.
  { unfold svcA. by destruct (bool_decide _). }
  clearbody svcA. destruct (captureDisabled svcA) eqn:Hdis.
  - unfold closeCollectors. cbv beta iota zeta.
    change (captureDisabled (set_collectors ∅ svcA)) with (captureDisabled svcA).
    rewrite Hdis, HA. cbn. unfold closeRemoved. rewrite map_to_list_empty. cbn.
    exists []. cbn. by rewrite !app_nil_r.
  - cbv beta iota zeta. rewrite Hdis. cbn [negb].
    pose proof (fold_reconfigureCollector_no_close E cfg rcs svcA ∅ w HA) as Hx.
    destruct (fold_left _ rcs _) as [[svc1 new] w1] eqn:Hfold.
    apply fold_reconfigureCollector_general in Hfold as (_ & _ & _ & Hm & _).
    cbn [fst snd] in *. rewrite Hm, HA. unfold closeRemoved.
    rewrite map_to_list_empty. cbn.
    eapply extends_trans; [exact Hx |]. exists []. cbn. by rewrite !app_nil_r.
Qed.

(** X17. [NewBuiltIn] closes no collector, whatever it returns: when it
    fails after the capture part, in the making of the syncer, the
    collectors it has built and started stay started, and it returns no
    service to close them with. *)
Theorem NewBuiltIn_closes_no_collector E w deps conf c :
  let N := NewBuiltIn E w deps conf in
  ~ In (CollectorClose c) (since w (world_of N))
  /\ (error_of N <> None -> state_of N = None).
Proof.
  cbv zeta. split.
  - assert (world_of (NewBuiltIn E w deps conf)
            = world_of (Reconfigure E (newBuiltIn E) w deps conf)) as ->.
    { unfold NewBuiltIn. by destruct (Reconfigure _ _ _ _ _) as [[? ?] [?|]]. }
    assert (extends notCollectorClose w
              (world_of (Reconfigure E (newBuiltIn E) w deps conf))) as Hext.
    { destruct (Reconfigure_checks E (newBuiltIn E) w deps conf)
        as [(cfg & c0 & Hconf & Hc & Hdir) | (_ & Hev & _)];
        [| by apply extends_same_events].
      destruct (Reconfigure_around_capture E (newBuiltIn E) w deps conf cfg c0
                  Hconf Hc Hdir) as (w0 & svc1 & w1 & Hev0 & Hcap & _ & Hext).
      eapply extends_trans; [by apply extends_same_events |].
      eapply extends_trans.
      - pose proof (reconfigureCapture_no_close E cfg
                      (map (resolve deps (CaptureDir cfg)) (ResourceConfigs cfg))
                      (set_cloudConnSvc (Some c0) (newBuiltIn E)) w0 eq_refl) as Hx.
        rewrite Hcap in Hx. exact Hx.
      - eapply extends_weaken; [| exact Hext]. by intros []. }
    intros Hin. by apply (extends_since _ _ _ _ Hext) in Hin.
  - unfold NewBuiltIn. by destruct (Reconfigure _ _ _ _ _) as [[? ?] [?|]].
Qed.

(** X18. The analog readers and the GPIO pins of a board are captured only
    with their parameter: for the methods "Analogs" and "Gpios" of the API
    "rdk:component:board", when the additional parameters of the declaration
    lack "reader_name" and "pin_name" respectively and no task of an equal
    declaration is in place, [initializeOrUpdateCollector] returns an error
    and makes no directory and no collector; all it does is close the
    collector of the task in place, if there is one. *)
Theorem board_collector_needs_its_parameter E svc md config w key :
  data.API (MethodMetadata md) = "rdk:component:board" ->
  In (data.MethodName (MethodMetadata md), key)
     [("Analogs", "reader_name"); ("Gpios", "pin_name")] ->
  datamanager.AdditionalParams config !! key = None ->
  (forall stored, collectors svc !! md = Some stored ->
                  Equals E (Config_ stored) config = false) ->
  let R := initializeOrUpdateCollector E svc md config w in
  fst R = None
  /\ nextId (snd R) = nextId w
  /\ forall e, In e (since w (snd R)) ->
               exists stored, collectors svc !! md = Some stored
                              /\ e = CollectorClose (Collector stored).
Proof.
  intros Hapi Hkey Hparam Hstored. cbv zeta.
  assert (metadataToAdditionalParamFields
            !! generateMetadataKey (data.API (MethodMetadata md))
                 (data.MethodName (MethodMetadata md)) = Some key) as Hlook.
  { rewrite Hapi. destruct Hkey as [[= <- <-] | [[= <- <-] | []]]; vm_compute; reflexivity. }
  unfold initializeOrUpdateCollector. rewrite Hlook, Hparam.
  rewrite bool_decide_eq_true_2 by reflexivity.
  destruct (BuildCaptureMetadata E _ _ _ _ _); cbn [fst snd];
    [| split; [reflexivity |]; split; [reflexivity |];
       erewrite since_app; [| symmetry; apply app_nil_r]; by intros e []].
  destruct (collectors svc !! md) as [stored |] eqn:Hst.
  - rewrite (Hstored stored eq_refl).
    destruct (CollectorLookup E (MethodMetadata md)); cbn [fst snd];
      (split; [reflexivity |]); (split; [reflexivity |]);
      (erewrite since_app; [| reflexivity]); intros e [<- | []]; by exists stored.
  - destruct (CollectorLookup E (MethodMetadata md)); cbn [fst snd];
      (split; [reflexivity |]); (split; [reflexivity |]);
      (erewrite since_app; [| symmetry; apply app_nil_r]); by intros e [].
Qed.

Lemma board_collector_needs_its_parameter_witness :
  let E := example_env true in
  let md := componentMethodMetadataOf E example_analogs_resConf in
  let R := initializeOrUpdateCollector E (newBuiltIn E) md example_analogs_resConf
             example_world in
  data.API (MethodMetadata md) = "rdk:component:board"
  /\ In (data.MethodName (MethodMetadata md), "reader_name")
        [("Analogs", "reader_name"); ("Gpios", "pin_name")]
  /\ datamanager.AdditionalParams example_analogs_resConf !! "reader_name" = None
  /\ (forall stored, collectors (newBuiltIn E) !! md = Some stored ->
                     Equals E (Config_ stored) example_analogs_resConf = false)
  /\ fst R = None
  /\ nextId (snd R) = nextId example_world
  /\ forall e, In e (since example_world (snd R)) ->
               exists stored, collectors (newBuiltIn E) !! md = Some stored
                              /\ e = CollectorClose (Collector stored).
Proof.
  cbv zeta.
  assert (forall stored,
             collectors (newBuiltIn (example_env true))
               !! componentMethodMetadataOf (example_env true) example_analogs_resConf
             = Some stored ->
             Equals (example_env true) (Config_ stored) example_analogs_resConf = false)
    as Hstored by (intros stored H; vm_compute in H; discriminate).
  split; [reflexivity |]. split; [left; reflexivity |]. split; [reflexivity |].
  split; [exact Hstored |].
  exact (board_collector_needs_its_parameter (example_env true)
           (newBuiltIn (example_env true))
           (componentMethodMetadataOf (example_env true) example_analogs_resConf)
           example_analogs_resConf example_world "reader_name"
           eq_refl (or_introl eq_refl) eq_refl Hstored).
Defined.

Lemma NewBuiltIn_closes_no_collector_witness :
  let E := example_env_no_syncer in
  let N := NewBuiltIn E example_world (example_deps 1 (fun _ => None))
             (conf_of example_config) in
  error_of N = Some errSyncerInit
  /\ In (CollectorCollect 0%nat) (since example_world (world_of N))
  /\ ~ In (CollectorClose 0%nat) (since example_world (world_of N))
  /\ (error_of N <> None -> state_of N = None).
Proof.
  cbv zeta. split; [vm_compute; reflexivity |].
  split; [vm_compute; tauto |].
  exact (NewBuiltIn_closes_no_collector example_env_no_syncer example_world
           (example_deps 1 (fun _ => None)) (conf_of example_config) 0%nat).
Defined.


(** ** Changing the sync settings *)




Lemma reconfigureSync_disabled E r cfg flm svc w :
  ScheduledSyncDisabled cfg = true \/ SyncIntervalMins cfg = 0%float ->
  schedulerInvariant svc ->
  let R := reconfigureSync E r cfg flm svc w in
  error_of R = None
  /\ syncRoutineCancelFn (state_of R) = false
  /\ (syncSettingsChanged svc cfg flm = true ->
      syncer (state_of R) = None /\ syncTicker (state_of R) = None).
Proof.
  intros Hoff Hinv. cbv zeta.
  assert (negb (ScheduledSyncDisabled cfg)
          && negb (PrimFloat.eqb (SyncIntervalMins cfg) 0%float) = false) as Hb.
  { destruct Hoff as [-> | ->]; [reflexivity | apply andb_false_r]. }
  destruct (syncSettingsChanged svc cfg flm) eqn:Hch.
  - destruct (reconfigureSync E r cfg flm svc w) as [[svc' w'] res] eqn:H.
    unfold syncSettingsChanged in Hch. unfold error_of, state_of. cbn [fst snd].
    sync_cases; try congruence; by repeat split.
  - rewrite (reconfigureSync_unchanged _ _ _ _ _ _ Hch).
    unfold error_of, state_of. cbn [fst snd].
    split; [reflexivity |]. split; [| discriminate].
    destruct (syncRoutineCancelFn svc) eqn:Hrun; [| reflexivity].
    destruct (Hinv Hrun) as (_ & Hen & Hint & _).
    unfold syncSettingsChanged in Hch.
    repeat match type of Hch with
           | _ || _ = false => apply orb_false_iff in Hch as [Hch ?]
           end.
    repeat match goal with
           | H : negb _ = false |- _ => apply negb_false_iff in H
           end.
    apply Bool.eqb_prop in Hch. destruct Hoff as [Hoff | Hoff]; [congruence |].
    rewrite Hoff in *. congruence.
Qed.

(** X20. Disabling scheduled sync stops the scheduler and cannot fail. When
    [Reconfigure] gets past its checks with a config that disables scheduled
    sync or has a sync interval of zero, on a service whose scheduler, if it
    runs, runs with sync enabled, the call returns no error and leaves no
    scheduler running, so that a tick no longer reaches the service; and if
    a sync setting differed from the one in force, it leaves no syncer and no
    ticker. *)
Theorem disabling_sync_stops_the_scheduler E svc w deps conf cfg c :
  ConvertedAttributes conf = Some cfg ->
  cloudConnectionService deps = Some c ->
  captureDirProhibited E cfg = false ->
  ScheduledSyncDisabled cfg = true \/ SyncIntervalMins cfg = 0%float ->
  schedulerInvariant svc ->
  let R := Reconfigure E svc w deps conf in
  error_of R = None
  /\ syncRoutineCancelFn (state_of R) = false
  /\ (forall fs now w', handle E (state_of R, w') (ReqTick fs now) = (state_of R, w'))
  /\ (syncSettingsChanged svc cfg (effectiveFileLastModifiedMillis cfg) = true ->
      syncer (state_of R) = None /\ syncTicker (state_of R) = None).
Proof.
  intros Hconf Hc Hdir Hoff Hinv. cbv zeta.
  destruct (Reconfigure_stores E svc w deps conf cfg c Hconf Hc Hdir)
    as (svc2 & w2 & -> & Hs2 & _).
  set (r := negb _). clearbody r.
  destruct (reconfigureSync_disabled E r cfg (effectiveFileLastModifiedMillis cfg) svc2 w2
              Hoff (schedulerInvariant_syncFields _ _ Hs2 Hinv))
    as (Herr & Hrun & Hch).
  rewrite (syncSettingsChanged_syncFields _ _ _ _ Hs2) in Hch.
  split; [exact Herr |]. split; [exact Hrun |]. split; [| exact Hch].
  intros fs now w'. cbn [handle]. by rewrite Hrun.
Qed.

Lemma disabling_sync_stops_the_scheduler_witness :
  let E := example_env true in
  let deps := example_deps 1 (fun _ => None) in
  let svc := state_of example_running in
  let w := world_of example_running in
  let cfg := mkConfig "" None 1%float false true None [example_resConf] 0 "" in
  let R := Reconfigure E svc w deps (conf_of cfg) in
  ConvertedAttributes (conf_of cfg) = Some cfg
  /\ cloudConnectionService deps = Some 1%nat
  /\ captureDirProhibited E cfg = false
  /\ (ScheduledSyncDisabled cfg = true \/ SyncIntervalMins cfg = 0%float)
  /\ schedulerInvariant svc
  /\ syncRoutineCancelFn svc = true
  /\ error_of R = None
  /\ syncRoutineCancelFn (state_of R) = false
  /\ (forall fs now w', handle E (state_of R, w') (ReqTick fs now) = (state_of R, w'))
  /\ (syncSettingsChanged svc cfg (effectiveFileLastModifiedMillis cfg) = true ->
      syncer (state_of R) = None /\ syncTicker (state_of R) = None).
Proof.
  cbv zeta.
  assert (schedulerInvariant (state_of example_running)) as Hinv.
  { intros _. split; [eexists; vm_compute; reflexivity |].
    repeat split; vm_compute; reflexivity. }
  split; [reflexivity |]. split; [reflexivity |]. split; [reflexivity |].
  split; [left; reflexivity |]. split; [exact Hinv |].
  split; [vm_compute; reflexivity |].
  exact (disabling_sync_stops_the_scheduler (example_env true) (state_of example_running)
           (world_of example_running) (example_deps 1 (fun _ => None))
           (conf_of (mkConfig "" None 1%float false true None [example_resConf] 0 ""))
           (mkConfig "" None 1%float false true None [example_resConf] 0 "") 1%nat
           eq_refl eq_refl eq_refl (or_introl eq_refl) Hinv).
Defined.


(** ** The log of the capture frequencies *)



















